(** * IQAir scraping engine: a shallow embedding of [src/server/iqair.ts]

    The development follows the server module function by function:

    - [Js]: the JavaScript string, regular-expression and number primitives
      the module relies on ([trim], [toLowerCase], [includes], [split],
      [replace], [match], [parseInt], [parseFloat]);
    - [Dom]: the cheerio queries the module issues on a parsed document
      ([find], [filter], [first], [has], [text], [attr]);
    - [IQAir]: the four exported functions and the flat-array parser,
      written in an exception monad over an explicit world (the [fetch]
      function and the platform parsers);
    - [Claimed]: the notions of the specification that the statements use;
    - [Examples]: concrete pages and payloads;
    - [Facts]: the properties.

    Strings are sequences of code units in the Latin-1 range (every literal
    of the source, including the micro and superscript-three signs of the
    pollutant unit, lives there).  The one operation of the source that
    leaves this range is [toUpperCase] on the micro sign and on y with
    diaeresis; see [Js.upperUnits].  Numbers that
    come from JSON or from [parseInt] are finite and are modelled exactly as
    rationals; the results of [parseFloat] keep their [NaN] and [Infinity]
    cases.  Rounding to binary64, and with it the overflow and underflow of
    extreme literals, is not modelled. *)

From Stdlib Require Import Bool Arith NArith ZArith QArith Lia List Ascii String.
From Stdlib Require Import Qabs Lqa Permutation Sorted DecimalString.
Import ListNotations.

Local Open Scope bool_scope.

(* ===================================================================== *)
(** * JavaScript primitives *)
(* ===================================================================== *)

Module Js.

Local Open Scope string_scope.
Local Open Scope nat_scope.

(** ** Characters *)

Definition code (c : ascii) : nat := nat_of_ascii c.

Definition between (lo hi n : nat) : bool := (lo <=? n) && (n <=? hi).

(** WhiteSpace and LineTerminator code units below 256: TAB, LF, VT, FF, CR,
    SP and NBSP.  This is the set used by [trim] and by the class [\s]. *)
Definition isWhiteSpace (c : ascii) : bool :=
  let n := code c in between 9 13 n || (n =? 32) || (n =? 160).

Definition isDigit (c : ascii) : bool := between 48 57 (code c).

Definition isAsciiUpper (c : ascii) : bool := between 65 90 (code c).
Definition isAsciiLower (c : ascii) : bool := between 97 122 (code c).

(** Latin-1 letters with a lower-case partner 32 code units above
    (A-Z, and the accented capitals 192-222 without the multiplication sign). *)
Definition hasLower (c : ascii) : bool :=
  let n := code c in between 65 90 n || (between 192 222 n && negb (n =? 215)).

(** Latin-1 letters with an upper-case partner 32 code units below
    (a-z, and the accented small letters 224-254 without the division
    sign). *)
Definition hasUpper (c : ascii) : bool :=
  let n := code c in between 97 122 n || (between 224 254 n && negb (n =? 247)).

Definition toLowerChar (c : ascii) : ascii :=
  if hasLower c then ascii_of_nat (code c + 32) else c.

(** The upper-case partner of a code unit where that is one code unit below
    256, the code unit itself otherwise.  This is the comparison of the [i]
    flag: the canonical form of a code unit whose upper case is several code
    units is the code unit itself, and no other Latin-1 code unit shares the
    canonical form of the micro sign or of y with diaeresis. *)
Definition toUpperChar (c : ascii) : ascii :=
  if hasUpper c then ascii_of_nat (code c - 32) else c.

(** [c.toUpperCase()] for one code unit [c].  Sharp s (223) becomes the two
    code units "SS".  The micro sign (181) and y with diaeresis (255) become
    U+039C and U+0178, code units above 255 that the strings of this
    development cannot hold: on these two the function returns its argument
    as a stand-in, and no property below depends on which code unit stands
    there. *)
Definition upperUnits (c : ascii) : string :=
  if code c =? 223 then "SS" else String (toUpperChar c) EmptyString.

(** ** Strings *)

Fixpoint mapString (f : ascii -> ascii) (s : string) : string :=
  match s with
  | EmptyString => EmptyString
  | String c s' => String (f c) (mapString f s')
  end.

Definition toLowerCase : string -> string := mapString toLowerChar.

(** [s.toUpperCase()]: the result can be longer than [s]. *)
Fixpoint toUpperCase (s : string) : string :=
  match s with
  | EmptyString => EmptyString
  | String c s' => upperUnits c ++ toUpperCase s'
  end.

Definition isEmpty (s : string) : bool :=
  match s with EmptyString => true | _ => false end.

(** Truthiness of a string: [Boolean(s)], [if (s)], [!s] negated. *)
Definition truthy (s : string) : bool := negb (isEmpty s).

Fixpoint trimStart (s : string) : string :=
  match s with
  | EmptyString => EmptyString
  | String c s' => if isWhiteSpace c then trimStart s' else s
  end.

Definition reverse (s : string) : string :=
  string_of_list_ascii (rev (list_ascii_of_string s)).

Definition trimEnd (s : string) : string := reverse (trimStart (reverse s)).

Definition trim (s : string) : string := trimEnd (trimStart s).

(** [s.startsWith(p)] *)
Definition startsWith (s p : string) : bool := String.prefix p s.

(** [s.includes(sub)] *)
Fixpoint includes (s sub : string) : bool :=
  String.prefix sub s ||
  match s with
  | EmptyString => false
  | String _ s' => includes s' sub
  end.

Fixpoint drop (n : nat) (s : string) : string :=
  match n, s with
  | S n', String _ s' => drop n' s'
  | _, _ => s
  end.

Definition take (n : nat) (s : string) : string := String.substring 0 n s.

(** [s.split(sep)] for a one-character separator. *)
Fixpoint splitChar (sep : ascii) (s : string) : list string :=
  match s with
  | EmptyString => [EmptyString]
  | String c s' =>
      if Ascii.eqb c sep then EmptyString :: splitChar sep s'
      else match splitChar sep s' with
           | piece :: rest => String c piece :: rest
           | [] => [String c EmptyString]
           end
  end.

(** [xs.filter(Boolean)] on an array of strings. *)
Definition filterBoolean (xs : list string) : list string := filter truthy xs.

(** [xs.join(sep)] *)
Fixpoint join (sep : string) (xs : list string) : string :=
  match xs with
  | [] => EmptyString
  | [x] => x
  | x :: rest => x ++ sep ++ join sep rest
  end.

(** [w.charAt(0).toUpperCase() + w.slice(1)] *)
Definition capitalize (w : string) : string :=
  match w with
  | EmptyString => EmptyString
  | String c rest => toUpperCase (String c EmptyString) ++ rest
  end.

(** [s.replace(pat, repl)] with a string pattern: only the first occurrence
    is replaced, and the empty pattern matches at the start. *)
Fixpoint replaceString (pat repl s : string) : string :=
  if String.prefix pat s then repl ++ drop (String.length pat) s
  else match s with
       | EmptyString => EmptyString
       | String c s' => String c (replaceString pat repl s')
       end.

(** ** Regular expressions

    A backtracking matcher in continuation-passing style, with the priority
    rules of ECMAScript: alternatives left to right, greedy quantifiers try
    one more iteration first, lazy ones try the continuation first.  Every
    quantifier of the source is applied to a one-character atom, which is the
    only form [Rep] offers. *)

Inductive regex : Type :=
| Cls (p : ascii -> bool)
| Eps
| Seq (r1 r2 : regex)
| Alt (r1 r2 : regex)
| Rep (greedy : bool) (min : nat) (max : option nat) (p : ascii -> bool)
| Grp (i : nat) (r : regex)
| Bol
| Eol.

Definition Chr (c : ascii) : regex := Cls (Ascii.eqb c).

Fixpoint Str (s : string) : regex :=
  match s with
  | EmptyString => Eps
  | String c s' => Seq (Chr c) (Str s')
  end.

Fixpoint Seqs (rs : list regex) : regex :=
  match rs with
  | [] => Eps
  | [r] => r
  | r :: rest => Seq r (Seqs rest)
  end.

Fixpoint Alts (rs : list regex) : regex :=
  match rs with
  | [] => Eps
  | [r] => r
  | r :: rest => Alt r (Alts rest)
  end.

Definition Star (p : ascii -> bool) : regex := Rep true 0 None p.
Definition Plus (p : ascii -> bool) : regex := Rep true 1 None p.
Definition Opt (p : ascii -> bool) : regex := Rep true 0 (Some 1) p.
Definition LazyStar (p : ascii -> bool) : regex := Rep false 0 None p.

Definition anyChar : ascii -> bool := fun _ => true.
Definition orCls (p q : ascii -> bool) : ascii -> bool := fun c => p c || q c.
Definition isChar (c : ascii) : ascii -> bool := Ascii.eqb c.
Definition inRange (lo hi : ascii) : ascii -> bool :=
  fun c => between (code lo) (code hi) (code c).

(** With the [i] flag a character matches a class when the class contains it
    or its case partner. *)
Definition cmatch (ic : bool) (p : ascii -> bool) (x : ascii) : bool :=
  p x || (ic && (p (toLowerChar x) || p (toUpperChar x))).

Definition Captures : Type := list (nat * string).

(** End position, remaining input, captures. *)
Definition MatchState : Type := (nat * string * Captures)%type.

Definition orElse {A} (x : option A) (y : unit -> option A) : option A :=
  match x with Some v => Some v | None => y tt end.

Fixpoint rmatch (ic : bool) (r : regex) (pos : nat) (s : string) (cs : Captures)
    (k : nat -> string -> Captures -> option MatchState) {struct r}
    : option MatchState :=
  match r with
  | Cls p =>
      match s with
      | String x s' => if cmatch ic p x then k (S pos) s' cs else None
      | EmptyString => None
      end
  | Eps => k pos s cs
  | Seq r1 r2 =>
      rmatch ic r1 pos s cs (fun pos' s' cs' => rmatch ic r2 pos' s' cs' k)
  | Alt r1 r2 =>
      orElse (rmatch ic r1 pos s cs k) (fun _ => rmatch ic r2 pos s cs k)
  | Grp i r1 =>
      rmatch ic r1 pos s cs
        (fun pos' s' cs' => k pos' s' ((i, take (pos' - pos) s) :: cs'))
  | Bol => if pos =? 0 then k pos s cs else None
  | Eol => if isEmpty s then k pos s cs else None
  | Rep greedy mn mx p =>
      (fix rep (mn : nat) (mx : option nat) (pos : nat) (s : string) {struct s}
         : option MatchState :=
         let more (_ : unit) :=
           match mx, s with
           | Some 0, _ => None
           | _, String x s' =>
               if cmatch ic p x
               then rep (Nat.pred mn) (option_map Nat.pred mx) (S pos) s'
               else None
           | _, EmptyString => None
           end in
         match mn with
         | S _ => more tt
         | 0 => if greedy then orElse (more tt) (fun _ => k pos s cs)
                else orElse (k pos s cs) more
         end) mn mx pos s
  end.

Definition matchAt (ic : bool) (r : regex) (pos : nat) (s : string)
  : option MatchState :=
  rmatch ic r pos s [] (fun e rest cs => Some (e, rest, cs)).

(** Leftmost match: the start index together with the match state. *)
Fixpoint execFrom (ic : bool) (r : regex) (pos : nat) (s : string)
  : option (nat * MatchState) :=
  match matchAt ic r pos s with
  | Some m => Some (pos, m)
  | None =>
      match s with
      | EmptyString => None
      | String _ s' => execFrom ic r (S pos) s'
      end
  end.

Definition exec (ic : bool) (r : regex) (s : string) : option (nat * MatchState) :=
  execFrom ic r 0 s.

(** [re.test(s)] *)
Definition test (ic : bool) (r : regex) (s : string) : bool :=
  match exec ic r s with Some _ => true | None => false end.

(** [s.match(re)] for a non-global expression: the captures, or [None] for
    [null]. *)
Definition matchRe (ic : bool) (r : regex) (s : string) : option Captures :=
  match exec ic r s with
  | Some (_, (_, _, cs)) => Some cs
  | None => None
  end.

(** [m[i]]: the text captured by group [i] ([""] stands for [undefined],
    which every use in the source treats alike). *)
Fixpoint group (i : nat) (cs : Captures) : string :=
  match cs with
  | [] => EmptyString
  | (j, v) :: rest => if i =? j then v else group i rest
  end.

(** [s.replace(re, repl)] for a non-global expression. *)
Definition replaceRe (ic : bool) (r : regex) (repl s : string) : string :=
  match exec ic r s with
  | Some (start, (_, rest, _)) => take start s ++ repl ++ rest
  | None => s
  end.

(** [s.replace(re, repl)] for a global expression.  [skip] counts the
    characters of the current match that are still to be dropped. *)
Fixpoint replaceAllFrom (ic : bool) (r : regex) (repl : string)
    (pos : nat) (s : string) (skip : nat) {struct s} : string :=
  match s with
  | EmptyString =>
      match skip, matchAt ic r pos s with
      | 0, Some _ => repl
      | _, _ => EmptyString
      end
  | String c s' =>
      match skip with
      | S n => replaceAllFrom ic r repl (S pos) s' n
      | 0 =>
          match matchAt ic r pos s with
          | Some (e, _, _) =>
              if e =? pos
              then repl ++ String c (replaceAllFrom ic r repl (S pos) s' 0)
              else repl ++ replaceAllFrom ic r repl (S pos) s' (e - pos - 1)
          | None => String c (replaceAllFrom ic r repl (S pos) s' 0)
          end
      end
  end.

Definition replaceAllRe (ic : bool) (r : regex) (repl s : string) : string :=
  replaceAllFrom ic r repl 0 s 0.

(** [s.split(re)] for an expression without groups.  [cur] is the piece
    being built; an empty match at the start of a piece does not split. *)
Fixpoint splitFrom (ic : bool) (r : regex) (pos : nat) (s : string)
    (skip : nat) (cur : string) {struct s} : list string :=
  match s with
  | EmptyString => [cur]
  | String c s' =>
      match skip with
      | S n => splitFrom ic r (S pos) s' n cur
      | 0 =>
          match matchAt ic r pos s with
          | Some (e, _, _) =>
              if e =? pos
              then if isEmpty cur
                   then splitFrom ic r (S pos) s' 0 (String c EmptyString)
                   else cur :: splitFrom ic r (S pos) s' 0 (String c EmptyString)
              else cur :: splitFrom ic r (S pos) s' (e - pos - 1) EmptyString
          | None => splitFrom ic r (S pos) s' 0 (cur ++ String c EmptyString)
          end
      end
  end.

Definition splitRe (ic : bool) (r : regex) (s : string) : list string :=
  match s with
  | EmptyString =>
      match matchAt ic r 0 s with Some _ => [] | None => [EmptyString] end
  | _ => splitFrom ic r 0 s 0 EmptyString
  end.

(** The character classes of the source. *)
Definition cls_s : ascii -> bool := isWhiteSpace.
Definition cls_d : ascii -> bool := isDigit.
Definition cls_alnum : ascii -> bool :=
  orCls (inRange "a" "z") (orCls (inRange "A" "Z") (inRange "0" "9")).

(** ** Numbers *)

(** The value of a [parseFloat]. *)
Inductive number : Type :=
| NaN
| Infinity (negative : bool)
| Num (q : Q).

Definition isNaN (v : number) : bool :=
  match v with NaN => true | _ => false end.

(** [v === 0] *)
Definition isZero (v : number) : bool :=
  match v with Num q => Qeq_bool q 0 | _ => false end.

(** [!v] on a number: true for [NaN] and for zero. *)
Definition falsyNum (v : number) : bool := isNaN v || isZero v.

(** [a || b] on numbers. *)
Definition orNum (a b : number) : number := if falsyNum a then b else a.

(** [a || b] on strings. *)
Definition orStr (a b : string) : string := if isEmpty a then b else a.

Fixpoint takeDigits (s : string) : string * string :=
  match s with
  | String c s' =>
      if isDigit c then let (ds, rest) := takeDigits s' in (String c ds, rest)
      else (EmptyString, s)
  | EmptyString => (EmptyString, EmptyString)
  end.

Fixpoint digitsValue (acc : N) (ds : string) : N :=
  match ds with
  | EmptyString => acc
  | String c ds' => digitsValue (acc * 10 + N.of_nat (code c - 48))%N ds'
  end.

(** An optional sign: [true] for a minus. *)
Definition takeSign (s : string) : bool * string :=
  match s with
  | String "-" s' => (true, s')
  | String "+" s' => (false, s')
  | _ => (false, s)
  end.

(** [Number.parseInt(s, 10)]; [None] stands for [NaN]. *)
Definition parseInt (s : string) : option Z :=
  let (neg, body) := takeSign (trimStart s) in
  let (ds, _) := takeDigits body in
  if isEmpty ds then None
  else let v := Z.of_N (digitsValue 0 ds) in
       Some (if neg then (- v)%Z else v).

(** The exponent part [e(+|-)?digits] of a decimal literal, when complete. *)
Definition takeExponent (s : string) : Z :=
  match s with
  | String c s' =>
      if Ascii.eqb c "e" || Ascii.eqb c "E"
      then let (neg, body) := takeSign s' in
           let (ds, _) := takeDigits body in
           if isEmpty ds then 0%Z
           else let v := Z.of_N (digitsValue 0 ds) in if neg then (- v)%Z else v
      else 0%Z
  | EmptyString => 0%Z
  end.

Definition pow10 (e : Z) : Q :=
  match e with
  | Z0 => 1%Q
  | Zpos p => inject_Z (Z.pow_pos 10 p)
  | Zneg p => Qmake 1 (Pos.pow 10 p)
  end.

(** [Number.parseFloat(s)]: the longest prefix that is a decimal literal. *)
Definition parseFloat (s : string) : number :=
  let (neg, body) := takeSign (trimStart s) in
  if String.prefix "Infinity" body then Infinity neg
  else
    let (ip, rest) := takeDigits body in
    let '(fp, rest') :=
      match rest with
      | String "." r => takeDigits r
      | _ => (EmptyString, rest)
      end in
    if isEmpty ip && isEmpty fp then NaN
    else
      let mant := Z.of_N (digitsValue 0 (ip ++ fp)) in
      let e := (takeExponent rest' - Z.of_nat (String.length fp))%Z in
      let q := (inject_Z mant * pow10 e)%Q in
      Num (if neg then (- q)%Q else q).

(** [Math.max(...xs)] on a non-empty list of integers. *)
Definition maxList (x : Z) (xs : list Z) : Z := fold_left Z.max xs x.

End Js.

(* ===================================================================== *)
(** * Cheerio queries on a parsed document *)
(* ===================================================================== *)

Module Dom.

Local Open Scope string_scope.
Local Open Scope nat_scope.

(** The nodes a query can see: text and elements.  Tag and attribute names
    are as the HTML parser leaves them (lower case).  Comments and
    directives, which neither [find] nor [text] observes, are left out. *)
#[warnings="-register-all"]
Inductive Node : Type :=
| TextNode (data : string)
| Element (name : string) (attribs : list (string * string)) (children : list Node).

(** An element together with its position (child indices from the root):
    the position is the identity of the node. *)
Definition Located : Type := (list nat * Node)%type.

(** A cheerio selection: located nodes in document order. *)
Definition Cheerio : Type := list Located.

Definition tagName (n : Node) : string :=
  match n with Element t _ _ => t | TextNode _ => EmptyString end.

Definition isTag (n : Node) : bool :=
  match n with Element _ _ _ => true | TextNode _ => false end.

Fixpoint lookupAttr (name : string) (attrs : list (string * string)) : option string :=
  match attrs with
  | [] => None
  | (k, v) :: rest => if String.eqb k name then Some v else lookupAttr name rest
  end.

Definition getAttr (name : string) (n : Node) : option string :=
  match n with
  | Element _ attrs _ => lookupAttr name attrs
  | TextNode _ => None
  end.

(** [textContent]: the text of all descendants, in order. *)
Fixpoint textContent (n : Node) : string :=
  match n with
  | TextNode d => d
  | Element _ _ cs =>
      (fix all (cs : list Node) : string :=
         match cs with
         | [] => EmptyString
         | c :: rest => textContent c ++ all rest
         end) cs
  end.

(** ** Selectors *)

(** A compound selector [tag.class[attr]] or [tag[attr="value"]]; absent
    parts do not constrain. *)
Record Compound : Type := {
  c_tag : option string;
  c_class : option string;
  c_attr : option (string * option string)
}.

(** A selector: compounds joined by the descendant combinator, outermost
    first. *)
Definition Selector : Type := list Compound.

Definition tag (t : string) : Compound :=
  {| c_tag := Some t; c_class := None; c_attr := None |}.
Definition tagClass (t cls : string) : Compound :=
  {| c_tag := Some t; c_class := Some cls; c_attr := None |}.
Definition tagAttr (t a : string) : Compound :=
  {| c_tag := Some t; c_class := None; c_attr := Some (a, None) |}.
Definition tagAttrEq (t a v : string) : Compound :=
  {| c_tag := Some t; c_class := None; c_attr := Some (a, Some v) |}.

(** [.cls]: the class attribute holds [cls] as a whitespace-separated word. *)
Definition hasClass (cls : string) (n : Node) : bool :=
  match getAttr "class" n with
  | Some v =>
      Js.test false
        (Js.Seqs [Js.Alt Js.Bol (Js.Cls Js.cls_s); Js.Str cls;
                  Js.Alt Js.Eol (Js.Cls Js.cls_s)]) v
  | None => false
  end.

Definition matchesCompound (c : Compound) (n : Node) : bool :=
  isTag n &&
  match c_tag c with Some t => String.eqb (tagName n) t | None => true end &&
  match c_class c with Some cls => hasClass cls n | None => true end &&
  match c_attr c with
  | Some (a, None) => match getAttr a n with Some _ => true | None => false end
  | Some (a, Some v) =>
      match getAttr a n with Some w => String.eqb w v | None => false end
  | None => true
  end.

(** The outer compounds of a selector (innermost first) against the
    ancestors of a node below the query context (nearest first). *)
Fixpoint ancestorsMatch (outer : list Compound) (anc : list Node) {struct anc} : bool :=
  match outer with
  | [] => true
  | c :: outer' =>
      match anc with
      | [] => false
      | a :: anc' =>
          (matchesCompound c a && ancestorsMatch outer' anc') || ancestorsMatch outer anc'
      end
  end.

Definition matchesSelector (sel : Selector) (n : Node) (anc : list Node) : bool :=
  match rev sel with
  | [] => false
  | c :: outer => matchesCompound c n && ancestorsMatch outer anc
  end.

(** All element descendants of [n] in document order, each with its position
    and its ancestors below the context. *)
Fixpoint walk (path : list nat) (anc : list Node) (n : Node) {struct n}
  : list (Located * list Node) :=
  match n with
  | TextNode _ => []
  | Element _ _ cs =>
      (fix children (i : nat) (cs : list Node) : list (Located * list Node) :=
         match cs with
         | [] => []
         | c :: rest =>
             ((if isTag c then [((path ++ [i], c), anc)] else [])
              ++ walk (path ++ [i]) (c :: anc) c
              ++ children (S i) rest)%list
         end) 0 cs
  end.

Fixpoint isProperPrefix (p q : list nat) : bool :=
  match p, q with
  | [], _ :: _ => true
  | a :: p', b :: q' => (a =? b) && isProperPrefix p' q'
  | _, _ => false
  end.

(** Contexts nested in another context are dropped before a query. *)
Definition removeSubsets (s : Cheerio) : Cheerio :=
  filter (fun x => negb (existsb (fun y => isProperPrefix (fst y) (fst x)) s)) s.

Definition findIn (sel : Selector) (ctx : Located) : Cheerio :=
  map fst (filter (fun d => matchesSelector sel (snd (fst d)) (snd d))
                  (walk (fst ctx) [] (snd ctx))).

(** [s.find(sel)] *)
Definition find (sel : Selector) (s : Cheerio) : Cheerio :=
  flat_map (findIn sel) (removeSubsets s).

(** [$(sel)] on the loaded document; [doc] is the document node, whose
    descendants are searched. *)
Definition query (doc : Node) (sel : Selector) : Cheerio := find sel [([], doc)].

(** [s.first()], [s.last()], [s.eq(i)], [$(s[i])] *)
Definition first (s : Cheerio) : Cheerio :=
  match s with [] => [] | x :: _ => [x] end.
Definition last (s : Cheerio) : Cheerio :=
  match rev s with [] => [] | x :: _ => [x] end.
Definition eq (i : nat) (s : Cheerio) : Cheerio :=
  match nth_error s i with Some x => [x] | None => [] end.

(** [s.text()] *)
Definition text (s : Cheerio) : string :=
  fold_right (fun x acc => textContent (snd x) ++ acc) EmptyString s.

(** [s.attr(name)]: the attribute of the first element. *)
Definition attr (name : string) (s : Cheerio) : option string :=
  match s with [] => None | x :: _ => getAttr name (snd x) end.

(** [s.has(sel)] *)
Definition has (sel : Selector) (s : Cheerio) : Cheerio :=
  filter (fun x => negb (Nat.eqb (List.length (find sel [x])) 0)) s.

(** [$(el).text().trim()] *)
Definition trimmedText (x : Located) : string := Js.trim (textContent (snd x)).

End Dom.

(* ===================================================================== *)
(** * The server module *)
(* ===================================================================== *)

(** ** Records of the module's interfaces *)

Module Ranking.
(** [IQAirCityRanking] *)
Record t : Type := make {
  rank : Z;
  city : string;
  countrySlug : string;
  aqi : Q;
  url : string
}.
End Ranking.

Module SearchResult.
(** [IQAirSearchResult] *)
Record t : Type := make {
  id : string;
  name : string;
  state : string;
  country : string;
  url : string;
  aqi : Q;
  estimated : bool;
  latitude : Q;
  longitude : Q;
  followersCount : Q
}.
End SearchResult.

Module Pollutant.
(** [IQAirPollutant] *)
Record t : Type := make {
  name : string;
  description : string;
  value : Js.number;
  unit : string
}.
End Pollutant.

Module MainPollutant.
(** The [mainPollutant] member of [IQAirCityDetails]. *)
Record t : Type := make {
  name : string;
  value : Js.number;
  unit : string
}.
End MainPollutant.

Module Details.
(** [IQAirCityDetails], which extends [IQAirCityRanking]. *)
Record t : Type := make {
  rank : Z;
  city : string;
  countrySlug : string;
  aqi : Q;
  url : string;
  level : string;
  mainPollutant : MainPollutant.t;
  pollutants : list Pollutant.t
}.
End Details.

Module IQAir.

Import Js Dom.
Local Open Scope string_scope.
Local Open Scope nat_scope.

(** ** Exceptions and the outside world *)

(** The result of a call: a value, or [throw new Error(message)]. *)
Inductive Outcome (A : Type) : Type :=
| Ok (a : A)
| Throw (message : string).
Arguments Ok {A} a.
Arguments Throw {A} message.

Definition bind {A B} (m : Outcome A) (f : A -> Outcome B) : Outcome B :=
  match m with
  | Ok a => f a
  | Throw e => Throw e
  end.

Notation "x <- m ;; k" := (bind m (fun x => k))
  (at level 61, m at next level, right associativity).

(** What the module reads of a [fetch] response. *)
Record Response : Type := {
  ok : bool;
  status : nat;
  statusText : string;
  body : string
}.

(** An entry of the search endpoint's flat array.  Nested arrays and objects
    are inert for the parser and share one constructor. *)
Inductive JsValue : Type :=
| JNull
| JBool (b : bool)
| JNum (q : Q)
| JStr (s : string)
| JObject.

(** The platform the module runs on: the network and the library parsers.
    [fetch] throws on a network failure, [JSON_parse] on malformed text and
    [URL_pathname] ([new URL(u).pathname]) on an invalid URL.  The search
    payload has the type the source declares for it, [unknown[]]. *)
Record World : Type := {
  fetch : string -> Outcome Response;
  cheerio_load : string -> Node;
  JSON_parse : string -> Outcome (list JsValue);
  URL_pathname : string -> Outcome string;
  encodeURIComponent : string -> string
}.

Definition showNat (n : nat) : string :=
  DecimalString.NilZero.string_of_uint (Nat.to_uint n).

Definition Qltb (a b : Q) : bool := negb (Qle_bool b a).

(** [!x] and [x || 0] on a finite number. *)
Definition falsyQ (x : Q) : bool := Qeq_bool x 0.
Definition orZero (x : Q) : Q := if falsyQ x then 0%Q else x.

(** ** [fetchIQAirTopCities] *)

(** The callback of [$("table").filter(...)]: the second and third headers
    of the first header row contain "Cities" and "AQI". *)
Definition isRankingTable (el : Located) : bool :=
  let headers := map trimmedText (find [tag "th"] (first (find [tag "thead"; tag "tr"] [el]))) in
  match nth_error headers 1, nth_error headers 2 with
  | Some h1, Some h2 => includes h1 "Cities" && includes h2 "AQI"
  | _, _ => false
  end.

Definition rankingTable (doc : Node) : Cheerio :=
  first (filter isRankingTable (query doc [tag "table"])).

(** The country slug: the second segment of the URL's path. *)
Definition countrySlugOf (w : World) (url : string) : string :=
  match URL_pathname w url with
  | Ok pathname =>
      let parts := filterBoolean (splitChar "/" pathname) in
      if 2 <=? List.length parts then nth 1 parts EmptyString else EmptyString
  | Throw _ => EmptyString
  end.

(** [cityCell.find("p").first().text().trim()] for the first [td] of a row. *)
Definition rowCity (row : Located) : string :=
  let cityCell := eq 0 (find [tag "td"] [row]) in
  Js.trim (text (first (find [tag "p"] cityCell))).

(** [aqiCell.find("p").first().text().trim()] for the second [td] of a row. *)
Definition rowAqiText (row : Located) : string :=
  let aqiCell := eq 1 (find [tag "td"] [row]) in
  Js.trim (text (first (find [tag "p"] aqiCell))).

(** The body of [rows.each] after the limit test: the record a row yields,
    or [None] when the callback returns without pushing. *)
Definition parseRow (w : World) (index : nat) (row : Located) : option Ranking.t :=
  let thRank := Js.trim (text (first (find [tag "th"] [row]))) in
  let tds := find [tag "td"] [row] in
  if List.length tds <? 2 then None
  else
    let city := rowCity row in
    let aqiText := rowAqiText row in
    let aqi := parseInt aqiText in
    let href := match attr "href" (last (find [tagAttr "a" "href"] [row])) with
                | Some h => h
                | None => EmptyString
                end in
    let url := if startsWith href "http" then href
               else "https://www.iqair.com" ++ href in
    let countrySlug := countrySlugOf w url in
    match aqi with
    | None => None
    | Some n =>
        if isEmpty city then None
        else Some (Ranking.make
                     (match parseInt thRank with
                      | Some r => if (r =? 0)%Z then Z.of_nat (index + 1) else r
                      | None => Z.of_nat (index + 1)
                      end)
                     city countrySlug (inject_Z n) url)
    end.

(** [rows.each((index, row) => ...)] with its [return false] break. *)
Fixpoint eachRow (w : World) (limit : Z) (index : nat) (rows : Cheerio)
    (result : list Ranking.t) : list Ranking.t :=
  match rows with
  | [] => result
  | row :: rest =>
      if (limit <=? Z.of_nat (List.length result))%Z then result
      else eachRow w limit (S index) rest
             (match parseRow w index row with
              | Some r => (result ++ [r])%list
              | None => result
              end)
  end.

(** [table.find("tbody tr")] *)
Definition rankingRows (doc : Node) : Cheerio :=
  find [tag "tbody"; tag "tr"] (rankingTable doc).

(** The parse of the ranking page once it is loaded. *)
Definition parseRankingDocument (w : World) (doc : Node) (limit : Z)
  : Outcome (list Ranking.t) :=
  let table := rankingTable doc in
  if List.length table =? 0
  then Throw "IQAir HTML structure: ranking table not found"
  else
    let rows := rankingRows doc in
    let result := eachRow w limit 0 rows [] in
    if List.length result =? 0
    then Throw "IQAir HTML parsing: no rows parsed from ranking table"
    else Ok result.

Definition rankingUrl : string := "https://www.iqair.com/us/world-air-quality".

Definition fetchIQAirTopCities (w : World) (limit : Z) : Outcome (list Ranking.t) :=
  response <- fetch w rankingUrl ;;
  if negb (ok response)
  then Throw ("IQAir HTML fetch failed: " ++ showNat (status response) ++ " "
              ++ statusText response)
  else parseRankingDocument w (cheerio_load w (body response)) limit.

(** ** [parseIQAirSearchResponseSimple] *)

(** [url.split("/").filter(Boolean)] *)
Definition pathParts (url : string) : list string :=
  filterBoolean (splitChar "/" url).

(** [slug.split("-").map(w => w.charAt(0).toUpperCase() + w.slice(1)).join(" ")] *)
Definition displayName (slug : string) : string :=
  join " " (map capitalize (splitChar "-" slug)).

(** [/^[a-zA-Z0-9]{10,}$/] *)
Definition reId : regex := Seqs [Bol; Rep true 10 None cls_alnum; Eol].

(** The variables the backward loop assigns. *)
Record Nearby : Type := {
  n_id : string;
  n_aqi : Q;
  n_estimated : bool;
  n_latitude : Q;
  n_longitude : Q
}.

Definition noNearby : Nearby :=
  {| n_id := EmptyString; n_aqi := 0; n_estimated := false;
     n_latitude := 0; n_longitude := 0 |}.

(** One iteration of [for (let j = Math.max(0, i - 30); j < i; j++)]. *)
Definition backwardStep (data : list JsValue) (st : Nearby) (j : nat) : Nearby :=
  let prevItem := nth_error data j in
  let nextItem := nth_error data (j + 1) in
  let st1 :=
    match prevItem with
    | Some (JStr s) =>
        if test false reId s && isEmpty (n_id st)
        then {| n_id := s; n_aqi := n_aqi st; n_estimated := n_estimated st;
                n_latitude := n_latitude st; n_longitude := n_longitude st |}
        else st
    | _ => st
    end in
  let st2 :=
    match prevItem with
    | Some (JNum q) =>
        if Qltb 0 q && Qltb q 600 && falsyQ (n_aqi st1)
        then match nextItem with
             | Some (JBool b) =>
                 {| n_id := n_id st1; n_aqi := q; n_estimated := b;
                    n_latitude := n_latitude st1; n_longitude := n_longitude st1 |}
             | _ => st1
             end
        else st1
    | _ => st1
    end in
  match prevItem with
  | Some (JNum q) =>
      if Qltb (-180) q && Qltb q 180
      then match nextItem with
           | Some (JNum q') =>
               if Qltb (-180) q' && Qltb q' 180
               then if Qltb (-90) q && Qltb q 90 && Qltb 1 (Qabs q)
                    then {| n_id := n_id st2; n_aqi := n_aqi st2;
                            n_estimated := n_estimated st2;
                            n_latitude := q; n_longitude := q' |}
                    else st2
               else st2
           | _ => st2
           end
      else st2
  | _ => st2
  end.

(** The indices [Math.max(0, i - 30) .. i - 1], in the order the loop
    visits them. *)
Definition backwardWindow (i : nat) : list nat := seq (i - 30) (i - (i - 30)).

Definition searchBackwards (data : list JsValue) (i : nat) : Nearby :=
  fold_left (backwardStep data) (backwardWindow i) noNearby.

(** [for (let j = i + 1; j < Math.min(data.length, i + 20); j++)] with its
    [break]. *)
Fixpoint forwardLoop (data : list JsValue) (js : list nat) (followersCount : Q) : Q :=
  match js with
  | [] => followersCount
  | j :: rest =>
      match nth_error data j with
      | Some (JNum q) =>
          if Qltb 100 q && falsyQ followersCount then q
          else forwardLoop data rest followersCount
      | _ => forwardLoop data rest followersCount
      end
  end.

Definition forwardWindow (data : list JsValue) (i : nat) : list nat :=
  seq (i + 1) (Nat.min (List.length data) (i + 20) - (i + 1)).

Definition searchForwards (data : list JsValue) (i : nat) : Q :=
  forwardLoop data (forwardWindow data i) 0.

(** The record pushed for the anchor [item] found at index [i]. *)
Definition makeResult (data : list JsValue) (i : nat) (item : string)
    (parts : list string) : SearchResult.t :=
  let citySlug := nth (List.length parts - 1) parts EmptyString in
  let cityName := displayName citySlug in
  let countrySlug := nth 0 parts EmptyString in
  let stateSlug := if List.length parts =? 3 then nth 1 parts EmptyString
                   else EmptyString in
  let near := searchBackwards data i in
  let followersCount := searchForwards data i in
  SearchResult.make (n_id near) cityName (displayName stateSlug)
    (displayName countrySlug) item (n_aqi near) (n_estimated near)
    (n_latitude near) (n_longitude near) followersCount.

(** [typeof item === "string" && item.startsWith("/") && !item.includes(".")]
    with 2 or 3 path segments; the segments are returned. *)
Definition anchorParts (v : JsValue) : option (list string) :=
  match v with
  | JStr item =>
      if startsWith item "/" && negb (includes item ".")
      then let parts := pathParts item in
           if (2 <=? List.length parts) && (List.length parts <=? 3)
           then Some parts else None
      else None
  | _ => None
  end.

(** One iteration of the outer loop; the state is [results] and [seenUrls]. *)
Definition scanStep (data : list JsValue)
    (st : list SearchResult.t * list string) (i : nat)
  : list SearchResult.t * list string :=
  let (results, seenUrls) := st in
  match nth_error data i with
  | Some (JStr item) =>
      match anchorParts (JStr item) with
      | Some parts =>
          if existsb (String.eqb item) seenUrls then st
          else ((results ++ [makeResult data i item parts])%list, item :: seenUrls)
      | None => st
      end
  | _ => st
  end.

(** The results in the order they are pushed, before the sort. *)
Definition collectResults (data : list JsValue) : list SearchResult.t :=
  fst (fold_left (scanStep data) (seq 0 (List.length data)) ([], [])).

Definition urlParts (c : SearchResult.t) : nat :=
  List.length (pathParts (SearchResult.url c)).

(** The comparator handed to [results.sort]. *)
Definition compareResults (a b : SearchResult.t) : Q :=
  let aParts := urlParts a in
  let bParts := urlParts b in
  if (aParts =? 3) && (bParts =? 2) then (-1)%Q
  else if (aParts =? 2) && (bParts =? 3) then 1%Q
  else (SearchResult.followersCount b - SearchResult.followersCount a)%Q.

(** [Array.prototype.sort(cmp)]: a stable sort; [x] stays before [y] unless
    [cmp x y > 0]. *)
Fixpoint insertBy {A} (cmp : A -> A -> Q) (x : A) (l : list A) : list A :=
  match l with
  | [] => [x]
  | y :: l' => if Qle_bool (cmp x y) 0 then x :: l else y :: insertBy cmp x l'
  end.

Fixpoint sortBy {A} (cmp : A -> A -> Q) (l : list A) : list A :=
  match l with
  | [] => []
  | x :: l' => insertBy cmp x (sortBy cmp l')
  end.

Definition parseIQAirSearchResponseSimple (data : list JsValue) : list SearchResult.t :=
  sortBy compareResults (collectResults data).

(** ** [searchIQAirCities] *)

(** The address of the search endpoint for a trimmed query. *)
Definition searchUrl (w : World) (normalizedQuery : string) : string :=
  let encodedQuery := encodeURIComponent w normalizedQuery in
  "https://www.iqair.com/us/search-results.data?q=" ++ encodedQuery
  ++ "&_routes=routes%2F%24(locale).search-results".

Definition searchIQAirCities (w : World) (query : string) : Outcome (list SearchResult.t) :=
  let normalizedQuery := Js.trim query in
  if isEmpty normalizedQuery then Throw "Search query is required"
  else
    let url := searchUrl w normalizedQuery in
    response <- fetch w url ;;
    if negb (ok response)
    then Throw ("IQAir search API failed: " ++ showNat (status response) ++ " "
                ++ statusText response)
    else match JSON_parse w (body response) with
         | Ok data => Ok (parseIQAirSearchResponseSimple data)
         | Throw _ => Throw "Failed to parse IQAir search response"
         end.

(** ** [fetchIQAirCityByName] *)

(** [/\s+(city|town)$/] *)
Definition reSuffix : regex :=
  Seqs [Plus cls_s; Grp 1 (Alt (Str "city") (Str "town")); Eol].

Definition lowerName (c : SearchResult.t) : string :=
  toLowerCase (SearchResult.name c).

(** The callbacks of the successive [searchResults.find] calls. *)
Definition exact3 (q : string) (c : SearchResult.t) : bool :=
  String.eqb (lowerName c) q && (urlParts c =? 3).
Definition exact (q : string) (c : SearchResult.t) : bool :=
  String.eqb (lowerName c) q.
Definition contains3 (q : string) (c : SearchResult.t) : bool :=
  includes (lowerName c) q && (urlParts c =? 3).
Definition contains (q : string) (c : SearchResult.t) : bool :=
  includes (lowerName c) q.
Definition reverse3 (q : string) (c : SearchResult.t) : bool :=
  includes q (lowerName c) && (urlParts c =? 3).
Definition reverseAny (q : string) (c : SearchResult.t) : bool :=
  includes q (lowerName c).
Definition noSuffix3 (q : string) (c : SearchResult.t) : bool :=
  let queryNoSuffix := replaceRe false reSuffix "" q in
  let cityLower := lowerName c in
  (String.eqb cityLower queryNoSuffix || includes cityLower queryNoSuffix)
  && (urlParts c =? 3).
Definition noSuffix (q : string) (c : SearchResult.t) : bool :=
  let queryNoSuffix := replaceRe false reSuffix "" q in
  let cityLower := lowerName c in
  String.eqb cityLower queryNoSuffix || includes cityLower queryNoSuffix.

(** The chain of [if (!found) found = ...] statements. *)
Definition findBest (normalizedQuery : string) (searchResults : list SearchResult.t)
  : option SearchResult.t :=
  let found := List.find (exact3 normalizedQuery) searchResults in
  let found := orElse found (fun _ => List.find (exact normalizedQuery) searchResults) in
  let found := orElse found (fun _ => List.find (contains3 normalizedQuery) searchResults) in
  let found := orElse found (fun _ => List.find (contains normalizedQuery) searchResults) in
  let found := orElse found (fun _ => List.find (reverse3 normalizedQuery) searchResults) in
  let found := orElse found (fun _ => List.find (reverseAny normalizedQuery) searchResults) in
  let found := orElse found (fun _ => List.find (noSuffix3 normalizedQuery) searchResults) in
  let found := orElse found (fun _ => List.find (noSuffix normalizedQuery) searchResults) in
  orElse found (fun _ => nth_error searchResults 0).

(** The conversion to [IQAirCityRanking]. *)
Definition toRanking (found : SearchResult.t) : Ranking.t :=
  let fullUrl := if startsWith (SearchResult.url found) "http"
                 then SearchResult.url found
                 else "https://www.iqair.com/us" ++ SearchResult.url found in
  Ranking.make 0 (SearchResult.name found)
    (replaceAllRe false (Plus cls_s) "-" (toLowerCase (SearchResult.country found)))
    (SearchResult.aqi found) fullUrl.

(** The function after [searchResults] is known. *)
Definition resolve (normalizedQuery : string) (searchResults : list SearchResult.t)
  : option Ranking.t :=
  if List.length searchResults =? 0 then None
  else match findBest normalizedQuery searchResults with
       | None => None
       | Some found => Some (toRanking found)
       end.

Definition fetchIQAirCityByName (w : World) (cityName : string) : Outcome (option Ranking.t) :=
  let normalizedQuery := toLowerCase (Js.trim cityName) in
  if isEmpty normalizedQuery then Throw "City name is required"
  else
    searchResults <- searchIQAirCities w cityName ;;
    Ok (resolve normalizedQuery searchResults).

(** ** [fetchIQAirCityDetailsByName] *)

(** The unit strings of the source; [<micro>] is the micro sign (code unit
    181) and [<3>] the superscript three (code unit 179). *)
Definition microgram : string := String "181" "g".
Definition ugm3 : string := microgram ++ "/m" ++ String "179" EmptyString.
Definition mgm3 : string := "mg/m" ++ String "179" EmptyString.

(** The sub-pattern [\d+ \.? \d*] that the source puts in group 1. *)
Definition reNumber : regex := Seqs [Plus cls_d; Opt (isChar "."); Star cls_d].

(** [/(?:AQI|US AQI) [\s:]* (\d{1,3})/i] *)
Definition reAqi : regex :=
  Seqs [Alt (Str "AQI") (Str "US AQI"); Star (orCls cls_s (isChar ":"));
        Grp 1 (Rep true 1 (Some 3) cls_d)].

(** [/^ \d+ \.? \d* \s* (<micro>g|mg)/i] *)
Definition reValueLead : regex :=
  Seqs [Bol; Plus cls_d; Opt (isChar "."); Star cls_d; Star cls_s;
        Grp 1 (Alt (Str microgram) (Str "mg"))].

(** [/(number) \s* (<micro>g\/m<3>|<micro>g|mg\/m<3>)/i] *)
Definition reValueUnit : regex :=
  Seqs [Grp 1 reNumber; Star cls_s;
        Grp 2 (Alts [Str ugm3; Str microgram; Str mgm3])].

(** [/Main pollutant[:\s]+([A-Z0-9.]+)/i] *)
Definition reMainName : regex :=
  Seqs [Str "Main pollutant"; Plus (orCls (isChar ":") cls_s);
        Grp 1 (Plus (orCls (inRange "A" "Z") (orCls (inRange "0" "9") (isChar "."))))].

(** [/Main pollutant [^]*? (number) \s* (<micro>g\/m<3>|<micro>g|mg\/m<3>)/i] *)
Definition reMainValue : regex :=
  Seqs [Str "Main pollutant"; LazyStar anyChar; Grp 1 reNumber; Star cls_s;
        Grp 2 (Alts [Str ugm3; Str microgram; Str mgm3])].

(** [/(PM2\.5|PM10|O3|NO2|SO2|CO)/] *)
Definition reCode : regex :=
  Grp 1 (Alts [Str "PM2.5"; Str "PM10"; Str "O3"; Str "NO2"; Str "SO2"; Str "CO"]).

(** [/(number) \s* (<micro>g\/m<3>|<micro>g|mg\/m<3>|ppm|ppb)/i] *)
Definition rePollutantValue : regex :=
  Seqs [Grp 1 reNumber; Star cls_s;
        Grp 2 (Alts [Str ugm3; Str microgram; Str mgm3; Str "ppm"; Str "ppb"])].

(** [Number.parseFloat(t.replace(",", "."))] *)
Definition parseDecimal (t : string) : number := parseFloat (replaceString "," "." t).

(** *** The main AQI box *)

Definition isAqiCard (el : Located) : bool :=
  let cls := match attr "class" [el] with Some c => c | None => EmptyString end in
  includes cls "aqi-box-shadow" || includes cls "aqi-bg-".

Definition aqiCardOf (doc : Node) : Cheerio :=
  first (filter isAqiCard (query doc [tag "div"])).

(** *** The AQI value *)

(** The callback shared by strategies 1 and 2: the trimmed text of the
    paragraph parses to a number in (0, 500]. *)
Definition plausibleAqi (el : Located) : option Z :=
  match parseInt (trimmedText el) with
  | Some num => if (0 <? num)%Z && (num <=? 500)%Z then Some num else None
  | None => None
  end.

Definition isPlausibleAqi (el : Located) : bool :=
  match plausibleAqi el with Some _ => true | None => false end.

Definition hasAqiLabel (el : Located) : bool :=
  let t := text [el] in includes t "AQI" || includes t "US AQI".

(** Strategy 1: a number in a paragraph of the first [div] that mentions
    "AQI". *)
Definition aqiStrategy1 (aqiCard : Cheerio) : option Z :=
  let aqiLabelDiv := first (filter hasAqiLabel (find [tag "div"] aqiCard)) in
  if 0 <? List.length aqiLabelDiv
  then let aqiText :=
         Js.trim (text (first (filter isPlausibleAqi (find [tag "p"] aqiLabelDiv)))) in
       if truthy aqiText then parseInt aqiText else None
  else None.

(** Strategy 2: the largest plausible number of any paragraph of the card. *)
Definition aqiStrategy2 (aqiCard : Cheerio) : option Z :=
  let allNumbers :=
    flat_map (fun el => match plausibleAqi el with Some n => [n] | None => [] end)
             (find [tag "p"] aqiCard) in
  match allNumbers with
  | [] => None
  | n :: rest => Some (maxList n rest)
  end.

(** Strategy 3: the expression [reAqi] on the text of the card. *)
Definition aqiStrategy3 (aqiCard : Cheerio) : option Z :=
  match matchRe true reAqi (text aqiCard) with
  | Some aqiMatch => parseInt (group 1 aqiMatch)
  | None => None
  end.

(** The block from [let aqi = baseInfo.aqi || 0] to the end of strategy 3. *)
Definition extractAqi (baseAqi : Q) (aqiCard : Cheerio) : Q :=
  let aqi := orZero baseAqi in
  let aqi := match aqiStrategy1 aqiCard with
             | Some parsedAqi => inject_Z parsedAqi
             | None => aqi
             end in
  let aqi := if falsyQ aqi
             then match aqiStrategy2 aqiCard with
                  | Some m => inject_Z m
                  | None => aqi
                  end
             else aqi in
  let aqi := if falsyQ aqi
             then match aqiStrategy3 aqiCard with
                  | Some parsedAqi => inject_Z parsedAqi
                  | None => aqi
                  end
             else aqi in
  aqi.

(** *** The level *)

Definition mentionsLevel (el : Located) : bool :=
  let levelLower := toLowerCase (trimmedText el) in
  includes levelLower "good" || includes levelLower "moderate"
  || includes levelLower "unhealthy" || includes levelLower "hazardous"
  || includes levelLower "sensitive".

Definition extractLevel (aqiCard : Cheerio) : string :=
  let level := Js.trim (text (first (find [tagClass "p" "font-body-l-medium"] aqiCard))) in
  if isEmpty level
  then Js.trim (text (first (filter mentionsLevel (find [tag "p"] aqiCard))))
  else level.

(** *** The main pollutant *)

Record MainVars : Type := {
  mainName : string;
  mainValue : number;
  mainUnit : string
}.

Definition isPollutantNameP (p : Located) : bool :=
  let t := trimmedText p in
  truthy t && negb (includes (toLowerCase t) "main pollutant")
  && negb (test true reValueLead t) && (String.length t <? 20).

Definition isValueP (p : Located) : bool :=
  let t := trimmedText p in truthy t && test true reValueLead t.

(** Strategy 1: the row [div.font-body-m-medium] holding "Main pollutant". *)
Definition mainStrategy1 (aqiCard : Cheerio) (v : MainVars) : MainVars :=
  let mainRow :=
    first (filter (fun el => includes (text [el]) "Main pollutant")
                  (find [tagClass "div" "font-body-m-medium"] aqiCard)) in
  if 0 <? List.length mainRow
  then
    let mainTexts := find [tag "p"] mainRow in
    let pollutantNameP := first (filter isPollutantNameP mainTexts) in
    let name1 := if 0 <? List.length pollutantNameP
                 then Js.trim (text pollutantNameP) else mainName v in
    let valueP := first (filter isValueP mainTexts) in
    if 0 <? List.length valueP
    then
      (* [const [mainValueNumberPart, ...mainUnitParts] = mainValueText.split(/\s+/)];
         the text is not empty here, so the split has a first piece. *)
      let mainValueText := Js.trim (text valueP) in
      let pieces := splitRe false (Plus cls_s) mainValueText in
      let mainValueNumberPart := nth 0 pieces EmptyString in
      let mainUnitParts := tl pieces in
      {| mainName := name1;
         mainValue := parseDecimal mainValueNumberPart;
         mainUnit := orStr (join " " mainUnitParts) ugm3 |}
    else
      match matchRe true reValueUnit (text mainRow) with
      | Some valueMatch =>
          {| mainName := name1;
             mainValue := parseDecimal (group 1 valueMatch);
             mainUnit := orStr (group 2 valueMatch) ugm3 |}
      | None => {| mainName := name1; mainValue := mainValue v; mainUnit := mainUnit v |}
      end
  else v.

(** Strategy 2: patterns on the text of the whole card. *)
Definition mainStrategy2 (aqiCard : Cheerio) (v : MainVars) : MainVars :=
  if isEmpty (mainName v) || falsyNum (mainValue v)
  then
    let allText := text aqiCard in
    if includes allText "Main pollutant"
    then
      let name1 := match matchRe true reMainName allText with
                   | Some m => group 1 m
                   | None => mainName v
                   end in
      match matchRe true reMainValue allText with
      | Some valueMatch =>
          {| mainName := name1;
             mainValue := parseDecimal (group 1 valueMatch);
             mainUnit := orStr (group 2 valueMatch) ugm3 |}
      | None => {| mainName := name1; mainValue := mainValue v; mainUnit := mainUnit v |}
      end
    else v
  else v.

(** *** The pollutant table *)

Definition pollutantsTableOf (doc : Node) : Cheerio :=
  let pollutantsTable := query doc [tagAttrEq "table" "title" "Air pollutants"] in
  if List.length pollutantsTable =? 0
  then filter (fun el => match attr "title" [el] with
                         | Some title =>
                             truthy title && includes (toLowerCase title) "pollutant"
                         | None => false
                         end)
              (query doc [tag "table"])
  else pollutantsTable.

Definition mentionsCode (div : Located) : bool :=
  let t := trimmedText div in
  truthy t && (includes t "PM2.5" || includes t "PM10" || includes t "O3"
               || includes t "NO2" || includes t "SO2" || includes t "CO").

(** What a row yields before the final test: name, description, value, unit;
    [None] when the callback returns for want of a button or a name block. *)
Definition readPollutantRow (tr : Located) : option Pollutant.t :=
  let btn := first (find [tag "button"] [tr]) in
  if List.length btn =? 0 then None
  else
    let nameDiv := first (has [tagClass "div" "text-gray-500"] (find [tag "div"] btn)) in
    let nameDiv := if List.length nameDiv =? 0
                   then first (filter mentionsCode (find [tag "div"] btn))
                   else nameDiv in
    if List.length nameDiv =? 0 then None
    else
      let descriptionDiv := first (find [tagClass "div" "text-gray-500"] nameDiv) in
      let description := if 0 <? List.length descriptionDiv
                         then Js.trim (text descriptionDiv) else EmptyString in
      let fullText := Js.trim (text nameDiv) in
      let name := Js.trim (replaceString description "" fullText) in
      let name :=
        if 10 <? String.length name
        then match matchRe false reCode name with
             | Some codeMatch => group 1 codeMatch
             | None => nth 0 (splitRe false (Plus cls_s) name) EmptyString
             end
        else name in
      let valueSpans := find [tagClass "span" "font-body-m-medium"] btn in
      let '(value, unit) :=
        if 2 <=? List.length valueSpans
        then
          let valueText := Js.trim (text (eq 0 valueSpans)) in
          let unitText := Js.trim (text (eq 1 valueSpans)) in
          (parseDecimal valueText, orStr unitText ugm3)
        else
          match matchRe true rePollutantValue (text btn) with
          | Some valueMatch =>
              (parseDecimal (group 1 valueMatch), orStr (group 2 valueMatch) ugm3)
          | None =>
              match matchRe true rePollutantValue (text [tr]) with
              | Some rowValueMatch =>
                  (parseDecimal (group 1 rowValueMatch),
                   orStr (group 2 rowValueMatch) ugm3)
              | None => (Num 0, ugm3)
              end
          end in
      Some (Pollutant.make name description value unit).

(** [if (!name || Number.isNaN(value) || value === 0) return;] *)
Definition discarded (p : Pollutant.t) : bool :=
  isEmpty (Pollutant.name p) || isNaN (Pollutant.value p) || isZero (Pollutant.value p).

(** The entry a row pushes, if any. *)
Definition pollutantOfRow (tr : Located) : option Pollutant.t :=
  match readPollutantRow tr with
  | Some p => if discarded p then None else Some p
  | None => None
  end.

(** [pollutantsTable.find("tbody tr").each(...)] *)
Fixpoint eachPollutantRow (rows : Cheerio) (pollutants : list Pollutant.t)
  : list Pollutant.t :=
  match rows with
  | [] => pollutants
  | tr :: rest =>
      eachPollutantRow rest
        (match pollutantOfRow tr with
         | Some p => (pollutants ++ [p])%list
         | None => pollutants
         end)
  end.

Definition pollutantRows (doc : Node) : Cheerio :=
  let pollutantsTable := pollutantsTableOf doc in
  if 0 <? List.length pollutantsTable
  then find [tag "tbody"; tag "tr"] pollutantsTable
  else [].

Definition extractPollutants (doc : Node) : list Pollutant.t :=
  eachPollutantRow (pollutantRows doc) [].

(** The last resort for the main pollutant: the first table entry, or fixed
    values. *)
Definition mainFallback (pollutants : list Pollutant.t) (v : MainVars) : MainVars :=
  if isEmpty (mainName v) || falsyNum (mainValue v)
  then match pollutants with
       | firstPollutant :: _ =>
           {| mainName := orStr (mainName v) (Pollutant.name firstPollutant);
              mainValue := orNum (mainValue v) (Pollutant.value firstPollutant);
              mainUnit := orStr (mainUnit v) (Pollutant.unit firstPollutant) |}
       | [] =>
           {| mainName := orStr (mainName v) "PM2.5";
              mainValue := orNum (mainValue v) (Num 0);
              mainUnit := orStr (mainUnit v) ugm3 |}
       end
  else v.

(** The function once the city page is loaded. *)
Definition extractDetails (doc : Node) (baseInfo : Ranking.t) : Outcome Details.t :=
  let aqiCard := aqiCardOf doc in
  if List.length aqiCard =? 0
  then Throw "IQAir HTML structure: AQI main card not found"
  else
    let aqi := extractAqi (Ranking.aqi baseInfo) aqiCard in
    let level := extractLevel aqiCard in
    let v := {| mainName := EmptyString; mainValue := Num 0; mainUnit := ugm3 |} in
    let v := mainStrategy1 aqiCard v in
    let v := mainStrategy2 aqiCard v in
    let pollutants := extractPollutants doc in
    let v := mainFallback pollutants v in
    Ok (Details.make
          (Ranking.rank baseInfo) (Ranking.city baseInfo)
          (Ranking.countrySlug baseInfo) aqi (Ranking.url baseInfo)
          level
          (MainPollutant.make (mainName v) (mainValue v) (mainUnit v))
          pollutants).

Definition fetchIQAirCityDetailsByName (w : World) (cityName : string)
  : Outcome (option Details.t) :=
  baseInfo <- fetchIQAirCityByName w cityName ;;
  match baseInfo with
  | None => Ok None
  | Some baseInfo =>
      response <- fetch w (Ranking.url baseInfo) ;;
      if negb (ok response)
      then Throw ("IQAir city HTML fetch failed: " ++ showNat (status response)
                  ++ " " ++ statusText response)
      else
        details <- extractDetails (cheerio_load w (body response)) baseInfo ;;
        Ok (Some details)
  end.

End IQAir.

(* ===================================================================== *)
(** * Notions of the specification

    The definitions of this module follow the specification's words: the
    behaviours it describes where they are compared with the code, and the
    vocabulary its properties are stated in. *)
(* ===================================================================== *)

Module Claimed.

Import Js Dom IQAir.
Local Open Scope string_scope.
Local Open Scope nat_scope.

(** Tier 7 as the specification words it: "same as 5/6", that is, the query
    (with its suffix stripped) contains the candidate's name. *)
Definition noSuffix3 (q : string) (c : SearchResult.t) : bool :=
  includes (replaceRe false reSuffix "" q) (lowerName c) && (urlParts c =? 3).
Definition noSuffix (q : string) (c : SearchResult.t) : bool :=
  includes (replaceRe false reSuffix "" q) (lowerName c).

Definition findBest (normalizedQuery : string) (searchResults : list SearchResult.t)
  : option SearchResult.t :=
  let found := List.find (exact3 normalizedQuery) searchResults in
  let found := orElse found (fun _ => List.find (exact normalizedQuery) searchResults) in
  let found := orElse found (fun _ => List.find (contains3 normalizedQuery) searchResults) in
  let found := orElse found (fun _ => List.find (contains normalizedQuery) searchResults) in
  let found := orElse found (fun _ => List.find (reverse3 normalizedQuery) searchResults) in
  let found := orElse found (fun _ => List.find (reverseAny normalizedQuery) searchResults) in
  let found := orElse found (fun _ => List.find (noSuffix3 normalizedQuery) searchResults) in
  let found := orElse found (fun _ => List.find (noSuffix normalizedQuery) searchResults) in
  orElse found (fun _ => nth_error searchResults 0).

(** "Tiers in strict order, the first hit across all tiers wins", over the
    callbacks of the code. *)
Definition tiers : list (string -> SearchResult.t -> bool) :=
  [exact3; exact; contains3; contains; reverse3; reverseAny;
   IQAir.noSuffix3; IQAir.noSuffix].

Fixpoint firstHit (q : string) (rs : list SearchResult.t)
    (ts : list (string -> SearchResult.t -> bool)) : option SearchResult.t :=
  match ts with
  | [] => nth_error rs 0
  | t :: ts' =>
      match List.find (t q) rs with
      | Some c => Some c
      | None => firstHit q rs ts'
      end
  end.

(** The AQI cascade as the specification words it: the baseline is used only
    if all three strategies fail. *)
Definition extractAqi (baseAqi : Q) (aqiCard : Cheerio) : Q :=
  match aqiStrategy1 aqiCard with
  | Some v => inject_Z v
  | None =>
      match aqiStrategy2 aqiCard with
      | Some v => inject_Z v
      | None =>
          match aqiStrategy3 aqiCard with
          | Some v => inject_Z v
          | None => baseAqi
          end
      end
  end.

(** The pair of variables the claim on the backward window is about. *)
Definition aqiOf (st : Nearby) : Q * bool := (n_aqi st, n_estimated st).

(** A result for a city (three segments) or a region (two segments). *)
Definition cityOrRegion (c : SearchResult.t) : Prop := urlParts c = 2 \/ urlParts c = 3.

(** The "parseable body rows" of the ranking table, in document order: the
    rows for which the callback pushes a record, with the record it pushes. *)
Fixpoint parsedRows (w : World) (index : nat) (rows : Cheerio) : list Ranking.t :=
  match rows with
  | [] => []
  | row :: rest =>
      match parseRow w index row with
      | Some r => r :: parsedRows w (S index) rest
      | None => parsedRows w (S index) rest
      end
  end.

(** A text that does not start with a minus sign (leading white space
    apart). *)
Definition unsigned (s : string) : bool := negb (startsWith (trimStart s) "-").

(** "Equal path depth" and equal [followersCount]: the results that the
    comparator does not separate. *)
Definition tied (depth : nat) (followers : Q) (c : SearchResult.t) : bool :=
  (urlParts c =? depth) && Qeq_bool (SearchResult.followersCount c) followers.

(** "Empty or whitespace-only". *)
Definition blank (s : string) : bool :=
  forallb isWhiteSpace (list_ascii_of_string s).

(** The first number in (0, 600) immediately followed by a boolean that is
    met when the indices [js] are visited in order; (0, false) when there is
    none. *)
Fixpoint firstPair (data : list JsValue) (js : list nat) : Q * bool :=
  match js with
  | [] => (0%Q, false)
  | j :: rest =>
      match nth_error data j, nth_error data (j + 1) with
      | Some (JNum q), Some (JBool b) =>
          if Qltb 0 q && Qltb q 600 then (q, b) else firstPair data rest
      | _, _ => firstPair data rest
      end
  end.

(** The backward search as the specification words it: the nearest such
    pair, that is, the first one met from the anchor towards the start of
    the window. *)
Definition nearestPair (data : list JsValue) (i : nat) : Q * bool :=
  firstPair data (rev (backwardWindow i)).

End Claimed.

(* ===================================================================== *)
(** * Concrete pages, payloads and worlds *)
(* ===================================================================== *)

Module Examples.

Import Js Dom IQAir.
Local Open Scope string_scope.
Local Open Scope nat_scope.

Definition okResponse : Response :=
  {| ok := true; status := 200; statusText := "OK"; body := EmptyString |}.

(** A world that serves one page and one search payload.  The path of a URL
    on the provider's origin is what follows the origin. *)
Definition serve (doc : Node) (data : list JsValue) : World :=
  {| fetch := fun _ => Ok okResponse;
     cheerio_load := fun _ => doc;
     JSON_parse := fun _ => Ok data;
     URL_pathname := fun u =>
       if startsWith u "https://www.iqair.com" then Ok (drop 21 u)
       else Throw "Invalid URL";
     encodeURIComponent := fun s => s |}.

Definition el (t cls : string) (children : list Node) : Node :=
  Element t (if isEmpty cls then [] else [("class", cls)]) children.

Definition par (s : string) : Node := el "p" "" [TextNode s].

(** A loaded document: the document node, with [html], [head] and [body]. *)
Definition page (content : list Node) : Node :=
  Element "#document" [] [el "html" "" [el "head" "" []; el "body" "" content]].

Definition emptyPage : Node := page [].

(** *** Search payloads *)

Definition tashkentData : list JsValue :=
  [JStr "/uzbekistan/tashkent"; JStr "/uzbekistan/tashkent/tashkent"].

Definition tashkentCity : SearchResult.t :=
  SearchResult.make "" "Tashkent" "Tashkent" "Uzbekistan"
    "/uzbekistan/tashkent/tashkent" 0 false 0 0 0.

Definition tashkentRegion : SearchResult.t :=
  SearchResult.make "" "Tashkent" "" "Uzbekistan"
    "/uzbekistan/tashkent" 0 false 0 0 0.

Definition boston : SearchResult.t :=
  SearchResult.make "" "Boston" "Massachusetts" "Usa"
    "/usa/massachusetts/boston" 0 false 0 0 0.

Definition newYork : SearchResult.t :=
  SearchResult.make "" "New York" "New York" "Usa"
    "/usa/new-york/new-york" 0 false 0 0 0.

Definition usaData : list JsValue :=
  [JStr "/usa/massachusetts/boston"; JStr "/usa/new-york/new-york"].

(** Two number-boolean pairs in the window before one anchor. *)
Definition twoPairsData : list JsValue :=
  [JNum 100; JBool true; JNum 50; JBool false; JStr "/usa/new-york/new-york"].

(** *** Ranking pages *)

Definition cell (s : string) : Node := el "td" "" [par s].

Definition rankRow (r c a h : string) : Node :=
  el "tr" "" [el "th" "" [TextNode r]; cell c; cell a;
              el "td" "" [Element "a" [("href", h)] [TextNode c]]].

Definition rankingPage (rows : list Node) : Node :=
  page [el "table" "" [
    el "thead" "" [el "tr" "" [el "th" "" [TextNode "#"];
                               el "th" "" [TextNode "Cities"];
                               el "th" "" [TextNode "US AQI"]]];
    el "tbody" "" rows]].

Definition lahoreDelhi : Node :=
  rankingPage [rankRow "1" "Lahore" "187" "/us/pakistan/punjab/lahore";
               rankRow "2" "Delhi" "172" "/us/india/delhi/delhi"].

(** A page whose second row carries a negative AQI text. *)
Definition negativePage : Node :=
  rankingPage [rankRow "1" "Lahore" "187" "/us/pakistan/punjab/lahore";
               rankRow "2" "Delhi" "-5" "/us/india/delhi/delhi"].

(** A page whose only row has no parsable AQI. *)
Definition unparsablePage : Node :=
  rankingPage [rankRow "1" "Lahore" "n/a" "/us/pakistan/punjab/lahore"].

(** *** City pages *)

Definition baseline : Ranking.t :=
  Ranking.make 0 "Tashkent" "uzbekistan" 42
    "https://www.iqair.com/us/uzbekistan/tashkent/tashkent".

(** A card without any inner [div]: strategy 1 finds no label, strategy 2
    finds the paragraph "87". *)
Definition plainCard : Node :=
  page [el "div" "aqi-box-shadow" [par "87"; par "Moderate"]].

Definition pollutantRow (name desc v u : string) : Node :=
  el "tr" "" [el "td" "" [el "button" "" [
    el "div" "" [el "div" "" [TextNode name; el "div" "text-gray-500" [TextNode desc]]];
    el "span" "font-body-m-medium" [TextNode v];
    el "span" "font-body-m-medium" [TextNode u]]]].

(** A row whose only text is a code and a unit, without a number. *)
Definition textRow (t : string) : Node :=
  el "tr" "" [el "td" "" [el "button" "" [el "div" "" [TextNode t]]]].

Definition cityPage : Node :=
  page [
    el "div" "aqi-box-shadow" [
      el "div" "" [par "US AQI"; par "87"];
      el "p" "font-body-l-medium" [TextNode "Moderate"]];
    Element "table" [("title", "Air pollutants")] [el "tbody" "" [
      pollutantRow "PM2.5" "Fine particles" "29.5" ugm3;
      pollutantRow "PM10" "Coarse particles" "0" ugm3;
      pollutantRow "O3" "Ozone" "n/a" "ppb";
      pollutantRow "" "" "5" ugm3;
      textRow ("PM2.5 - " ++ ugm3)]]].

End Examples.

(* ===================================================================== *)
(** * The commands that call the server module

    [src/iqair.tsx] (the "Check Air Quality" command) and the "Top Polluted
    Cities" command: the functions that decide which city is looked up,
    turn a missing result into an error and colour the level.  The React
    rendering itself is not modelled. *)
(* ===================================================================== *)

Module App.

Import Js Dom IQAir.
Local Open Scope string_scope.
Local Open Scope nat_scope.

(** The members of [Color] that the commands use. *)
Inductive Color : Type :=
| Green
| Yellow
| Orange
| Red
| Purple
| SecondaryText.

(** [getAQILevelColor], identical in both command files. *)
Definition getAQILevelColor (level : string) : Color :=
  let levelLower := toLowerCase level in
  if includes levelLower "good" || includes levelLower "excellent" then Green
  else if includes levelLower "moderate" || includes levelLower "fair" then Yellow
  else if includes levelLower "unhealthy for sensitive" || includes levelLower "sensitive"
  then Orange
  else if includes levelLower "unhealthy" then Red
  else if includes levelLower "very unhealthy" || includes levelLower "hazardous"
  then Purple
  else SecondaryText.

(** [x && x.trim() ? x : null] on an optional string. *)
Definition givenCity (city : option string) : option string :=
  match city with
  | Some c => if truthy c && truthy (Js.trim c) then Some c else None
  | None => None
  end.

(** The double quote character of the messages. *)
Definition quote : string := String "034" EmptyString.

(** The message of [fetchIQAirCityDetails] for a city that is not found. *)
Definition notInDatabase (targetCity : string) : string :=
  "City " ++ quote ++ targetCity ++ quote
  ++ " not found in IQAir database. Please check the spelling or try a different city name.".

(** [fetchIQAirCityDetails] of [src/iqair.tsx]. *)
Definition fetchIQAirCityDetails (w : World) (city : option string) : Outcome Details.t :=
  targetCity <-
    match givenCity city with
    | Some c => Ok c
    | None =>
        top <- fetchIQAirTopCities w 1 ;;
        match top with
        | [] => Throw "IQAir top list is empty"
        | first :: _ => Ok (Ranking.city first)
        end
    end ;;
  data <- fetchIQAirCityDetailsByName w targetCity ;;
  match data with
  | None => Throw (notInDatabase targetCity)
  | Some d => Ok d
  end.

(** [const targetCity = city && city.trim() ? city : preferences.defaultCity || null]
    of the command. *)
Definition targetCity (city defaultCity : option string) : option string :=
  match givenCity city with
  | Some c => Some c
  | None =>
      match defaultCity with
      | Some d => if truthy d then Some d else None
      | None => None
      end
  end.

(** What the "Check Air Quality" command loads for its argument and the
    preference. *)
Definition checkAirQuality (w : World) (city defaultCity : option string)
  : Outcome Details.t :=
  fetchIQAirCityDetails w (targetCity city defaultCity).

(** [targetCity || "default city"], the name shown with an error. *)
Definition errorCityName (target : option string) : string :=
  match target with
  | Some c => orStr c "default city"
  | None => "default city"
  end.

(** The country label:
    [slug && slug.length > 0 ? slug[0].toUpperCase() + slug.slice(1) : slug]. *)
Definition countryLabel (countrySlug : string) : string :=
  if truthy countrySlug && (0 <? String.length countrySlug)
  then capitalize countrySlug
  else countrySlug.

(** The message of the city view of the top list for a city that is not
    found. *)
Definition notInRanking (cityName : string) : string :=
  "City " ++ quote ++ cityName ++ quote ++ " not found in IQAir ranking".

(** The loader of [CityDetailsView] in the top-cities command. *)
Definition loadCityView (w : World) (cityName : string) : Outcome Details.t :=
  result <- fetchIQAirCityDetailsByName w cityName ;;
  match result with
  | None => Throw (notInRanking cityName)
  | Some d => Ok d
  end.

(** The loader of the top-cities command. *)
Definition loadTopCities (w : World) : Outcome (list Ranking.t) :=
  fetchIQAirTopCities w 10.

End App.

(* ===================================================================== *)
(** * Further vocabulary and examples *)
(* ===================================================================== *)

Module More.

Import Js Dom IQAir.
Local Open Scope string_scope.
Local Open Scope nat_scope.

(** A string of the flat array that the parser takes as an anchor. *)
Definition isAnchor (u : string) : bool :=
  match anchorParts (JStr u) with Some _ => true | None => false end.

(** The coordinates the backward loop may hold: none yet, or a pair that
    passed its tests. *)
Definition coordsOk (st : Nearby) : Prop :=
  (n_latitude st = 0%Q /\ n_longitude st = 0%Q)
  \/ ((-90 < n_latitude st)%Q /\ (n_latitude st < 90)%Q
      /\ (1 < Qabs (n_latitude st))%Q
      /\ (-180 < n_longitude st)%Q /\ (n_longitude st < 180)%Q).

(** The id the backward loop may hold: none yet, or a token that passed the
    test. *)
Definition idOk (st : Nearby) : Prop :=
  n_id st = EmptyString \/ test false reId (n_id st) = true.

(** The provider's origin with the locale prefix of city pages. *)
Definition cityOrigin : string := "https://www.iqair.com/us".

(** A world whose every response has the given status. *)
Definition failing (st : nat) (txt : string) : World :=
  {| fetch := fun _ => Ok {| ok := false; status := st; statusText := txt;
                             body := EmptyString |};
     cheerio_load := fun _ => Examples.emptyPage;
     JSON_parse := fun _ => Ok [];
     URL_pathname := fun _ => Throw "Invalid URL";
     encodeURIComponent := fun s => s |}.

(** A world whose search payload is not JSON. *)
Definition malformed : World :=
  {| fetch := fun _ => Ok Examples.okResponse;
     cheerio_load := fun _ => Examples.emptyPage;
     JSON_parse := fun _ => Throw "Unexpected token < in JSON at position 0";
     URL_pathname := fun _ => Throw "Invalid URL";
     encodeURIComponent := fun s => s |}.

(** A payload with a repeated anchor and tokens that are no anchors. *)
Definition repeatedData : list JsValue :=
  [JStr "5bc8233141fdcdf2"; JNum 152; JBool false; JNum 41.3; JNum 69.2;
   JStr "/uzbekistan/tashkent/tashkent"; JNum 25000;
   JStr "/favicon.ico"; JStr "/us"; JStr "/a/b/c/d";
   JStr "/uzbekistan/tashkent/tashkent"; JNum 7].

Definition noAnchorData : list JsValue :=
  [JNum 1; JStr "tashkent"; JStr "/favicon.ico"; JStr "/us"; JStr "/a/b/c/d";
   JBool true; JNull].

(** A city page without a main-pollutant row, whose first table entry is
    measured in ppm. *)
Definition ppmPage : Node :=
  Examples.page [
    Examples.el "div" "aqi-box-shadow" [Examples.par "87"];
    Element "table" [("title", "Air pollutants")] [Examples.el "tbody" "" [
      Examples.pollutantRow "CO" "Carbon monoxide" "3.5" "ppm"]]].

End More.

(* ===================================================================== *)
(** * Properties *)
(* ===================================================================== *)

Module Facts.

Import Js Dom IQAir.
Local Open Scope string_scope.
Local Open Scope nat_scope.

(** ** The primitives on concrete inputs *)

Example trim_example : Js.trim "  New York " = "New York".
Proof. reflexivity. Qed.

Example pathParts_example :
  pathParts "/uzbekistan/tashkent/tashkent" = ["uzbekistan"; "tashkent"; "tashkent"].
Proof. reflexivity. Qed.

Example displayName_example : displayName "new-york" = "New York".
Proof. reflexivity. Qed.

Example reSuffix_example :
  replaceRe false reSuffix "" "salt lake  city" = "salt lake"
  /\ replaceRe false reSuffix "" "city of london" = "city of london".
Proof. split; reflexivity. Qed.

Example reId_example :
  test false reId "5bc8233141fdcdf2" = true /\ test false reId "tashkent" = false.
Proof. split; reflexivity. Qed.

Example reAqi_example :
  option_map (group 1) (matchRe true reAqi "Live us aqi: 152 Unhealthy") = Some "152".
Proof. reflexivity. Qed.

Example rePollutantValue_example :
  option_map (fun m => (group 1 m, group 2 m))
             (matchRe true rePollutantValue "CO 3.5 ppm") = Some ("3.5", "ppm").
Proof. reflexivity. Qed.

Example splitRe_example :
  splitRe false (Plus cls_s) ("29.5  " ++ ugm3) = ["29.5"; ugm3].
Proof. reflexivity. Qed.

Example parseInt_example :
  parseInt "187" = Some 187%Z /\ parseInt "-5" = Some (-5)%Z
  /\ parseInt "12px" = Some 12%Z /\ parseInt "n/a" = None.
Proof. repeat split. Qed.

Example parseFloat_example :
  parseFloat "29.5" = Num 29.5 /\ parseFloat "n/a" = NaN
  /\ isZero (parseFloat "0.0") = true.
Proof. repeat split. Qed.

Example countrySlug_example :
  replaceAllRe false (Plus cls_s) "-" (toLowerCase "United  States") = "united-states".
Proof. reflexivity. Qed.

Example find_example :
  map trimmedText (find [tag "tbody"; tag "tr"] (rankingTable Examples.lahoreDelhi))
  = ["1Lahore187Lahore"; "2Delhi172Delhi"]
  /\ map fst (rankingRows Examples.lahoreDelhi) = [[0; 1; 0; 1; 0]; [0; 1; 0; 1; 1]].
Proof. split; reflexivity. Qed.

(** ** Strings *)

Lemma isEmpty_true (s : string) : isEmpty s = true <-> s = EmptyString.
Proof. destruct s; simpl; split; congruence. Qed.

Lemma isEmpty_toLowerCase (s : string) : isEmpty (toLowerCase s) = isEmpty s.
Proof. destruct s; reflexivity. Qed.

Lemma append_empty_r (s : string) : s ++ EmptyString = s.
Proof. induction s as [|c s IH]; simpl; [reflexivity | now rewrite IH]. Qed.

Lemma trimStart_empty (s : string) :
  trimStart s = EmptyString <-> Claimed.blank s = true.
Proof.
  unfold Claimed.blank.
  induction s as [|c s IH]; simpl.
  - split; reflexivity.
  - destruct (isWhiteSpace c); simpl.
    + exact IH.
    + split; discriminate.
Qed.

Lemma blank_trimStart (s : string) :
  Claimed.blank (trimStart s) = Claimed.blank s.
Proof.
  unfold Claimed.blank.
  induction s as [|c s IH]; simpl; [reflexivity|].
  destruct (isWhiteSpace c) eqn:E; simpl; [exact IH | now rewrite E].
Qed.

Lemma blank_reverse (s : string) : Claimed.blank (reverse s) = Claimed.blank s.
Proof.
  unfold Claimed.blank, reverse.
  rewrite list_ascii_of_string_of_list_ascii.
  generalize (list_ascii_of_string s) as l. intro l.
  apply eq_true_iff_eq. rewrite !forallb_forall.
  split; intros H x Hx; apply H.
  - now apply in_rev in Hx.
  - now apply in_rev.
Qed.

Lemma reverse_empty (s : string) : reverse s = EmptyString <-> s = EmptyString.
Proof.
  unfold reverse. split; intro H.
  - apply (f_equal list_ascii_of_string) in H.
    rewrite list_ascii_of_string_of_list_ascii in H. simpl in H.
    destruct s as [|c s]; [reflexivity|]. simpl in H.
    apply (f_equal (@List.length ascii)) in H.
    rewrite length_app in H. simpl in H. lia.
  - now subst.
Qed.

(** [trim] leaves nothing exactly on the empty and whitespace-only strings. *)
Lemma trim_empty (s : string) : Js.trim s = EmptyString <-> Claimed.blank s = true.
Proof.
  unfold Js.trim, trimEnd.
  rewrite reverse_empty, trimStart_empty, blank_reverse, blank_trimStart.
  reflexivity.
Qed.

Lemma trim_nonempty (s : string) :
  Claimed.blank s = false -> isEmpty (Js.trim s) = false.
Proof.
  intro H. destruct (isEmpty (Js.trim s)) eqn:E; [|reflexivity].
  apply isEmpty_true, trim_empty in E. congruence.
Qed.

Lemma prefix_refl (s : string) : String.prefix s s = true.
Proof.
  induction s as [|c s IH]; simpl; [reflexivity|].
  destruct (ascii_dec c c); [exact IH | congruence].
Qed.

Lemma includes_refl (s : string) : includes s s = true.
Proof. destruct s as [|a s]; [reflexivity|]. cbn [includes]. now rewrite prefix_refl. Qed.

(** ** Exceptions *)

Lemma bind_Ok {A B} (m : Outcome A) (f : A -> Outcome B) (a : A) :
  m = Ok a -> bind m f = f a.
Proof. now intros ->. Qed.

(** ** The resolver *)


Lemma find_ext_eq {A} (p q : A -> bool) (l : list A) :
  (forall x, p x = q x) -> List.find p l = List.find q l.
Proof.
  intro H. induction l as [|x l IH]; simpl; [reflexivity|].
  now rewrite H, IH.
Qed.

Lemma searchIQAirCities_Ok (w : World) (cityName : string)
    (response : Response) (data : list JsValue) :
  Claimed.blank cityName = false ->
  fetch w (searchUrl w (Js.trim cityName)) = Ok response ->
  ok response = true ->
  JSON_parse w (body response) = Ok data ->
  searchIQAirCities w cityName = Ok (parseIQAirSearchResponseSimple data).
Proof.
  intros Hb Hf Hok Hj. unfold searchIQAirCities.
  rewrite (trim_nonempty _ Hb), Hf. simpl. now rewrite Hok, Hj.
Qed.

Lemma searchIQAirCities_not_blank (w : World) (cityName : string)
    (rs : list SearchResult.t) :
  searchIQAirCities w cityName = Ok rs -> isEmpty (Js.trim cityName) = false.
Proof.
  unfold searchIQAirCities. destruct (isEmpty (Js.trim cityName)); [discriminate|reflexivity].
Qed.

Lemma fetchIQAirCityByName_resolve (w : World) (cityName : string)
    (rs : list SearchResult.t) :
  searchIQAirCities w cityName = Ok rs ->
  fetchIQAirCityByName w cityName
  = Ok (resolve (toLowerCase (Js.trim cityName)) rs).
Proof.
  intro H. unfold fetchIQAirCityByName.
  rewrite isEmpty_toLowerCase, (searchIQAirCities_not_blank _ _ _ H), H.
  reflexivity.
Qed.

(** The tiers are tried in the order of the source and the first hit wins. *)
Lemma findBest_tier_order (q : string) (rs : list SearchResult.t) :
  findBest q rs = Claimed.firstHit q rs Claimed.tiers.
Proof.
  unfold findBest, Claimed.tiers. cbn [Claimed.firstHit].
  repeat match goal with
         | |- context [List.find ?p rs] => destruct (List.find p rs); [reflexivity|]
         end.
  reflexivity.
Qed.

(** C9. [fetchIQAirCityByName] throws "City name is required" on every empty
    or whitespace-only name, before any request is made; and on every other
    name it returns [null] (not an error) whenever the search call succeeds
    and the flat-array parser yields no candidate. *)
Theorem blank_name_rejected_and_no_candidates_null (w : World) (cityName : string) :
  (Claimed.blank cityName = true ->
   fetchIQAirCityByName w cityName = Throw "City name is required")
  /\
  (Claimed.blank cityName = false ->
   forall (response : Response) (data : list JsValue),
     fetch w (searchUrl w (Js.trim cityName)) = Ok response ->
     ok response = true ->
     JSON_parse w (body response) = Ok data ->
     parseIQAirSearchResponseSimple data = [] ->
     fetchIQAirCityByName w cityName = Ok None).
Proof.
  split.
  - intro Hb. apply trim_empty in Hb. unfold fetchIQAirCityByName.
    now rewrite Hb.
  - intros Hb response data Hf Hok Hj Hnil.
    rewrite (fetchIQAirCityByName_resolve w cityName _
               (searchIQAirCities_Ok w cityName response data Hb Hf Hok Hj)).
    now rewrite Hnil.
Qed.

Lemma blank_name_rejected_and_no_candidates_null_witness :
  fetchIQAirCityByName (Examples.serve Examples.emptyPage []) "   "
  = Throw "City name is required"
  /\ fetchIQAirCityByName (Examples.serve Examples.emptyPage []) "atlantis"
     = Ok None.
Proof.
  split.
  - apply (proj1 (blank_name_rejected_and_no_candidates_null
                    (Examples.serve Examples.emptyPage []) "   ")).
    reflexivity.
  - apply (proj2 (blank_name_rejected_and_no_candidates_null
                    (Examples.serve Examples.emptyPage []) "atlantis")
             eq_refl Examples.okResponse []); reflexivity.
Defined.



(** C5 (as worded). On the query "york city" the candidates Boston and New
    York match no tier from 1 to 6; the code's tier 7 selects New York,
    whose name contains the stripped query "york", whereas the direction of
    tiers 5 and 6 (the stripped query contains the name) selects nothing and
    would leave the first result, Boston. *)
Lemma suffix_tier_direction_counterexample :
  let q := "york city" in
  let rs := [Examples.boston; Examples.newYork] in
  parseIQAirSearchResponseSimple Examples.usaData = rs
  /\ List.find (reverseAny q) rs = None
  /\ replaceRe false reSuffix "" q = "york"
  /\ Claimed.noSuffix q Examples.newYork = false
  /\ findBest q rs = Some Examples.newYork
  /\ Claimed.findBest q rs = Some Examples.boston
  /\ findBest q rs <> Claimed.findBest q rs.
Proof. cbv zeta. repeat split; try reflexivity. discriminate. Qed.

Lemma noSuffix_includes (q : string) (c : SearchResult.t) :
  noSuffix q c = includes (lowerName c) (replaceRe false reSuffix "" q).
Proof.
  unfold noSuffix.
  destruct (String.eqb_spec (lowerName c) (replaceRe false reSuffix "" q)) as [E|E];
    [|reflexivity].
  rewrite <- E. now rewrite includes_refl.
Qed.

Lemma noSuffix3_includes (q : string) (c : SearchResult.t) :
  noSuffix3 q c
  = includes (lowerName c) (replaceRe false reSuffix "" q) && (urlParts c =? 3).
Proof.
  unfold noSuffix3. f_equal. apply (noSuffix_includes q c).
Qed.

(** C5 (amended). When tiers 1 to 6 find nothing, the result is the first
    candidate with a three-segment URL whose lower-cased name contains the
    query stripped of a trailing " city" or " town"; failing that, the first
    candidate of any depth whose name contains the stripped query; failing
    that, the first candidate.  The direction is that of tiers 3 and 4. *)
Theorem suffix_tier_matches_name_containing_query
    (q : string) (rs : list SearchResult.t) :
  List.find (exact3 q) rs = None ->
  List.find (exact q) rs = None ->
  List.find (contains3 q) rs = None ->
  List.find (contains q) rs = None ->
  List.find (reverse3 q) rs = None ->
  List.find (reverseAny q) rs = None ->
  let stripped := replaceRe false reSuffix "" q in
  findBest q rs =
  match List.find (fun c => includes (lowerName c) stripped && (urlParts c =? 3)) rs with
  | Some c => Some c
  | None =>
      match List.find (fun c => includes (lowerName c) stripped) rs with
      | Some c => Some c
      | None => nth_error rs 0
      end
  end.
Proof.
  intros H1 H2 H3 H4 H5 H6 stripped. unfold findBest.
  rewrite H1, H2, H3, H4, H5, H6. cbn [orElse].
  rewrite (find_ext_eq (noSuffix3 q) _ rs (noSuffix3_includes q)).
  rewrite (find_ext_eq (noSuffix q) _ rs (noSuffix_includes q)).
  fold stripped.
  destruct (List.find (fun c => includes (lowerName c) stripped && (urlParts c =? 3)) rs);
    [reflexivity|].
  cbn [orElse].
  destruct (List.find (fun c => includes (lowerName c) stripped) rs); reflexivity.
Qed.

Lemma suffix_tier_matches_name_containing_query_witness :
  findBest "york city" [Examples.boston; Examples.newYork] = Some Examples.newYork.
Proof.
  rewrite (suffix_tier_matches_name_containing_query
             "york city" [Examples.boston; Examples.newYork]);
    reflexivity.
Defined.

(** ** The backward window *)

Lemma Qltb_0_not_falsy (q : Q) : Qltb 0 q = true -> falsyQ q = false.
Proof.
  unfold Qltb, falsyQ. intro H. apply negb_true_iff in H.
  destruct (Qeq_bool q 0) eqn:E; [|reflexivity].
  apply Qeq_bool_iff in E.
  assert (Hle : Qle_bool q 0 = true) by (apply Qle_bool_iff; rewrite E; apply Qle_refl).
  congruence.
Qed.

Lemma backwardStep_aqi (data : list JsValue) (st : Nearby) (j : nat) :
  Claimed.aqiOf (backwardStep data st j) =
  if falsyQ (n_aqi st)
  then match nth_error data j, nth_error data (j + 1) with
       | Some (JNum q), Some (JBool b) =>
           if Qltb 0 q && Qltb q 600 then (q, b) else Claimed.aqiOf st
       | _, _ => Claimed.aqiOf st
       end
  else Claimed.aqiOf st.
Proof.
  unfold backwardStep, Claimed.aqiOf.
  destruct (nth_error data j) as [[| b | q | s |]|]; try (destruct (falsyQ (n_aqi st)); reflexivity).
  - (* a number *)
    destruct (nth_error data (j + 1)) as [[| b' | q' | s' |]|];
      destruct (Qltb 0 q && Qltb q 600); destruct (falsyQ (n_aqi st)); simpl;
      repeat match goal with |- context [if ?c then _ else _] => destruct c end;
      reflexivity.
  - (* a string *)
    destruct (test false reId s && isEmpty (n_id st)); destruct (falsyQ (n_aqi st));
      reflexivity.
Qed.

(** What the loop does in general: scanning the window from its far end, it
    keeps the first number-boolean pair it meets. *)
Lemma searchBackwards_keeps_earliest (data : list JsValue) (js : list nat) (st : Nearby) :
  Claimed.aqiOf (fold_left (backwardStep data) js st) =
  if falsyQ (n_aqi st)
  then match Claimed.firstPair data js with
       | (q, b) => if falsyQ q then Claimed.aqiOf st else (q, b)
       end
  else Claimed.aqiOf st.
Proof.
  revert st. induction js as [|j js IH]; intro st; cbn [fold_left Claimed.firstPair].
  - destruct (falsyQ (n_aqi st)); reflexivity.
  - rewrite IH. pose proof (backwardStep_aqi data st j) as Hstep.
    unfold Claimed.aqiOf in *. 
    destruct (falsyQ (n_aqi st)) eqn:Hst.
    + destruct (nth_error data j) as [[| b | q | s |]|];
        try (injection Hstep as -> ->; rewrite Hst; reflexivity).
      destruct (nth_error data (j + 1)) as [[| b' | q' | s' |]|];
        try (injection Hstep as -> ->; rewrite Hst; reflexivity).
      destruct (Qltb 0 q && Qltb q 600) eqn:Hq.
      * injection Hstep as -> ->.
        apply andb_true_iff in Hq as [Hq _].
        now rewrite (Qltb_0_not_falsy _ Hq).
      * injection Hstep as -> ->. rewrite Hst. reflexivity.
    + injection Hstep as -> ->. rewrite Hst. reflexivity.
Qed.

Lemma firstPair_found (data : list JsValue) (js : list nat) :
  Claimed.firstPair data js = (0%Q, false)
  \/ falsyQ (fst (Claimed.firstPair data js)) = false.
Proof.
  induction js as [|j js IH]; cbn [Claimed.firstPair]; [now left|].
  destruct (nth_error data j) as [[| b | q | s |]|]; try exact IH.
  destruct (nth_error data (j + 1)) as [[| b' | q' | s' |]|]; try exact IH.
  destruct (Qltb 0 q && Qltb q 600) eqn:E; [|exact IH].
  right. apply andb_true_iff in E as [E _]. now apply Qltb_0_not_falsy.
Qed.

(** The pair the parser assigns is the one farthest from the anchor. *)
Lemma searchBackwards_farthest (data : list JsValue) (i : nat) :
  Claimed.aqiOf (searchBackwards data i) = Claimed.firstPair data (backwardWindow i).
Proof.
  unfold searchBackwards. rewrite searchBackwards_keeps_earliest.
  change (falsyQ (n_aqi noNearby)) with true. cbv iota.
  destruct (firstPair_found data (backwardWindow i)) as [H|H].
  - rewrite H. reflexivity.
  - destruct (Claimed.firstPair data (backwardWindow i)) as [q b].
    cbn [fst] in H. now rewrite H.
Qed.

(** C4 (the code at the failing input). With the pairs (100, true) and
    (50, false) in the window before the anchor at index 4, the parser
    assigns the pair that is farthest from the anchor, (100, true); the
    nearest pair is (50, false). *)
Theorem backward_window_keeps_farthest_pair :
  exists r,
    parseIQAirSearchResponseSimple Examples.twoPairsData = [r]
    /\ SearchResult.url r = "/usa/new-york/new-york"
    /\ (SearchResult.aqi r, SearchResult.estimated r) = (100%Q, true)
    /\ Claimed.nearestPair Examples.twoPairsData 4 = (50%Q, false).
Proof.
  eexists. split; [reflexivity|]. repeat split.
Qed.

(** ** The stable sort *)

Section SortFacts.

Context {A : Type} (cmp : A -> A -> Q) (P : A -> Prop).

Let le (x y : A) : Prop := Qle_bool (cmp x y) 0 = true.

Hypothesis le_total : forall x y, P x -> P y -> le x y \/ le y x.
Hypothesis le_trans : forall x y z, P x -> P y -> P z -> le x y -> le y z -> le x z.

Lemma insertBy_perm (x : A) (l : list A) : Permutation (x :: l) (insertBy cmp x l).
Proof.
  induction l as [|y l IH]; simpl; [apply Permutation_refl|].
  destruct (Qle_bool (cmp x y) 0); [apply Permutation_refl|].
  eapply perm_trans; [apply perm_swap|]. now apply perm_skip.
Qed.

Lemma sortBy_perm (l : list A) : Permutation l (sortBy cmp l).
Proof.
  induction l as [|x l IH]; simpl; [constructor|].
  eapply perm_trans; [apply perm_skip, IH | apply insertBy_perm].
Qed.

Lemma sortBy_Forall (l : list A) : Forall P l -> Forall P (sortBy cmp l).
Proof. intro H. exact (Permutation_Forall (sortBy_perm l) H). Qed.

Lemma insertBy_sorted (x : A) (l : list A) :
  P x -> Forall P l -> ForallOrdPairs le l -> ForallOrdPairs le (insertBy cmp x l).
Proof.
  intros Px Pl Hs. induction Hs as [|y l Hy Hs IH]; simpl.
  - repeat constructor.
  - inversion Pl as [|? ? Py Pl']; subst.
    destruct (Qle_bool (cmp x y) 0) eqn:E.
    + constructor; [|constructor; assumption].
      constructor; [exact E|].
      rewrite Forall_forall in *. intros z Hz.
      apply (le_trans x y z); auto.
    + constructor; [|apply IH; assumption].
      apply (Permutation_Forall (insertBy_perm x l)).
      constructor; [|assumption].
      destruct (le_total x y Px Py) as [H|H]; [unfold le in H; congruence | exact H].
Qed.

Lemma sortBy_sorted (l : list A) : Forall P l -> ForallOrdPairs le (sortBy cmp l).
Proof.
  induction l as [|x l IH]; intro H; simpl; [constructor|].
  inversion H; subst. apply insertBy_sorted; auto using sortBy_Forall.
Qed.

(** Stability: a class of results that the comparator does not separate
    keeps its order. *)
Lemma insertBy_filter (g : A -> bool) (x : A) (l : list A) :
  (forall a b, P a -> P b -> g a = true -> g b = true -> le a b) ->
  P x -> Forall P l ->
  filter g (insertBy cmp x l) = filter g (x :: l).
Proof.
  intros Hg Px Pl. induction l as [|y l IH]; [reflexivity|].
  inversion Pl as [|? ? Py Pl']; subst. cbn [insertBy].
  destruct (Qle_bool (cmp x y) 0) eqn:E; [reflexivity|].
  cbn [filter]. rewrite (IH Pl'). cbn [filter].
  destruct (g x) eqn:Gx, (g y) eqn:Gy; try reflexivity.
  specialize (Hg x y Px Py Gx Gy). unfold le in Hg. congruence.
Qed.

Lemma sortBy_stable (g : A -> bool) (l : list A) :
  (forall a b, P a -> P b -> g a = true -> g b = true -> le a b) ->
  Forall P l ->
  filter g (sortBy cmp l) = filter g l.
Proof.
  intros Hg. induction l as [|x l IH]; intro Pl; [reflexivity|].
  inversion Pl; subst. cbn [sortBy].
  rewrite insertBy_filter by auto using sortBy_Forall.
  cbn [filter]. now rewrite IH.
Qed.

End SortFacts.

Lemma ForallOrdPairs_nth {A} (R : A -> A -> Prop) (l : list A) :
  ForallOrdPairs R l ->
  forall i j a b, i < j -> nth_error l i = Some a -> nth_error l j = Some b -> R a b.
Proof.
  induction 1 as [|x l Hx Hl IH]; intros i j a b Hij Ha Hb.
  - destruct i; discriminate.
  - destruct j as [|j]; [lia|]. simpl in Hb. destruct i as [|i]; simpl in Ha.
    + injection Ha as <-. rewrite Forall_forall in Hx.
      apply Hx. eapply nth_error_In; eauto.
    + apply (IH i j); auto. lia.
Qed.

(** ** The flat-array parser *)

Lemma anchorParts_depth (item : string) (parts : list string) :
  anchorParts (JStr item) = Some parts ->
  List.length (pathParts item) = 2 \/ List.length (pathParts item) = 3.
Proof.
  unfold anchorParts.
  destruct (startsWith item "/" && negb (includes item ".")); [|discriminate].
  destruct ((2 <=? List.length (pathParts item)) && (List.length (pathParts item) <=? 3)) eqn:E;
    [|discriminate].
  intros _. apply andb_true_iff in E as [E1 E2].
  apply Nat.leb_le in E1. apply Nat.leb_le in E2. lia.
Qed.

Lemma scanStep_depth (data : list JsValue) (st : list SearchResult.t * list string) (i : nat) :
  Forall Claimed.cityOrRegion (fst st) -> Forall Claimed.cityOrRegion (fst (scanStep data st i)).
Proof.
  destruct st as [results seen]. unfold scanStep. intro H.
  destruct (nth_error data i) as [[| b | q | item |]|]; try exact H.
  destruct (anchorParts (JStr item)) as [parts|] eqn:E; [|exact H].
  destruct (existsb (String.eqb item) seen); [exact H|].
  cbn [fst] in *. apply Forall_app. split; [exact H|].
  constructor; [|constructor].
  unfold Claimed.cityOrRegion, urlParts, makeResult. cbn [SearchResult.url].
  exact (anchorParts_depth item parts E).
Qed.

(** Every reconstructed result has a path of two or three segments. *)
Lemma collectResults_depth (data : list JsValue) :
  Forall Claimed.cityOrRegion (collectResults data).
Proof.
  unfold collectResults.
  assert (H : forall js st, Forall Claimed.cityOrRegion (fst st) ->
                            Forall Claimed.cityOrRegion (fst (fold_left (scanStep data) js st))).
  { induction js as [|j js IH]; intros st Hst; [exact Hst|].
    cbn [fold_left]. apply IH. now apply scanStep_depth. }
  apply H. constructor.
Qed.

Lemma compare_3_2 (a b : SearchResult.t) :
  urlParts a = 3 -> urlParts b = 2 -> compareResults a b = (-1)%Q.
Proof. intros Ha Hb. unfold compareResults. now rewrite Ha, Hb. Qed.

Lemma compare_2_3 (a b : SearchResult.t) :
  urlParts a = 2 -> urlParts b = 3 -> compareResults a b = 1%Q.
Proof. intros Ha Hb. unfold compareResults. now rewrite Ha, Hb. Qed.

Lemma compare_same (a b : SearchResult.t) :
  urlParts a = urlParts b ->
  compareResults a b = (SearchResult.followersCount b - SearchResult.followersCount a)%Q.
Proof.
  intros E. unfold compareResults. rewrite E.
  destruct (urlParts b =? 3) eqn:E3, (urlParts b =? 2) eqn:E2; try reflexivity.
  apply Nat.eqb_eq in E3. apply Nat.eqb_eq in E2. lia.
Qed.

Lemma compare_le_total (x y : SearchResult.t) :
  Claimed.cityOrRegion x -> Claimed.cityOrRegion y ->
  Qle_bool (compareResults x y) 0 = true \/ Qle_bool (compareResults y x) 0 = true.
Proof.
  intros [Hx|Hx] [Hy|Hy].
  - rewrite !compare_same by congruence. rewrite !Qle_bool_iff.
    destruct (Qlt_le_dec (SearchResult.followersCount x) (SearchResult.followersCount y));
      [right | left]; lra.
  - right. now rewrite (compare_3_2 y x Hy Hx).
  - left. now rewrite (compare_3_2 x y Hx Hy).
  - rewrite !compare_same by congruence. rewrite !Qle_bool_iff.
    destruct (Qlt_le_dec (SearchResult.followersCount x) (SearchResult.followersCount y));
      [right | left]; lra.
Qed.

Lemma compare_le_trans (x y z : SearchResult.t) :
  Claimed.cityOrRegion x -> Claimed.cityOrRegion y -> Claimed.cityOrRegion z ->
  Qle_bool (compareResults x y) 0 = true ->
  Qle_bool (compareResults y z) 0 = true ->
  Qle_bool (compareResults x z) 0 = true.
Proof.
  intros [Hx|Hx] [Hy|Hy] [Hz|Hz];
    try (rewrite (compare_2_3 x y Hx Hy); discriminate);
    try (rewrite (compare_2_3 y z Hy Hz); intros _; discriminate);
    try (intros _ _; now rewrite (compare_3_2 x z Hx Hz)).
  - rewrite !compare_same by congruence. rewrite !Qle_bool_iff. lra.
  - rewrite !compare_same by congruence. rewrite !Qle_bool_iff. lra.
Qed.

Lemma tied_le (d : nat) (f : Q) (a b : SearchResult.t) :
  Claimed.tied d f a = true -> Claimed.tied d f b = true ->
  Qle_bool (compareResults a b) 0 = true.
Proof.
  unfold Claimed.tied. intros Ha Hb.
  apply andb_true_iff in Ha as [Da Fa]. apply andb_true_iff in Hb as [Db Fb].
  apply Nat.eqb_eq in Da. apply Nat.eqb_eq in Db.
  apply Qeq_bool_iff in Fa. apply Qeq_bool_iff in Fb.
  rewrite compare_same by congruence. rewrite Qle_bool_iff. lra.
Qed.

(** C7. The results returned by [parseIQAirSearchResponseSimple] are the
    collected results rearranged so that no two-segment result comes before
    a three-segment one, results of equal depth come in descending
    [followersCount], and results equal in both keep the order in which they
    were collected (the sort is stable). *)
Theorem reconstructed_results_ordered (data : list JsValue) :
  let collected := collectResults data in
  let out := parseIQAirSearchResponseSimple data in
  Permutation collected out
  /\ Forall (fun c => urlParts c = 2 \/ urlParts c = 3) out
  /\ (forall i j a b,
        i < j -> nth_error out i = Some a -> nth_error out j = Some b ->
        ~ (urlParts a = 2 /\ urlParts b = 3))
  /\ (forall i j a b,
        i < j -> nth_error out i = Some a -> nth_error out j = Some b ->
        urlParts a = urlParts b ->
        (SearchResult.followersCount b <= SearchResult.followersCount a)%Q)
  /\ (forall depth followers,
        filter (Claimed.tied depth followers) out
        = filter (Claimed.tied depth followers) collected).
Proof.
  intros collected out. unfold out, parseIQAirSearchResponseSimple. fold collected.
  pose proof (collectResults_depth data) as Hd. fold collected in Hd.
  pose proof (sortBy_sorted compareResults Claimed.cityOrRegion compare_le_total
                compare_le_trans collected Hd) as Hs.
  pose proof (ForallOrdPairs_nth _ _ Hs) as Hnth. cbv beta in Hnth.
  repeat split.
  - apply sortBy_perm.
  - exact (sortBy_Forall compareResults Claimed.cityOrRegion collected Hd).
  - intros i j a b Hij Ha Hb [Da Db].
    specialize (Hnth i j a b Hij Ha Hb).
    rewrite (compare_2_3 a b Da Db) in Hnth. discriminate.
  - intros i j a b Hij Ha Hb E.
    specialize (Hnth i j a b Hij Ha Hb).
    rewrite (compare_same a b E) in Hnth. apply Qle_bool_iff in Hnth. lra.
  - intros depth followers.
    apply (sortBy_stable compareResults Claimed.cityOrRegion); [|exact Hd].
    intros a b _ _. apply tied_le.
Qed.

(** The specification's scenario again: the city record, pushed second,
    is returned before the region record. *)
Lemma reconstructed_results_ordered_witness :
  collectResults Examples.tashkentData
  = [Examples.tashkentRegion; Examples.tashkentCity]
  /\ parseIQAirSearchResponseSimple Examples.tashkentData
     = [Examples.tashkentCity; Examples.tashkentRegion]
  /\ ~ (urlParts Examples.tashkentCity = 2 /\ urlParts Examples.tashkentRegion = 3).
Proof.
  pose proof (reconstructed_results_ordered Examples.tashkentData)
    as (_ & _ & H23 & _).
  split; [reflexivity|]. split; [reflexivity|].
  apply (H23 0 1); [lia | reflexivity | reflexivity].
Defined.

(** ** The ranking table *)

Lemma filter_all_false {A} (f : A -> bool) (l : list A) :
  (forall x, In x l -> f x = false) -> filter f l = [].
Proof.
  induction l as [|x l IH]; intro H; simpl; [reflexivity|].
  rewrite (H x (or_introl Logic.eq_refl)). apply IH. intros y Hy. apply H. now right.
Qed.

Lemma in_firstn {A} (n : nat) (l : list A) (x : A) : In x (firstn n l) -> In x l.
Proof.
  intro H. rewrite <- (firstn_skipn n l). apply in_or_app. now left.
Qed.

Lemma length_zero_nil {A} (l : list A) : (List.length l =? 0) = true <-> l = [].
Proof. destruct l; simpl; split; congruence. Qed.

Lemma length_zero_false {A} (l : list A) : l <> [] -> (List.length l =? 0) = false.
Proof. destruct l; simpl; congruence. Qed.

(** The loop returns the records of the first [limit] parseable rows. *)
Lemma eachRow_firstn (w : World) (limit : Z) (rows : Cheerio) :
  (0 <= limit)%Z ->
  forall (index : nat) (result : list Ranking.t),
    List.length result <= Z.to_nat limit ->
    eachRow w limit index rows result
    = (result ++ firstn (Z.to_nat limit - List.length result)
                        (Claimed.parsedRows w index rows))%list.
Proof.
  intro Hl. induction rows as [|row rows IH]; intros index result Hlen.
  - simpl. now rewrite firstn_nil, app_nil_r.
  - cbn [eachRow Claimed.parsedRows].
    destruct (limit <=? Z.of_nat (List.length result))%Z eqn:E.
    + apply Z.leb_le in E.
      replace (Z.to_nat limit - List.length result) with 0 by lia.
      simpl. now rewrite app_nil_r.
    + apply Z.leb_gt in E.
      destruct (parseRow w index row) as [r|].
      * rewrite IH by (rewrite length_app; simpl; lia).
        rewrite length_app. simpl.
        replace (Z.to_nat limit - List.length result)
          with (S (Z.to_nat limit - (List.length result + 1))) by lia.
        simpl. now rewrite <- app_assoc.
      * now apply IH.
Qed.

Lemma eachRow_none (w : World) (limit : Z) (rows : Cheerio) :
  forall index : nat,
    Claimed.parsedRows w index rows = [] -> eachRow w limit index rows [] = [].
Proof.
  induction rows as [|row rows IH]; intros index H; [reflexivity|].
  cbn [eachRow Claimed.parsedRows] in *.
  destruct (limit <=? Z.of_nat (List.length (@nil Ranking.t)))%Z; [reflexivity|].
  destruct (parseRow w index row); [discriminate|]. now apply IH.
Qed.

Lemma parseInt_sign (s : string) (n : Z) :
  parseInt s = Some n -> Claimed.unsigned s = true -> (0 <= n)%Z.
Proof.
  unfold parseInt, Claimed.unsigned, startsWith. intros Hp Hu.
  destruct (trimStart s) as [|c t]; [discriminate Hp|].
  destruct c as [[] [] [] [] [] [] [] []]; simpl in Hp, Hu;
    try discriminate Hu; try discriminate Hp;
    try (destruct t; discriminate Hu);
    match type of Hp with
    | context [takeDigits ?x] => destruct (takeDigits x) as [ds rest]
    end;
    simpl in Hp;
    try match type of Hp with
        | context [isEmpty ?d] => destruct (isEmpty d)
        end;
    try discriminate Hp; injection Hp as <-; apply N2Z.is_nonneg.
Qed.

(** What a pushed record holds, and which rows push none. *)
Lemma parseRow_Some (w : World) (index : nat) (row : Located) (r : Ranking.t) :
  parseRow w index row = Some r ->
  Ranking.city r = rowCity row
  /\ Ranking.city r <> EmptyString
  /\ exists n : Z, parseInt (rowAqiText row) = Some n /\ Ranking.aqi r = inject_Z n.
Proof.
  unfold parseRow.
  destruct (List.length (find [tag "td"] [row]) <? 2); [discriminate|].
  destruct (parseInt (rowAqiText row)) as [n|]; [|discriminate].
  destruct (isEmpty (rowCity row)) eqn:E; [discriminate|].
  intro H. injection H as <-. cbn [Ranking.city Ranking.aqi].
  repeat split.
  - intro H. rewrite H in E. discriminate.
  - now exists n.
Qed.

Lemma parseRow_dropped (w : World) (index : nat) (row : Located) :
  rowCity row = EmptyString \/ parseInt (rowAqiText row) = None ->
  parseRow w index row = None.
Proof.
  unfold parseRow. intros [H|H].
  - destruct (List.length (find [tag "td"] [row]) <? 2); [reflexivity|].
    rewrite H. destruct (parseInt (rowAqiText row)); reflexivity.
  - destruct (List.length (find [tag "td"] [row]) <? 2); [reflexivity|].
    now rewrite H.
Qed.

Lemma parsedRows_origin (w : World) (rows : Cheerio) (r : Ranking.t) :
  forall index : nat,
    In r (Claimed.parsedRows w index rows) ->
    exists i row, In row rows /\ parseRow w i row = Some r.
Proof.
  induction rows as [|row rows IH]; intros index H; [contradiction|].
  cbn [Claimed.parsedRows] in H.
  destruct (parseRow w index row) as [r'|] eqn:E.
  - destruct H as [<-|H].
    + exists index, row. split; [now left | exact E].
    + destruct (IH _ H) as (i & row' & Hin & Hp). exists i, row'. split; [now right | exact Hp].
  - destruct (IH _ H) as (i & row' & Hin & Hp). exists i, row'. split; [now right | exact Hp].
Qed.

Lemma fetchIQAirTopCities_loaded (w : World) (limit : Z) (response : Response) :
  fetch w rankingUrl = Ok response -> ok response = true ->
  fetchIQAirTopCities w limit
  = parseRankingDocument w (cheerio_load w (body response)) limit.
Proof. intros Hf Hok. unfold fetchIQAirTopCities. rewrite Hf. simpl. now rewrite Hok. Qed.

(** C3 (as worded). A page with a qualifying table of two parseable rows,
    the second with the AQI text "-5", yields a record with a negative
    [aqi]. *)
Lemma ranking_negative_aqi_counterexample :
  let w := Examples.serve Examples.negativePage [] in
  Claimed.parsedRows w 0 (rankingRows Examples.negativePage)
  = [Ranking.make 1 "Lahore" "pakistan" 187 "https://www.iqair.com/us/pakistan/punjab/lahore";
     Ranking.make 2 "Delhi" "india" (-5) "https://www.iqair.com/us/india/delhi/delhi"]
  /\ fetchIQAirTopCities w 10
     = Ok [Ranking.make 1 "Lahore" "pakistan" 187 "https://www.iqair.com/us/pakistan/punjab/lahore";
           Ranking.make 2 "Delhi" "india" (-5) "https://www.iqair.com/us/india/delhi/delhi"]
  /\ ~ (forall rs, fetchIQAirTopCities w 10 = Ok rs ->
                   Forall (fun r => (0 <= Ranking.aqi r)%Q) rs).
Proof.
  cbv zeta. split; [reflexivity|]. split; [reflexivity|].
  intro H. specialize (H _ Logic.eq_refl).
  inversion H as [|? ? _ H']; subst. inversion H' as [|? ? Hneg _]; subst.
  cbn [Ranking.aqi] in Hneg. unfold Qle in Hneg. simpl in Hneg. lia.
Qed.

(** C3 (amended). For every loaded ranking page with a qualifying table
    whose body has N >= 1 parseable rows, and every limit >= 1,
    [fetchIQAirTopCities] returns the records of the first min(N, limit)
    parseable rows in document order.  Every returned record has a
    non-empty city and, as [aqi], the integer that [parseInt] reads from the
    AQI cell of its row; that integer is non-negative whenever the cell text
    does not start with a minus sign.  A row with an empty city or an
    unparsable AQI pushes no record. *)
Theorem ranking_returns_first_parseable_rows
    (w : World) (limit : Z) (response : Response) :
  fetch w rankingUrl = Ok response ->
  ok response = true ->
  let doc := cheerio_load w (body response) in
  let rows := rankingRows doc in
  let parsed := Claimed.parsedRows w 0 rows in
  rankingTable doc <> [] ->
  (1 <= limit)%Z ->
  1 <= List.length parsed ->
  exists rs,
    fetchIQAirTopCities w limit = Ok rs
    /\ rs = firstn (Z.to_nat limit) parsed
    /\ List.length rs = Nat.min (List.length parsed) (Z.to_nat limit)
    /\ Forall (fun r =>
         Ranking.city r <> EmptyString
         /\ exists row n,
              In row rows
              /\ Ranking.city r = rowCity row
              /\ parseInt (rowAqiText row) = Some n
              /\ Ranking.aqi r = inject_Z n
              /\ (Claimed.unsigned (rowAqiText row) = true -> (0 <= n)%Z)) rs
    /\ (forall index row,
          rowCity row = EmptyString \/ parseInt (rowAqiText row) = None ->
          parseRow w index row = None).
Proof.
  intros Hf Hok doc rows parsed Htable Hlimit Hn.
  exists (firstn (Z.to_nat limit) parsed).
  assert (Hrun : eachRow w limit 0 rows [] = firstn (Z.to_nat limit) parsed).
  { rewrite eachRow_firstn by (simpl; lia). simpl. now rewrite Nat.sub_0_r. }
  assert (Hlen : List.length (firstn (Z.to_nat limit) parsed)
                 = Nat.min (List.length parsed) (Z.to_nat limit)).
  { rewrite length_firstn. lia. }
  repeat split.
  - rewrite (fetchIQAirTopCities_loaded w limit response Hf Hok).
    unfold parseRankingDocument. fold doc.
    rewrite (length_zero_false _ Htable). fold rows. rewrite Hrun.
    destruct (firstn (Z.to_nat limit) parsed) eqn:E; [|reflexivity].
    simpl in Hlen. lia.
  - exact Hlen.
  - apply Forall_forall. intros r Hr.
    apply in_firstn in Hr.
    destruct (parsedRows_origin w rows r 0 Hr) as (i & row & Hin & Hp).
    destruct (parseRow_Some w i row r Hp) as (Hc & Hne & n & Hn' & Ha).
    split; [exact Hne|].
    exists row, n. repeat split; auto.
    intro Hu. exact (parseInt_sign _ _ Hn' Hu).
  - intros index row. apply parseRow_dropped.
Qed.

(** The round trip of the specification: the rows Lahore (187) and Delhi
    (172) with limit 10 come back as exactly those two records. *)
Lemma ranking_returns_first_parseable_rows_witness :
  let w := Examples.serve Examples.lahoreDelhi [] in
  fetchIQAirTopCities w 10
  = Ok [Ranking.make 1 "Lahore" "pakistan" 187 "https://www.iqair.com/us/pakistan/punjab/lahore";
        Ranking.make 2 "Delhi" "india" 172 "https://www.iqair.com/us/india/delhi/delhi"].
Proof.
  cbv zeta.
  destruct (ranking_returns_first_parseable_rows
              (Examples.serve Examples.lahoreDelhi []) 10 Examples.okResponse)
    as (rs & Hrs & Heq & _).
  - reflexivity.
  - reflexivity.
  - discriminate.
  - lia.
  - simpl. lia.
  - rewrite Hrs, Heq. reflexivity.
Defined.

(** ** The city page *)

Lemma extractDetails_no_card (doc : Node) (baseInfo : Ranking.t) :
  (forall el, In el (query doc [tag "div"]) -> isAqiCard el = false) ->
  extractDetails doc baseInfo = Throw "IQAir HTML structure: AQI main card not found".
Proof.
  intro H. unfold extractDetails, aqiCardOf.
  now rewrite (filter_all_false _ _ H).
Qed.

Lemma fetchIQAirCityDetailsByName_loaded (w : World) (cityName : string)
    (baseInfo : Ranking.t) (response : Response) :
  fetchIQAirCityByName w cityName = Ok (Some baseInfo) ->
  fetch w (Ranking.url baseInfo) = Ok response ->
  ok response = true ->
  fetchIQAirCityDetailsByName w cityName
  = (details <- extractDetails (cheerio_load w (body response)) baseInfo ;;
     Ok (Some details)).
Proof.
  intros Hb Hf Hok. unfold fetchIQAirCityDetailsByName.
  rewrite Hb. cbn [bind]. rewrite Hf. cbn [bind]. now rewrite Hok.
Qed.

(** C6. A missing structural anchor is fatal.  [fetchIQAirTopCities] throws
    when no table of the loaded page has "Cities" and "AQI" in its second
    and third headers, and when the qualifying table has no parseable row;
    the detail extraction throws when no [div] of the loaded page carries
    the AQI-card class marker.  In each case the outcome is the exception,
    never a list or a record. *)
Theorem missing_anchor_is_fatal (w : World) :
  (forall (limit : Z) (response : Response),
     fetch w rankingUrl = Ok response ->
     ok response = true ->
     let doc := cheerio_load w (body response) in
     ((forall el, In el (query doc [tag "table"]) -> isRankingTable el = false) ->
      fetchIQAirTopCities w limit
      = Throw "IQAir HTML structure: ranking table not found")
     /\
     (rankingTable doc <> [] ->
      Claimed.parsedRows w 0 (rankingRows doc) = [] ->
      fetchIQAirTopCities w limit
      = Throw "IQAir HTML parsing: no rows parsed from ranking table"))
  /\
  (forall (doc : Node) (baseInfo : Ranking.t),
     (forall el, In el (query doc [tag "div"]) -> isAqiCard el = false) ->
     extractDetails doc baseInfo
     = Throw "IQAir HTML structure: AQI main card not found")
  /\
  (forall (cityName : string) (baseInfo : Ranking.t) (response : Response),
     fetchIQAirCityByName w cityName = Ok (Some baseInfo) ->
     fetch w (Ranking.url baseInfo) = Ok response ->
     ok response = true ->
     (forall el, In el (query (cheerio_load w (body response)) [tag "div"]) ->
                 isAqiCard el = false) ->
     fetchIQAirCityDetailsByName w cityName
     = Throw "IQAir HTML structure: AQI main card not found").
Proof.
  split; [|split].
  - intros limit response Hf Hok doc.
    rewrite (fetchIQAirTopCities_loaded w limit response Hf Hok). fold doc.
    unfold parseRankingDocument. split.
    + intro H. unfold rankingTable. now rewrite (filter_all_false _ _ H).
    + intros Ht Hp. rewrite (length_zero_false _ Ht).
      now rewrite (eachRow_none w limit _ 0 Hp).
  - exact extractDetails_no_card.
  - intros cityName baseInfo response Hb Hf Hok H.
    rewrite (fetchIQAirCityDetailsByName_loaded w cityName baseInfo response Hb Hf Hok).
    now rewrite (extractDetails_no_card _ baseInfo H).
Qed.

Lemma missing_anchor_is_fatal_witness :
  fetchIQAirTopCities (Examples.serve Examples.emptyPage []) 10
  = Throw "IQAir HTML structure: ranking table not found"
  /\ fetchIQAirTopCities (Examples.serve Examples.unparsablePage []) 10
     = Throw "IQAir HTML parsing: no rows parsed from ranking table"
  /\ fetchIQAirCityDetailsByName
       (Examples.serve Examples.emptyPage Examples.tashkentData) "tashkent"
     = Throw "IQAir HTML structure: AQI main card not found".
Proof.
  split; [|split].
  - apply (proj1 (proj1 (missing_anchor_is_fatal (Examples.serve Examples.emptyPage []))
                    10%Z Examples.okResponse Logic.eq_refl Logic.eq_refl)).
    intros el [].
  - apply (proj2 (proj1 (missing_anchor_is_fatal (Examples.serve Examples.unparsablePage []))
                    10%Z Examples.okResponse Logic.eq_refl Logic.eq_refl)).
    + discriminate.
    + reflexivity.
  - apply (proj2 (proj2 (missing_anchor_is_fatal
                           (Examples.serve Examples.emptyPage Examples.tashkentData)))
             "tashkent" (toRanking Examples.tashkentCity) Examples.okResponse);
      try reflexivity.
    intros el [].
Defined.

(** *** The AQI value *)

Lemma falsyQ_inject_Z (v : Z) : (0 < v)%Z -> falsyQ (inject_Z v) = false.
Proof.
  intro H. unfold falsyQ. destruct (Qeq_bool (inject_Z v) 0) eqn:E; [|reflexivity].
  apply Qeq_bool_iff in E. unfold Qeq in E. simpl in E. lia.
Qed.

Lemma plausibleAqi_range (el : Located) (n : Z) :
  plausibleAqi el = Some n -> parseInt (trimmedText el) = Some n /\ (0 < n <= 500)%Z.
Proof.
  unfold plausibleAqi. destruct (parseInt (trimmedText el)) as [m|]; [|discriminate].
  destruct ((0 <? m)%Z && (m <=? 500)%Z) eqn:E; [|discriminate].
  intro H. injection H as <-. apply andb_true_iff in E as [E1 E2].
  apply Z.ltb_lt in E1. apply Z.leb_le in E2. auto.
Qed.

Lemma text_single (x : Located) : text [x] = textContent (snd x).
Proof. unfold text. simpl. apply append_empty_r. Qed.

Lemma aqiStrategy1_range (aqiCard : Cheerio) (v : Z) :
  aqiStrategy1 aqiCard = Some v -> (0 < v <= 500)%Z.
Proof.
  unfold aqiStrategy1.
  destruct (0 <? List.length (first (filter hasAqiLabel (find [tag "div"] aqiCard))));
    [|discriminate].
  set (ps := filter isPlausibleAqi _).
  destruct ps as [|el ps'] eqn:E; [discriminate|].
  assert (Hel : isPlausibleAqi el = true).
  { assert (Hin : In el ps) by (rewrite E; now left).
    unfold ps in Hin. apply filter_In in Hin. tauto. }
  cbn [first]. rewrite text_single.
  destruct (truthy (Js.trim (textContent (snd el)))); [|discriminate].
  intro Hp. unfold isPlausibleAqi in Hel.
  destruct (plausibleAqi el) as [n|] eqn:En; [|discriminate].
  apply plausibleAqi_range in En as [En Hr].
  unfold trimmedText in En. congruence.
Qed.

Lemma maxList_ge (xs : list Z) (x : Z) : (x <= maxList x xs)%Z.
Proof.
  unfold maxList. revert x. induction xs as [|y xs IH]; intro x; simpl; [lia|].
  specialize (IH (Z.max x y)). lia.
Qed.

Lemma aqiStrategy2_positive (aqiCard : Cheerio) (v : Z) :
  aqiStrategy2 aqiCard = Some v -> (0 < v)%Z.
Proof.
  unfold aqiStrategy2.
  set (f := fun el => match plausibleAqi el with Some n => [n] | None => [] end).
  destruct (flat_map f (find [tag "p"] aqiCard)) as [|n rest] eqn:E; [discriminate|].
  intro H. injection H as <-.
  assert (Hin : In n (flat_map f (find [tag "p"] aqiCard))) by (rewrite E; now left).
  apply in_flat_map in Hin as (el & _ & Hn). unfold f in Hn.
  destruct (plausibleAqi el) as [m|] eqn:Em; [|contradiction].
  destruct Hn as [<-|[]]. apply plausibleAqi_range in Em as [_ Hr].
  pose proof (maxList_ge rest m). lia.
Qed.

(** The order in which the code consults the strategies. *)
Lemma extractAqi_cascade (baseAqi : Q) (aqiCard : Cheerio) :
  extractAqi baseAqi aqiCard =
  match aqiStrategy1 aqiCard with
  | Some v => inject_Z v
  | None =>
      if falsyQ baseAqi
      then match aqiStrategy2 aqiCard with
           | Some m => inject_Z m
           | None =>
               match aqiStrategy3 aqiCard with
               | Some v => inject_Z v
               | None => 0%Q
               end
           end
      else baseAqi
  end.
Proof.
  unfold extractAqi. cbv zeta.
  destruct (aqiStrategy1 aqiCard) as [v|] eqn:E1.
  - apply aqiStrategy1_range in E1.
    rewrite !(falsyQ_inject_Z v) by lia. reflexivity.
  - unfold orZero. destruct (falsyQ baseAqi) eqn:Eb.
    + change (falsyQ 0) with true. cbv iota.
      destruct (aqiStrategy2 aqiCard) as [m|] eqn:E2.
      * apply aqiStrategy2_positive in E2. now rewrite (falsyQ_inject_Z m).
      * change (falsyQ 0) with true. cbv iota.
        destruct (aqiStrategy3 aqiCard); reflexivity.
    + rewrite !Eb. reflexivity.
Qed.

Lemma extractDetails_Ok (doc : Node) (baseInfo : Ranking.t) :
  aqiCardOf doc <> [] ->
  exists d,
    extractDetails doc baseInfo = Ok d
    /\ Details.rank d = Ranking.rank baseInfo
    /\ Details.city d = Ranking.city baseInfo
    /\ Details.countrySlug d = Ranking.countrySlug baseInfo
    /\ Details.url d = Ranking.url baseInfo
    /\ Details.aqi d = extractAqi (Ranking.aqi baseInfo) (aqiCardOf doc)
    /\ Details.pollutants d = extractPollutants doc.
Proof.
  intro H. unfold extractDetails. rewrite (length_zero_false _ H).
  eexists. split; [reflexivity|]. repeat split.
Qed.

(** C2 (as worded). On a card whose only number is the paragraph "87" and
    which has no inner [div], strategy 1 fails and strategy 2 yields 87; with
    the baseline AQI 42 the code returns 42, not 87: the baseline is used
    although a strategy succeeds. *)
Lemma aqi_cascade_counterexample :
  let card := aqiCardOf Examples.plainCard in
  card <> []
  /\ aqiStrategy1 card = None
  /\ aqiStrategy2 card = Some 87%Z
  /\ Claimed.extractAqi 42 card = 87%Q
  /\ extractAqi 42 card = 42%Q
  /\ (exists d, extractDetails Examples.plainCard Examples.baseline = Ok d
                /\ Details.aqi d = 42%Q)
  /\ ~ (extractAqi 42 card == Claimed.extractAqi 42 card)%Q.
Proof.
  cbv zeta. split; [discriminate|]. repeat split.
  - eexists. split; reflexivity.
  - intro H. vm_compute in H. discriminate H.
Qed.

(** C2 (amended). When the AQI card is found, the returned [aqi] is the
    value of strategy 1 if it succeeds.  Otherwise a non-zero baseline AQI
    is returned as it is, and strategies 2 and 3 are not consulted; only
    when the baseline AQI is zero are strategy 2 and then strategy 3 tried,
    and zero remains when both fail. *)
Theorem aqi_cascade_order (doc : Node) (baseInfo : Ranking.t) :
  aqiCardOf doc <> [] ->
  exists d,
    extractDetails doc baseInfo = Ok d
    /\ Details.aqi d =
       match aqiStrategy1 (aqiCardOf doc) with
       | Some v => inject_Z v
       | None =>
           if falsyQ (Ranking.aqi baseInfo)
           then match aqiStrategy2 (aqiCardOf doc) with
                | Some m => inject_Z m
                | None =>
                    match aqiStrategy3 (aqiCardOf doc) with
                    | Some v => inject_Z v
                    | None => 0%Q
                    end
                end
           else Ranking.aqi baseInfo
       end.
Proof.
  intro H. destruct (extractDetails_Ok doc baseInfo H) as (d & Hd & _ & _ & _ & _ & Ha & _).
  exists d. split; [exact Hd|]. rewrite Ha. apply extractAqi_cascade.
Qed.

Lemma aqi_cascade_order_witness :
  exists d,
    extractDetails Examples.cityPage Examples.baseline = Ok d
    /\ Details.aqi d = 87%Q.
Proof.
  destruct (aqi_cascade_order Examples.cityPage Examples.baseline) as (d & Hd & Ha).
  - discriminate.
  - exists d. split; [exact Hd|]. rewrite Ha. reflexivity.
Defined.

(** *** The pollutant list *)

Lemma eachPollutantRow_flat_map (rows : Cheerio) (pollutants : list Pollutant.t) :
  eachPollutantRow rows pollutants
  = (pollutants
     ++ flat_map (fun tr => match pollutantOfRow tr with
                            | Some p => [p]
                            | None => []
                            end) rows)%list.
Proof.
  revert pollutants. induction rows as [|tr rows IH]; intro pollutants; simpl.
  - now rewrite app_nil_r.
  - rewrite IH. destruct (pollutantOfRow tr); [|reflexivity].
    now rewrite <- app_assoc.
Qed.

Lemma pollutantOfRow_kept (tr : Located) (p : Pollutant.t) :
  pollutantOfRow tr = Some p ->
  readPollutantRow tr = Some p
  /\ Pollutant.name p <> EmptyString
  /\ Pollutant.value p <> NaN
  /\ isZero (Pollutant.value p) = false.
Proof.
  unfold pollutantOfRow. destruct (readPollutantRow tr) as [p'|]; [|discriminate].
  destruct (discarded p') eqn:E; [discriminate|].
  intro H. injection H as <-. unfold discarded in E.
  apply orb_false_iff in E as [E Hz]. apply orb_false_iff in E as [Hn Hv].
  repeat split; auto.
  - intro H. rewrite H in Hn. discriminate.
  - intro H. rewrite H in Hv. discriminate.
Qed.

Lemma pollutantOfRow_discarded (tr : Located) (p : Pollutant.t) :
  readPollutantRow tr = Some p ->
  Pollutant.name p = EmptyString \/ Pollutant.value p = NaN
  \/ isZero (Pollutant.value p) = true ->
  pollutantOfRow tr = None.
Proof.
  intros Hr H. unfold pollutantOfRow. rewrite Hr.
  assert (Hd : discarded p = true).
  { unfold discarded. destruct H as [H|[H|H]]; rewrite H; simpl;
      rewrite ?orb_true_r; reflexivity. }
  now rewrite Hd.
Qed.

(** C8. The pollutant list of a city page holds, in row order, exactly the
    entries of the rows that pass the final test: a row whose name is empty
    or whose value is [NaN] or zero contributes no entry, so every entry of
    the list has a non-empty name and a value that is neither [NaN] nor
    zero. *)
Theorem unusable_pollutant_rows_discarded (doc : Node) (baseInfo : Ranking.t)
    (d : Details.t) :
  extractDetails doc baseInfo = Ok d ->
  Details.pollutants d
  = flat_map (fun tr => match pollutantOfRow tr with
                        | Some p => [p]
                        | None => []
                        end) (pollutantRows doc)
  /\ (forall tr p,
        readPollutantRow tr = Some p ->
        Pollutant.name p = EmptyString \/ Pollutant.value p = NaN
        \/ isZero (Pollutant.value p) = true ->
        pollutantOfRow tr = None)
  /\ Forall (fun p =>
       Pollutant.name p <> EmptyString
       /\ Pollutant.value p <> NaN
       /\ isZero (Pollutant.value p) = false) (Details.pollutants d).
Proof.
  intro H.
  assert (Hp : Details.pollutants d = extractPollutants doc).
  { unfold extractDetails in H.
    destruct (List.length (aqiCardOf doc) =? 0); [discriminate|].
    injection H as <-. reflexivity. }
  assert (Hflat : Details.pollutants d
                  = flat_map (fun tr => match pollutantOfRow tr with
                                        | Some p => [p]
                                        | None => []
                                        end) (pollutantRows doc)).
  { rewrite Hp. unfold extractPollutants. now rewrite eachPollutantRow_flat_map. }
  split; [exact Hflat|]. split; [exact pollutantOfRow_discarded|].
  rewrite Hflat. apply Forall_forall. intros p Hin.
  apply in_flat_map in Hin as (tr & _ & Hin).
  destruct (pollutantOfRow tr) as [p'|] eqn:E; [|contradiction].
  destruct Hin as [<-|[]]. apply pollutantOfRow_kept in E. tauto.
Qed.

(** A page with five pollutant rows: one usable, one with the value "0",
    one with the value "n/a", one without a name, and one whose text is a
    code and a unit without any number.  Only the first yields an entry. *)
Lemma unusable_pollutant_rows_discarded_witness :
  exists d,
    extractDetails Examples.cityPage Examples.baseline = Ok d
    /\ List.length (pollutantRows Examples.cityPage) = 5
    /\ Details.pollutants d
       = [Pollutant.make "PM2.5" "Fine particles" (Num 29.5) ugm3].
Proof.
  eexists. split; [reflexivity|]. split; [reflexivity|].
  rewrite (proj1 (unusable_pollutant_rows_discarded
                    Examples.cityPage Examples.baseline _ Logic.eq_refl)).
  reflexivity.
Defined.

(** *** The frame *)

(** C10. For every baseline record and every loaded city page on which the
    AQI card is found, [fetchIQAirCityDetailsByName] returns a record whose
    [rank], [city], [countrySlug] and [url] are those of the baseline; of
    the baseline's fields only [aqi] is recomputed. *)
Theorem details_preserve_baseline (w : World) (cityName : string)
    (baseInfo : Ranking.t) (response : Response) :
  fetchIQAirCityByName w cityName = Ok (Some baseInfo) ->
  fetch w (Ranking.url baseInfo) = Ok response ->
  ok response = true ->
  aqiCardOf (cheerio_load w (body response)) <> [] ->
  exists d,
    fetchIQAirCityDetailsByName w cityName = Ok (Some d)
    /\ extractDetails (cheerio_load w (body response)) baseInfo = Ok d
    /\ Details.rank d = Ranking.rank baseInfo
    /\ Details.city d = Ranking.city baseInfo
    /\ Details.countrySlug d = Ranking.countrySlug baseInfo
    /\ Details.url d = Ranking.url baseInfo.
Proof.
  intros Hb Hf Hok Hcard.
  destruct (extractDetails_Ok _ baseInfo Hcard) as (d & Hd & Hr & Hc & Hs & Hu & _).
  exists d. rewrite (fetchIQAirCityDetailsByName_loaded w cityName baseInfo response Hb Hf Hok).
  rewrite Hd. cbn [bind]. repeat split; assumption.
Qed.

Lemma details_preserve_baseline_witness :
  exists d,
    fetchIQAirCityDetailsByName
      (Examples.serve Examples.cityPage Examples.tashkentData) "tashkent" = Ok (Some d)
    /\ Details.rank d = 0%Z
    /\ Details.city d = "Tashkent"
    /\ Details.countrySlug d = "uzbekistan"
    /\ Details.url d = "https://www.iqair.com/us/uzbekistan/tashkent/tashkent".
Proof.
  destruct (details_preserve_baseline
              (Examples.serve Examples.cityPage Examples.tashkentData) "tashkent"
              (toRanking Examples.tashkentCity) Examples.okResponse)
    as (d & Hd & _ & Hr & Hc & Hs & Hu).
  - reflexivity.
  - reflexivity.
  - reflexivity.
  - discriminate.
  - exists d. rewrite Hr, Hc, Hs, Hu. repeat split. exact Hd.
Defined.

End Facts.

(* ===================================================================== *)
(** * Further properties of the code *)
(* ===================================================================== *)

Module MoreFacts.

Import Js Dom IQAir.
Local Open Scope string_scope.
Local Open Scope nat_scope.

(** ** The flat-array parser: which records it builds *)

Lemma Qltb_lt (a b : Q) : Qltb a b = true <-> (a < b)%Q.
Proof.
  unfold Qltb. rewrite negb_true_iff. split; intro H.
  - apply Qnot_le_lt. intro Hle. apply Qle_bool_iff in Hle. congruence.
  - destruct (Qle_bool b a) eqn:E; [|reflexivity].
    apply Qle_bool_iff in E. apply Qle_not_lt in E. contradiction.
Qed.

Lemma anchorParts_pathParts (item : string) (parts : list string) :
  anchorParts (JStr item) = Some parts -> parts = pathParts item.
Proof.
  unfold anchorParts.
  destruct (startsWith item "/" && negb (includes item ".")); [|discriminate].
  destruct ((2 <=? List.length (pathParts item)) && (List.length (pathParts item) <=? 3));
    [|discriminate].
  congruence.
Qed.

Lemma existsb_eqb_In (item : string) (seen : list string) :
  existsb (String.eqb item) seen = true <-> In item seen.
Proof.
  rewrite existsb_exists. split.
  - intros (x & Hin & E). apply String.eqb_eq in E. now subst.
  - intro H. exists item. split; [exact H | apply String.eqb_refl].
Qed.

(** What the outer loop has built once the indices below [k] are visited. *)
Record ScanInv (data : list JsValue) (k : nat)
    (st : list SearchResult.t * list string) : Prop := {
  inv_urls : map SearchResult.url (fst st) = rev (snd st);
  inv_nodup : NoDup (snd st);
  inv_seen : forall u, In u (snd st) <->
               exists j, j < k /\ nth_error data j = Some (JStr u)
                         /\ More.isAnchor u = true;
  inv_first : forall r, In r (fst st) ->
               exists i parts,
                 i < k
                 /\ nth_error data i = Some (JStr (SearchResult.url r))
                 /\ anchorParts (JStr (SearchResult.url r)) = Some parts
                 /\ (forall j, j < i ->
                       nth_error data j <> Some (JStr (SearchResult.url r)))
                 /\ r = makeResult data i (SearchResult.url r) parts
}.

Lemma ScanInv_start (data : list JsValue) : ScanInv data 0 ([], []).
Proof.
  constructor; simpl.
  - reflexivity.
  - constructor.
  - intro u. split; [contradiction|]. intros (j & Hj & _). lia.
  - contradiction.
Qed.

Lemma ScanInv_skip (data : list JsValue) (k : nat) st :
  ScanInv data k st ->
  (forall u, nth_error data k = Some (JStr u) -> More.isAnchor u = true ->
             In u (snd st)) ->
  ScanInv data (S k) st.
Proof.
  intros [H1 H2 H3 H4] Hk. constructor; auto.
  - intro u. rewrite H3. split.
    + intros (j & Hj & Hn & Ha). exists j. repeat split; auto.
    + intros (j & Hj & Hn & Ha).
      destruct (Nat.eq_dec j k) as [->|Hne].
      * apply H3. now apply Hk.
      * exists j. repeat split; auto. lia.
  - intros r Hr. destruct (H4 r Hr) as (i & parts & Hi & Hrest).
    exists i, parts. split; [lia | exact Hrest].
Qed.

Lemma scanStep_inv (data : list JsValue) (k : nat) st :
  ScanInv data k st -> ScanInv data (S k) (scanStep data st k).
Proof.
  intro Hinv. destruct st as [results seen]. unfold scanStep.
  destruct (nth_error data k) as [[| b | q | item |]|] eqn:Ek;
    try (apply ScanInv_skip; [exact Hinv | intros u Hu; rewrite Ek in Hu; discriminate Hu]).
  destruct (anchorParts (JStr item)) as [parts|] eqn:Ea.
  - destruct (existsb (String.eqb item) seen) eqn:Es.
    + apply ScanInv_skip; [exact Hinv|].
      intros u Hu _. rewrite Ek in Hu. injection Hu as <-. now apply existsb_eqb_In.
    + assert (Hnew : ~ In item seen).
      { intro H. apply existsb_eqb_In in H. congruence. }
      destruct Hinv as [H1 H2 H3 H4]. cbn [fst snd] in *.
      constructor; cbn [fst snd].
      * rewrite map_app, H1. reflexivity.
      * now constructor.
      * intro u. split.
        -- intros [<-|Hin].
           ++ exists k. repeat split; auto. unfold More.isAnchor. now rewrite Ea.
           ++ apply H3 in Hin as (j & Hj & Hrest). exists j. split; [lia | exact Hrest].
        -- intros (j & Hj & Hn & Ha).
           destruct (Nat.eq_dec j k) as [->|Hne].
           ++ left. congruence.
           ++ right. apply H3. exists j. repeat split; auto. lia.
      * intros r Hr. apply in_app_or in Hr as [Hr|[<-|[]]].
        -- destruct (H4 r Hr) as (i & ps & Hi & Hrest).
           exists i, ps. split; [lia | exact Hrest].
        -- exists k, parts. cbn [makeResult SearchResult.url].
           repeat split; auto.
           intros j Hj Hn. apply Hnew. apply H3.
           exists j. repeat split; auto. unfold More.isAnchor. now rewrite Ea.
  - apply ScanInv_skip; [exact Hinv|].
    intros u Hu Ha. rewrite Ek in Hu. injection Hu as <-. unfold More.isAnchor in Ha.
    rewrite Ea in Ha. discriminate.
Qed.

Lemma scan_fold_inv (data : list JsValue) (n : nat) :
  forall a st, ScanInv data a st ->
               ScanInv data (a + n) (fold_left (scanStep data) (seq a n) st).
Proof.
  induction n as [|n IH]; intros a st H; cbn [seq fold_left].
  - now rewrite Nat.add_0_r.
  - replace (a + S n) with (S a + n) by lia. apply IH. now apply scanStep_inv.
Qed.

Lemma collectResults_inv (data : list JsValue) :
  ScanInv data (List.length data)
    (fold_left (scanStep data) (seq 0 (List.length data)) ([], [])).
Proof. exact (scan_fold_inv data (List.length data) 0 _ (ScanInv_start data)). Qed.

Lemma parse_In (data : list JsValue) (r : SearchResult.t) :
  In r (parseIQAirSearchResponseSimple data) <-> In r (collectResults data).
Proof.
  unfold parseIQAirSearchResponseSimple. split; intro H.
  - eapply Permutation_in; [apply Permutation_sym, Facts.sortBy_perm | exact H].
  - eapply Permutation_in; [apply Facts.sortBy_perm | exact H].
Qed.

(** X1. The URLs of the returned results are pairwise different: an anchor
    that occurs several times in the array yields one record. *)
Theorem result_urls_distinct (data : list JsValue) :
  NoDup (map SearchResult.url (parseIQAirSearchResponseSimple data)).
Proof.
  apply (Permutation_NoDup
           (Permutation_map SearchResult.url (Facts.sortBy_perm compareResults _))).
  unfold collectResults. destruct (collectResults_inv data) as [H1 H2 _ _].
  rewrite H1. apply NoDup_rev. exact H2.
Qed.

Lemma result_urls_are_the_anchors_core (data : list JsValue) (u : string) :
  In u (map SearchResult.url (parseIQAirSearchResponseSimple data))
  <-> In (JStr u) data
      /\ startsWith u "/" = true
      /\ includes u "." = false
      /\ 2 <= List.length (pathParts u) <= 3.
Proof.
  assert (Hanchor : More.isAnchor u = true
                    <-> startsWith u "/" = true /\ includes u "." = false
                        /\ 2 <= List.length (pathParts u) <= 3).
  { unfold More.isAnchor, anchorParts.
    destruct (startsWith u "/"); destruct (includes u ".");
      cbn [andb negb]; cbv beta iota;
      try (split; [discriminate | intros (? & ? & ?); discriminate]).
    destruct (Nat.leb_spec 2 (List.length (pathParts u)));
      destruct (Nat.leb_spec (List.length (pathParts u)) 3);
      cbn [andb]; cbv beta iota;
      (split; [try discriminate | try (intros (_ & _ & ?); lia)]).
    intros _. repeat split; auto. }
  rewrite <- Hanchor.
  destruct (collectResults_inv data) as [H1 _ H3 _].
  transitivity (In u (map SearchResult.url (collectResults data))).
  - split; apply Permutation_in;
      [apply Permutation_sym|]; apply Permutation_map, Facts.sortBy_perm.
  - unfold collectResults. rewrite H1, <- in_rev, H3. split.
    + intros (j & _ & Hn & Ha). split; [|exact Ha]. eapply nth_error_In; eauto.
    + intros [Hin Ha]. apply In_nth_error in Hin as (j & Hj).
      exists j. repeat split; auto. apply nth_error_Some. congruence.
Qed.

(** X2. A string is the URL of a returned result exactly when it occurs in
    the array and is an anchor: it starts with "/", holds no ".", and has
    two or three non-empty segments. *)
Theorem result_urls_are_the_anchors (data : list JsValue) (u : string) :
  In u (map SearchResult.url (parseIQAirSearchResponseSimple data))
  <-> In (JStr u) data
      /\ startsWith u "/" = true
      /\ includes u "." = false
      /\ 2 <= List.length (pathParts u) <= 3.
Proof. exact (result_urls_are_the_anchors_core data u). Qed.

Lemma result_urls_are_the_anchors_witness :
  In "/uzbekistan/tashkent/tashkent"
     (map SearchResult.url (parseIQAirSearchResponseSimple More.repeatedData))
  /\ ~ In "/favicon.ico"
        (map SearchResult.url (parseIQAirSearchResponseSimple More.repeatedData)).
Proof.
  split.
  - apply (proj2 (result_urls_are_the_anchors More.repeatedData
                    "/uzbekistan/tashkent/tashkent")).
    split; [right; right; right; right; right; left; reflexivity|].
    split; [reflexivity|]. split; [reflexivity|]. cbv. lia.
  - intro H.
    apply (proj1 (result_urls_are_the_anchors More.repeatedData "/favicon.ico")) in H.
    destruct H as (_ & _ & H & _). discriminate H.
Defined.

(** X3. An array without any anchor yields the empty list, and only such an
    array does. *)
Theorem no_anchor_no_result (data : list JsValue) :
  parseIQAirSearchResponseSimple data = []
  <-> (forall u, In (JStr u) data -> More.isAnchor u = false).
Proof.
  destruct (collectResults_inv data) as [H1 _ H3 _]. split.
  - intros Hnil u Hin. destruct (More.isAnchor u) eqn:Ha; [|reflexivity].
    exfalso. apply In_nth_error in Hin as (j & Hj).
    assert (Hseen : In u (snd (fold_left (scanStep data) (seq 0 (List.length data)) ([], [])))).
    { apply H3. exists j. repeat split; auto. apply nth_error_Some. congruence. }
    apply in_rev in Hseen. rewrite <- H1 in Hseen.
    apply in_map_iff in Hseen as (r & _ & Hr).
    fold (collectResults data) in Hr. apply parse_In in Hr. rewrite Hnil in Hr.
    contradiction.
  - intro Hno. destruct (parseIQAirSearchResponseSimple data) as [|r rs] eqn:E;
      [reflexivity|exfalso].
    assert (Hr : In r (collectResults data)) by (apply parse_In; rewrite E; now left).
    assert (Hu : In (SearchResult.url r)
                    (map SearchResult.url (collectResults data))) by now apply in_map.
    unfold collectResults in Hu. rewrite H1, <- in_rev in Hu.
    apply H3 in Hu as (j & _ & Hn & Ha).
    rewrite (Hno _ (nth_error_In _ _ Hn)) in Ha. discriminate.
Qed.

Lemma no_anchor_no_result_witness :
  parseIQAirSearchResponseSimple More.noAnchorData = []
  /\ More.isAnchor "/a/b/c/d" = false.
Proof.
  split; [reflexivity|].
  apply (proj1 (no_anchor_no_result More.noAnchorData)); [reflexivity|].
  right; right; right; right; left; reflexivity.
Defined.

Lemma result_built_at_first_occurrence_core (data : list JsValue) (r : SearchResult.t) :
  In r (parseIQAirSearchResponseSimple data) ->
  exists i,
    nth_error data i = Some (JStr (SearchResult.url r))
    /\ (forall j, j < i -> nth_error data j <> Some (JStr (SearchResult.url r)))
    /\ r = makeResult data i (SearchResult.url r) (pathParts (SearchResult.url r)).
Proof.
  intro Hr. apply parse_In in Hr.
  destruct (collectResults_inv data) as [_ _ _ H4].
  destruct (H4 r Hr) as (i & parts & _ & Hn & Ha & Hfirst & Heq).
  exists i. rewrite <- (anchorParts_pathParts _ _ Ha). auto.
Qed.

(** X4. Every returned record is built at the first occurrence of its URL in
    the array: the values around later occurrences of the same anchor are
    never used. *)
Theorem result_built_at_first_occurrence (data : list JsValue) (r : SearchResult.t) :
  In r (parseIQAirSearchResponseSimple data) ->
  exists i,
    nth_error data i = Some (JStr (SearchResult.url r))
    /\ (forall j, j < i -> nth_error data j <> Some (JStr (SearchResult.url r)))
    /\ r = makeResult data i (SearchResult.url r) (pathParts (SearchResult.url r)).
Proof. exact (result_built_at_first_occurrence_core data r). Qed.

Lemma result_built_at_first_occurrence_witness :
  exists i,
    nth_error More.repeatedData i = Some (JStr "/uzbekistan/tashkent/tashkent")
    /\ i = 5
    /\ parseIQAirSearchResponseSimple More.repeatedData
       = [makeResult More.repeatedData i "/uzbekistan/tashkent/tashkent"
            (pathParts "/uzbekistan/tashkent/tashkent")].
Proof.
  destruct (result_built_at_first_occurrence More.repeatedData
              (makeResult More.repeatedData 5 "/uzbekistan/tashkent/tashkent"
                 (pathParts "/uzbekistan/tashkent/tashkent")))
    as (i & Hn & Hfirst & _).
  - left. reflexivity.
  - assert (Hi : i = 5).
    { destruct (Nat.lt_trichotomy i 5) as [Hlt|[Heq|Hgt]]; [|exact Heq|].
      - do 5 (destruct i as [|i]; [discriminate Hn|]). lia.
      - exfalso. apply (Hfirst 5 Hgt). reflexivity. }
    exists i. subst i. repeat split.
Defined.

(** ** The flat-array parser: the values it assigns *)

Lemma fold_left_invariant {A B} (f : A -> B -> A) (P : A -> Prop) (l : list B) :
  (forall a b, P a -> P (f a b)) -> forall a, P a -> P (fold_left f l a).
Proof.
  intro Hstep. induction l as [|b l IH]; intros a Ha; simpl; auto.
Qed.

Ltac split_tests :=
  repeat match goal with
         | H : _ && _ = true |- _ => apply andb_true_iff in H; destruct H
         | H : Qltb _ _ = true |- _ => apply Qltb_lt in H
         end.

Ltac case_step :=
  repeat match goal with
         | |- context [match ?x with _ => _ end] => destruct x eqn:?
         end.

Lemma backwardStep_coords (data : list JsValue) (st : Nearby) (j : nat) :
  More.coordsOk st -> More.coordsOk (backwardStep data st j).
Proof.
  intro H. unfold backwardStep, More.coordsOk in *. case_step;
    cbn [n_latitude n_longitude] in *; try exact H.
  all: right; split_tests; auto.
Qed.

Lemma backwardStep_id (data : list JsValue) (st : Nearby) (j : nat) :
  More.idOk st -> More.idOk (backwardStep data st j).
Proof.
  intro H. unfold backwardStep, More.idOk in *. case_step;
    cbn [n_id] in *; try exact H.
  all: right; split_tests; auto.
Qed.

Lemma firstPair_range (data : list JsValue) (js : list nat) :
  Claimed.firstPair data js = (0%Q, false)
  \/ ((0 < fst (Claimed.firstPair data js))%Q
      /\ (fst (Claimed.firstPair data js) < 600)%Q).
Proof.
  induction js as [|j js IH]; cbn [Claimed.firstPair]; [now left|].
  destruct (nth_error data j) as [[| b | q | s |]|]; try exact IH.
  destruct (nth_error data (j + 1)) as [[| b' | q' | s' |]|]; try exact IH.
  destruct (Qltb 0 q && Qltb q 600) eqn:E; [|exact IH].
  right. apply andb_true_iff in E as [E1 E2]. rewrite Qltb_lt in *. auto.
Qed.

Lemma forwardLoop_range (data : list JsValue) (js : list nat) :
  forwardLoop data js 0 = 0%Q \/ (100 < forwardLoop data js 0)%Q.
Proof.
  induction js as [|j js IH]; cbn [forwardLoop]; [now left|].
  destruct (nth_error data j) as [[| b | q | s |]|]; try exact IH.
  destruct (Qltb 100 q && falsyQ 0) eqn:E; [|exact IH].
  right. apply andb_true_iff in E as [E _]. now apply Qltb_lt.
Qed.

Lemma result_numbers_in_range_core (data : list JsValue) (r : SearchResult.t) :
  In r (parseIQAirSearchResponseSimple data) ->
  ((SearchResult.aqi r = 0%Q /\ SearchResult.estimated r = false)
   \/ (0 < SearchResult.aqi r)%Q /\ (SearchResult.aqi r < 600)%Q)
  /\ (SearchResult.followersCount r = 0%Q \/ (100 < SearchResult.followersCount r)%Q)
  /\ ((SearchResult.latitude r = 0%Q /\ SearchResult.longitude r = 0%Q)
      \/ ((-90 < SearchResult.latitude r)%Q /\ (SearchResult.latitude r < 90)%Q
          /\ (1 < Qabs (SearchResult.latitude r))%Q
          /\ (-180 < SearchResult.longitude r)%Q
          /\ (SearchResult.longitude r < 180)%Q))
  /\ (SearchResult.id r = EmptyString \/ test false reId (SearchResult.id r) = true).
Proof.
  intro Hr. destruct (result_built_at_first_occurrence_core data r Hr) as (i & _ & _ & ->).
  unfold makeResult. cbn [SearchResult.aqi SearchResult.estimated
    SearchResult.followersCount SearchResult.latitude SearchResult.longitude
    SearchResult.id].
  repeat split.
  - pose proof (Facts.searchBackwards_farthest data i) as Hp.
    unfold Claimed.aqiOf in Hp.
    destruct (firstPair_range data (backwardWindow i)) as [H|H].
    + left. rewrite H in Hp. injection Hp as -> ->. auto.
    + right. rewrite <- Hp in H. exact H.
  - apply forwardLoop_range.
  - apply (fold_left_invariant (backwardStep data) More.coordsOk).
    + intros a b. apply backwardStep_coords.
    + left. split; reflexivity.
  - apply (fold_left_invariant (backwardStep data) More.idOk).
    + intros a b. apply backwardStep_id.
    + left. reflexivity.
Qed.

(** X5. The numbers of every returned record lie in the ranges the search
    loops test: [aqi] is 0 (with [estimated] false) or strictly between 0
    and 600; [followersCount] is 0 or above 100; the coordinates are both 0,
    or a latitude in (-90, 90) of absolute value above 1 with a longitude in
    (-180, 180); [id] is empty or consists of at least ten alphanumeric
    characters (it passes the source's test). *)
Theorem result_numbers_in_range (data : list JsValue) (r : SearchResult.t) :
  In r (parseIQAirSearchResponseSimple data) ->
  ((SearchResult.aqi r = 0%Q /\ SearchResult.estimated r = false)
   \/ (0 < SearchResult.aqi r)%Q /\ (SearchResult.aqi r < 600)%Q)
  /\ (SearchResult.followersCount r = 0%Q \/ (100 < SearchResult.followersCount r)%Q)
  /\ ((SearchResult.latitude r = 0%Q /\ SearchResult.longitude r = 0%Q)
      \/ ((-90 < SearchResult.latitude r)%Q /\ (SearchResult.latitude r < 90)%Q
          /\ (1 < Qabs (SearchResult.latitude r))%Q
          /\ (-180 < SearchResult.longitude r)%Q
          /\ (SearchResult.longitude r < 180)%Q))
  /\ (SearchResult.id r = EmptyString \/ test false reId (SearchResult.id r) = true).
Proof. exact (result_numbers_in_range_core data r). Qed.

Lemma result_numbers_in_range_witness :
  exists r,
    parseIQAirSearchResponseSimple More.repeatedData = [r]
    /\ SearchResult.aqi r = 152%Q
    /\ SearchResult.followersCount r = 25000%Q
    /\ SearchResult.id r = "5bc8233141fdcdf2"
    /\ ((0 < SearchResult.aqi r)%Q /\ (SearchResult.aqi r < 600)%Q).
Proof.
  eexists. split; [reflexivity|].
  split; [reflexivity|]. split; [reflexivity|]. split; [reflexivity|].
  destruct (proj1 (result_numbers_in_range More.repeatedData _
                     (or_introl Logic.eq_refl))) as [[H _]|H].
  - discriminate H.
  - exact H.
Defined.

(** ** The flat-array parser: the names *)

Lemma splitChar_not_nil (sep : ascii) (s : string) : splitChar sep s <> [].
Proof.
  destruct s as [|c s]; simpl; [discriminate|].
  destruct (Ascii.eqb c sep); [discriminate|].
  destruct (splitChar sep s); discriminate.
Qed.

Lemma join_cons_nonempty (sep x : string) (xs : list string) :
  x <> EmptyString -> join sep (x :: xs) <> EmptyString.
Proof.
  intro H. destruct x as [|c x]; [congruence|].
  destruct xs; simpl; discriminate.
Qed.

Lemma upperUnits_length (c : ascii) :
  String.length (upperUnits c) = if code c =? 223 then 2 else 1.
Proof. unfold upperUnits. destruct (code c =? 223); reflexivity. Qed.

Lemma capitalize_cons (c : ascii) (rest : string) :
  capitalize (String c rest) = upperUnits c ++ rest.
Proof.
  cbn [capitalize toUpperCase]. now rewrite Facts.append_empty_r.
Qed.

(** A leading sharp s is upper-cased to two code units. *)
Lemma displayName_sharp_s :
  displayName (String "223" "land-xy") = "SSland Xy".
Proof. reflexivity. Qed.

Lemma capitalize_nonempty (c : ascii) (rest : string) :
  capitalize (String c rest) <> EmptyString.
Proof.
  rewrite capitalize_cons. unfold upperUnits.
  destruct (code c =? 223); discriminate.
Qed.

Lemma displayName_nonempty (slug : string) :
  slug <> EmptyString -> displayName slug <> EmptyString.
Proof.
  intro H. destruct slug as [|c s]; [congruence|].
  unfold displayName. cbn [splitChar].
  destruct (Ascii.eqb c "-").
  - pose proof (splitChar_not_nil "-" s) as Hne.
    destruct (splitChar "-" s) as [|p ps]; [congruence|]. simpl. discriminate.
  - destruct (splitChar "-" s) as [|p ps]; cbn [map].
    + apply join_cons_nonempty, capitalize_nonempty.
    + apply join_cons_nonempty, capitalize_nonempty.
Qed.

Lemma pathParts_nonempty (u p : string) : In p (pathParts u) -> p <> EmptyString.
Proof.
  unfold pathParts, filterBoolean. intro H. apply filter_In in H as [_ H].
  destruct p; [discriminate | discriminate].
Qed.

Lemma result_names_nonempty_core (data : list JsValue) (r : SearchResult.t) :
  In r (parseIQAirSearchResponseSimple data) ->
  SearchResult.name r <> EmptyString
  /\ SearchResult.country r <> EmptyString
  /\ (urlParts r = 3 -> SearchResult.state r <> EmptyString)
  /\ (urlParts r = 2 -> SearchResult.state r = EmptyString).
Proof.
  intro Hr.
  assert (Hd : Claimed.cityOrRegion r).
  { pose proof (Facts.collectResults_depth data) as H. rewrite Forall_forall in H.
    apply H. now apply parse_In. }
  destruct (result_built_at_first_occurrence_core data r Hr) as (i & _ & _ & Heq).
  unfold Claimed.cityOrRegion, urlParts in *.
  set (parts := pathParts (SearchResult.url r)) in *.
  assert (Hnth : forall k, k < List.length parts -> nth k parts EmptyString <> EmptyString).
  { intros k Hk. apply (pathParts_nonempty (SearchResult.url r)). now apply nth_In. }
  rewrite Heq. unfold makeResult.
  cbn [SearchResult.name SearchResult.country SearchResult.state SearchResult.url].
  fold parts. repeat split.
  - apply displayName_nonempty, Hnth. lia.
  - apply displayName_nonempty, Hnth. lia.
  - intro H3. rewrite H3. cbn [Nat.eqb]. apply displayName_nonempty, Hnth. lia.
  - intro H2. rewrite H2. reflexivity.
Qed.

(** X6. Every returned record has a non-empty [name] and [country]; its
    [state] is empty exactly for the two-segment (region) URLs. *)
Theorem result_names_nonempty (data : list JsValue) (r : SearchResult.t) :
  In r (parseIQAirSearchResponseSimple data) ->
  SearchResult.name r <> EmptyString
  /\ SearchResult.country r <> EmptyString
  /\ (urlParts r = 3 -> SearchResult.state r <> EmptyString)
  /\ (urlParts r = 2 -> SearchResult.state r = EmptyString).
Proof. exact (result_names_nonempty_core data r). Qed.

Lemma result_names_nonempty_witness :
  SearchResult.name Examples.tashkentRegion <> EmptyString
  /\ SearchResult.state Examples.tashkentRegion = EmptyString
  /\ SearchResult.state Examples.tashkentCity <> EmptyString.
Proof.
  pose proof (result_names_nonempty Examples.tashkentData Examples.tashkentRegion
                (or_intror (or_introl Logic.eq_refl))) as (Hn & _ & _ & Hs).
  pose proof (result_names_nonempty Examples.tashkentData Examples.tashkentCity
                (or_introl Logic.eq_refl)) as (_ & _ & Hs3 & _).
  split; [exact Hn|]. split; [apply Hs | apply Hs3]; reflexivity.
Defined.

(** ** Trimming *)

Lemma chars_app (a b : string) :
  list_ascii_of_string (a ++ b) = (list_ascii_of_string a ++ list_ascii_of_string b)%list.
Proof. induction a as [|c a IH]; simpl; [reflexivity | now rewrite IH]. Qed.

Lemma string_of_app (l1 l2 : list ascii) :
  string_of_list_ascii (l1 ++ l2) = string_of_list_ascii l1 ++ string_of_list_ascii l2.
Proof. induction l1 as [|c l1 IH]; simpl; [reflexivity | now rewrite IH]. Qed.

Lemma reverse_app (a b : string) : reverse (a ++ b) = reverse b ++ reverse a.
Proof. unfold reverse. now rewrite chars_app, rev_app_distr, string_of_app. Qed.

Lemma reverse_involutive (s : string) : reverse (reverse s) = s.
Proof.
  unfold reverse.
  now rewrite list_ascii_of_string_of_list_ascii, rev_involutive,
    string_of_list_ascii_of_string.
Qed.

Lemma trimStart_split (s : string) :
  exists p, s = p ++ trimStart s /\ Claimed.blank p = true.
Proof.
  induction s as [|c s (p & Hp & Hb)]; simpl.
  - exists EmptyString. split; reflexivity.
  - destruct (isWhiteSpace c) eqn:E.
    + exists (String c p). split.
      * simpl. now rewrite <- Hp.
      * unfold Claimed.blank in *. simpl. now rewrite E.
    + exists EmptyString. split; reflexivity.
Qed.

Lemma trimStart_head (s : string) :
  trimStart s = EmptyString
  \/ exists c r, trimStart s = String c r /\ isWhiteSpace c = false.
Proof.
  induction s as [|c s IH]; simpl; [now left|].
  destruct (isWhiteSpace c) eqn:E; [exact IH|].
  right. exists c, s. auto.
Qed.

Lemma trimStart_idempotent (s : string) : trimStart (trimStart s) = trimStart s.
Proof.
  destruct (trimStart_head s) as [H|(c & r & H & Hc)]; rewrite H; simpl;
    [reflexivity | now rewrite Hc].
Qed.

Lemma trimEnd_idempotent (s : string) : trimEnd (trimEnd s) = trimEnd s.
Proof.
  unfold trimEnd. now rewrite reverse_involutive, trimStart_idempotent.
Qed.

Lemma trimStart_trimEnd (c : ascii) (r : string) :
  isWhiteSpace c = false ->
  trimStart (trimEnd (String c r)) = trimEnd (String c r).
Proof.
  intro Hc. unfold trimEnd. set (y := String c r).
  destruct (trimStart_split (reverse y)) as (p & Hp & _).
  set (z := trimStart (reverse y)) in *.
  assert (Hz : reverse z <> EmptyString).
  { intro H. apply (proj1 (Facts.reverse_empty z)) in H. unfold z in H.
    apply (proj1 (Facts.trimStart_empty _)) in H. rewrite Facts.blank_reverse in H.
    unfold Claimed.blank, y in H. simpl in H. now rewrite Hc in H. }
  apply (f_equal reverse) in Hp. rewrite reverse_involutive, reverse_app in Hp.
  destruct (reverse z) as [|c' r']; [congruence|].
  unfold y in Hp. simpl in Hp. injection Hp as <- _.
  simpl. now rewrite Hc.
Qed.

(** Trimming twice is trimming once. *)
Lemma trim_idempotent (s : string) : Js.trim (Js.trim s) = Js.trim s.
Proof.
  unfold Js.trim.
  destruct (trimStart_head s) as [H|(c & r & H & Hc)]; rewrite H.
  - reflexivity.
  - rewrite (trimStart_trimEnd c r Hc). apply trimEnd_idempotent.
Qed.

Lemma blank_trim (s : string) : Claimed.blank (Js.trim s) = Claimed.blank s.
Proof.
  destruct (Claimed.blank s) eqn:E.
  - apply Facts.trim_empty in E. now rewrite E.
  - destruct (Claimed.blank (Js.trim s)) eqn:E'; [|reflexivity].
    apply Facts.trim_empty in E'. rewrite trim_idempotent in E'.
    apply Facts.trim_empty in E'. congruence.
Qed.

(** ** [searchIQAirCities] and [fetchIQAirCityByName] *)

(** X7. White space around the typed name does not matter: the search, the
    resolver and the detail lookup behave on a name as on the trimmed
    name. *)
Theorem surrounding_whitespace_ignored (w : World) (cityName : string) :
  searchIQAirCities w (Js.trim cityName) = searchIQAirCities w cityName
  /\ fetchIQAirCityByName w (Js.trim cityName) = fetchIQAirCityByName w cityName
  /\ fetchIQAirCityDetailsByName w (Js.trim cityName)
     = fetchIQAirCityDetailsByName w cityName.
Proof.
  assert (H1 : searchIQAirCities w (Js.trim cityName) = searchIQAirCities w cityName).
  { unfold searchIQAirCities. now rewrite trim_idempotent. }
  assert (H2 : fetchIQAirCityByName w (Js.trim cityName) = fetchIQAirCityByName w cityName).
  { unfold fetchIQAirCityByName. now rewrite trim_idempotent, H1. }
  repeat split; auto.
  unfold fetchIQAirCityDetailsByName. now rewrite H2.
Qed.

(** X8. The failures of the search call surface with the module's own
    messages: a response that is not ok throws "IQAir search API failed:"
    with the status code and text, and a body that [JSON.parse] rejects
    throws "Failed to parse IQAir search response" whatever the parser's
    message was.  The resolver passes both on unchanged. *)
Theorem search_failures_reported (w : World) (cityName : string) (response : Response) :
  Claimed.blank cityName = false ->
  fetch w (searchUrl w (Js.trim cityName)) = Ok response ->
  (ok response = false ->
   searchIQAirCities w cityName
   = Throw ("IQAir search API failed: " ++ showNat (status response) ++ " "
            ++ statusText response)
   /\ fetchIQAirCityByName w cityName
      = Throw ("IQAir search API failed: " ++ showNat (status response) ++ " "
               ++ statusText response))
  /\ (ok response = true ->
      forall e, JSON_parse w (body response) = Throw e ->
      searchIQAirCities w cityName = Throw "Failed to parse IQAir search response"
      /\ fetchIQAirCityByName w cityName
         = Throw "Failed to parse IQAir search response").
Proof.
  intros Hb Hf.
  assert (Hn : isEmpty (Js.trim cityName) = false) by now apply Facts.trim_nonempty.
  split.
  - intro Hok.
    assert (Hs : searchIQAirCities w cityName
                 = Throw ("IQAir search API failed: " ++ showNat (status response)
                          ++ " " ++ statusText response)).
    { unfold searchIQAirCities. rewrite Hn, Hf. cbn [bind]. now rewrite Hok. }
    split; [exact Hs|].
    unfold fetchIQAirCityByName. now rewrite Facts.isEmpty_toLowerCase, Hn, Hs.
  - intros Hok e He.
    assert (Hs : searchIQAirCities w cityName
                 = Throw "Failed to parse IQAir search response").
    { unfold searchIQAirCities. rewrite Hn, Hf. cbn [bind]. now rewrite Hok, He. }
    split; [exact Hs|].
    unfold fetchIQAirCityByName. now rewrite Facts.isEmpty_toLowerCase, Hn, Hs.
Qed.

Lemma search_failures_reported_witness :
  fetchIQAirCityByName (More.failing 503 "Service Unavailable") "tashkent"
  = Throw "IQAir search API failed: 503 Service Unavailable"
  /\ fetchIQAirCityByName More.malformed "tashkent"
     = Throw "Failed to parse IQAir search response".
Proof.
  split.
  - apply (proj1 (search_failures_reported (More.failing 503 "Service Unavailable")
                    "tashkent" _ Logic.eq_refl Logic.eq_refl) Logic.eq_refl).
  - apply (proj2 (search_failures_reported More.malformed "tashkent"
                    Examples.okResponse Logic.eq_refl Logic.eq_refl)
             Logic.eq_refl "Unexpected token < in JSON at position 0" Logic.eq_refl).
Defined.

Lemma findBest_In (q : string) (rs : list SearchResult.t) :
  rs <> [] -> exists c, findBest q rs = Some c /\ In c rs.
Proof.
  intro Hne. rewrite Facts.findBest_tier_order.
  generalize Claimed.tiers. intro ts.
  induction ts as [|t ts IH]; cbn [Claimed.firstHit].
  - destruct rs as [|c rs]; [congruence|]. exists c. split; [reflexivity | now left].
  - destruct (List.find (t q) rs) as [c|] eqn:E; [|exact IH].
    exists c. split; [reflexivity|]. now apply find_some in E.
Qed.

Lemma startsWith_http_origin (u : string) :
  startsWith ("https://www.iqair.com" ++ u) "http" = true.
Proof. reflexivity. Qed.

Lemma slash_not_http (u : string) :
  startsWith u "/" = true -> startsWith u "http" = false.
Proof.
  unfold startsWith. destruct u as [|c u]; [discriminate|].
  intro H. cbn [String.prefix] in *.
  destruct (ascii_dec "/" c) as [<-|]; [|discriminate H].
  destruct (ascii_dec "h" "/") as [E|]; [discriminate E | reflexivity].
Qed.

Lemma toRanking_url_absolute (c : SearchResult.t) :
  startsWith (Ranking.url (toRanking c)) "http" = true.
Proof.
  unfold toRanking. cbn [Ranking.url].
  destruct (startsWith (SearchResult.url c) "http") eqn:E; [exact E | reflexivity].
Qed.

(** X9. When the search returns at least one candidate the resolver never
    answers [null]: it returns the conversion of one of the candidates,
    with [rank] 0, the candidate's [name] and [aqi], and a URL that starts
    with "http". *)
Theorem resolver_answers_with_a_candidate (w : World) (cityName : string)
    (rs : list SearchResult.t) :
  searchIQAirCities w cityName = Ok rs ->
  rs <> [] ->
  exists c,
    In c rs
    /\ fetchIQAirCityByName w cityName = Ok (Some (toRanking c))
    /\ Ranking.rank (toRanking c) = 0%Z
    /\ Ranking.city (toRanking c) = SearchResult.name c
    /\ Ranking.aqi (toRanking c) = SearchResult.aqi c
    /\ startsWith (Ranking.url (toRanking c)) "http" = true.
Proof.
  intros Hs Hne.
  destruct (findBest_In (toLowerCase (Js.trim cityName)) rs Hne) as (c & Hc & Hin).
  exists c. split; [exact Hin|]. split.
  - rewrite (Facts.fetchIQAirCityByName_resolve w cityName rs Hs).
    unfold resolve. rewrite (Facts.length_zero_false rs Hne), Hc. reflexivity.
  - repeat split. apply toRanking_url_absolute.
Qed.

Lemma resolver_answers_with_a_candidate_witness :
  exists c,
    In c [Examples.boston; Examples.newYork]
    /\ fetchIQAirCityByName (Examples.serve Examples.emptyPage Examples.usaData) "zzz"
       = Ok (Some (toRanking c)).
Proof.
  destruct (resolver_answers_with_a_candidate
              (Examples.serve Examples.emptyPage Examples.usaData) "zzz"
              [Examples.boston; Examples.newYork])
    as (c & Hin & Hf & _).
  - reflexivity.
  - discriminate.
  - exists c. split; assumption.
Defined.

Lemma resolver_record_from_payload_core (w : World) (cityName : string)
    (response : Response) (data : list JsValue) (r : Ranking.t) :
  fetch w (searchUrl w (Js.trim cityName)) = Ok response ->
  ok response = true ->
  JSON_parse w (body response) = Ok data ->
  fetchIQAirCityByName w cityName = Ok (Some r) ->
  (exists u, In (JStr u) data /\ More.isAnchor u = true
             /\ Ranking.url r = More.cityOrigin ++ u)
  /\ Ranking.city r <> EmptyString
  /\ Ranking.rank r = 0%Z
  /\ (0 <= Ranking.aqi r)%Q /\ (Ranking.aqi r < 600)%Q.
Proof.
  intros Hf Hok Hj Hr.
  assert (Hb : Claimed.blank cityName = false).
  { destruct (Claimed.blank cityName) eqn:E; [|reflexivity].
    apply Facts.trim_empty in E. unfold fetchIQAirCityByName in Hr.
    rewrite E in Hr. discriminate. }
  pose proof (Facts.searchIQAirCities_Ok w cityName response data Hb Hf Hok Hj) as Hs.
  rewrite (Facts.fetchIQAirCityByName_resolve w cityName _ Hs) in Hr.
  injection Hr as Hr. unfold resolve in Hr.
  destruct (List.length (parseIQAirSearchResponseSimple data) =? 0) eqn:El;
    [discriminate|].
  destruct (findBest (toLowerCase (Js.trim cityName))
              (parseIQAirSearchResponseSimple data)) as [c|] eqn:Ec; [|discriminate].
  injection Hr as <-.
  assert (Hin : In c (parseIQAirSearchResponseSimple data)).
  { destruct (findBest_In (toLowerCase (Js.trim cityName))
                (parseIQAirSearchResponseSimple data)) as (c' & Hc' & Hin').
    - intro H. rewrite H in El. discriminate.
    - congruence. }
  assert (Hu : In (SearchResult.url c)
                  (map SearchResult.url (parseIQAirSearchResponseSimple data)))
    by now apply in_map.
  apply result_urls_are_the_anchors_core in Hu as (Hd & Hslash & Hdot & Hlen).
  destruct (result_names_nonempty_core data c Hin) as (Hname & _).
  destruct (result_numbers_in_range_core data c Hin) as (Haqi & _).
  split; [|split; [|split]].
  - exists (SearchResult.url c). split; [exact Hd|]. split.
    + pose proof (result_urls_are_the_anchors_core data (SearchResult.url c)) as Hiff.
      unfold More.isAnchor, anchorParts. rewrite Hslash, Hdot. cbn [andb negb].
      destruct Hlen as [H2 H3]. apply Nat.leb_le in H2. apply Nat.leb_le in H3.
      now rewrite H2, H3.
    + unfold toRanking. cbn [Ranking.url]. now rewrite (slash_not_http _ Hslash).
  - exact Hname.
  - reflexivity.
  - cbn [toRanking Ranking.aqi]. destruct Haqi as [[-> _]|[H1 H2]]; split; lra.
Qed.

(** X10. From the payload to the resolver's answer: whenever the resolver
    returns a record for a search whose payload is [data], the record's URL
    is the provider's origin "https://www.iqair.com/us" followed by an anchor
    of [data], its [city] is not empty, its [rank] is 0 and its [aqi] is at
    least 0 and below 600. *)
Theorem resolver_record_from_payload (w : World) (cityName : string)
    (response : Response) (data : list JsValue) (r : Ranking.t) :
  fetch w (searchUrl w (Js.trim cityName)) = Ok response ->
  ok response = true ->
  JSON_parse w (body response) = Ok data ->
  fetchIQAirCityByName w cityName = Ok (Some r) ->
  (exists u, In (JStr u) data /\ More.isAnchor u = true
             /\ Ranking.url r = More.cityOrigin ++ u)
  /\ Ranking.city r <> EmptyString
  /\ Ranking.rank r = 0%Z
  /\ (0 <= Ranking.aqi r)%Q /\ (Ranking.aqi r < 600)%Q.
Proof. exact (resolver_record_from_payload_core w cityName response data r). Qed.

Lemma resolver_record_from_payload_witness :
  exists r,
    fetchIQAirCityByName (Examples.serve Examples.emptyPage More.repeatedData) "tashkent"
    = Ok (Some r)
    /\ Ranking.url r = "https://www.iqair.com/us/uzbekistan/tashkent/tashkent"
    /\ Ranking.aqi r = 152%Q
    /\ (Ranking.aqi r < 600)%Q.
Proof.
  eexists. split; [reflexivity|]. split; [reflexivity|]. split; [reflexivity|].
  apply (resolver_record_from_payload
           (Examples.serve Examples.emptyPage More.repeatedData) "tashkent"
           Examples.okResponse More.repeatedData); reflexivity.
Defined.

(** ** [fetchIQAirTopCities] *)

Lemma eachRow_nonpositive (w : World) (limit : Z) (rows : Cheerio) (index : nat) :
  (limit <= 0)%Z -> eachRow w limit index rows [] = [].
Proof.
  intro H. destruct rows as [|row rows]; [reflexivity|]. cbn [eachRow].
  assert (E : (limit <=? Z.of_nat (List.length (@nil Ranking.t)))%Z = true)
    by (apply Z.leb_le; simpl; lia).
  now rewrite E.
Qed.

Lemma parseRankingDocument_Ok (w : World) (doc : Node) (limit : Z) (rs : list Ranking.t) :
  parseRankingDocument w doc limit = Ok rs ->
  (1 <= limit)%Z
  /\ rs <> []
  /\ rs = firstn (Z.to_nat limit) (Claimed.parsedRows w 0 (rankingRows doc)).
Proof.
  unfold parseRankingDocument.
  destruct (List.length (rankingTable doc) =? 0); [discriminate|].
  destruct (Z_le_gt_dec limit 0) as [Hle|Hgt].
  - rewrite (eachRow_nonpositive w limit _ 0 Hle). discriminate.
  - rewrite Facts.eachRow_firstn by (simpl; lia). cbn [app List.length].
    rewrite Nat.sub_0_r.
    destruct (firstn (Z.to_nat limit) (Claimed.parsedRows w 0 (rankingRows doc))) eqn:E;
      [discriminate|].
    intro H. injection H as <-. repeat split; [lia | discriminate].
Qed.

Lemma fetchIQAirTopCities_Ok (w : World) (limit : Z) (rs : list Ranking.t) :
  fetchIQAirTopCities w limit = Ok rs ->
  exists response,
    fetch w rankingUrl = Ok response /\ ok response = true
    /\ parseRankingDocument w (cheerio_load w (body response)) limit = Ok rs.
Proof.
  unfold fetchIQAirTopCities. destruct (fetch w rankingUrl) as [response|e]; [|discriminate].
  cbn [bind]. destruct (ok response) eqn:E; [|discriminate].
  intro H. exists response. auto.
Qed.

(** X11. A successful call of [fetchIQAirTopCities] returns at least one
    record and at most [limit] records; in particular no call with a limit
    of zero or less succeeds. *)
Theorem top_cities_between_one_and_limit (w : World) (limit : Z) (rs : list Ranking.t) :
  fetchIQAirTopCities w limit = Ok rs ->
  (1 <= Z.of_nat (List.length rs) <= limit)%Z.
Proof.
  intro H. apply fetchIQAirTopCities_Ok in H as (response & _ & _ & H).
  apply parseRankingDocument_Ok in H as (Hl & Hne & Heq).
  assert (Hlen : List.length rs <= Z.to_nat limit)
    by (rewrite Heq; apply firstn_le_length).
  destruct rs; [congruence|]. simpl in *. lia.
Qed.

Lemma top_cities_between_one_and_limit_witness :
  (1 <= Z.of_nat (List.length
                    [Ranking.make 1 "Lahore" "pakistan" 187
                       "https://www.iqair.com/us/pakistan/punjab/lahore"]) <= 1)%Z.
Proof.
  apply (top_cities_between_one_and_limit (Examples.serve Examples.lahoreDelhi []) 1).
  reflexivity.
Defined.

Lemma parseRow_shape (w : World) (index : nat) (row : Located) (r : Ranking.t) :
  parseRow w index row = Some r ->
  startsWith (Ranking.url r) "http" = true
  /\ Ranking.rank r <> 0%Z
  /\ Js.trim (Ranking.city r) = Ranking.city r
  /\ Claimed.blank (Ranking.city r) = false.
Proof.
  intro H. destruct (Facts.parseRow_Some w index row r H) as (Hc & Hne & _).
  assert (Htrim : Js.trim (Ranking.city r) = Ranking.city r).
  { rewrite Hc. unfold rowCity. apply trim_idempotent. }
  unfold parseRow in H.
  destruct (List.length (find [tag "td"] [row]) <? 2); [discriminate|].
  destruct (parseInt (rowAqiText row)) as [n|]; [|discriminate].
  destruct (isEmpty (rowCity row)); [discriminate|].
  injection H as <-. cbn [Ranking.url Ranking.rank Ranking.city] in *.
  repeat split.
  - match goal with
    | |- startsWith (if startsWith ?h "http" then _ else _) _ = true =>
        destruct (startsWith h "http") eqn:E; [exact E | reflexivity]
    end.
  - destruct (parseInt (Js.trim (text (first (find [tag "th"] [row]))))) as [k|].
    + destruct (Z.eqb_spec k 0); [lia | assumption].
    + lia.
  - exact Htrim.
  - destruct (Claimed.blank (rowCity row)) eqn:E; [|reflexivity].
    apply Facts.trim_empty in E. rewrite Htrim in E. congruence.
Qed.

(** X12. Every record of a successful ranking call has an absolute URL (it
    starts with "http"), a rank different from 0, and a city name that is
    trimmed and not blank, so that it can be handed to the city lookup as it
    is. *)
Theorem top_cities_records_well_formed (w : World) (limit : Z) (rs : list Ranking.t) :
  fetchIQAirTopCities w limit = Ok rs ->
  Forall (fun r =>
    startsWith (Ranking.url r) "http" = true
    /\ Ranking.rank r <> 0%Z
    /\ Js.trim (Ranking.city r) = Ranking.city r
    /\ Claimed.blank (Ranking.city r) = false) rs.
Proof.
  intro H. apply fetchIQAirTopCities_Ok in H as (response & _ & _ & H).
  apply parseRankingDocument_Ok in H as (_ & _ & ->).
  apply Forall_forall. intros r Hr. apply Facts.in_firstn in Hr.
  destruct (Facts.parsedRows_origin w _ r 0 Hr) as (i & row & _ & Hp).
  exact (parseRow_shape w i row r Hp).
Qed.

Lemma top_cities_records_well_formed_witness :
  Forall (fun r =>
    startsWith (Ranking.url r) "http" = true
    /\ Ranking.rank r <> 0%Z
    /\ Js.trim (Ranking.city r) = Ranking.city r
    /\ Claimed.blank (Ranking.city r) = false)
    [Ranking.make 1 "Lahore" "pakistan" 187 "https://www.iqair.com/us/pakistan/punjab/lahore";
     Ranking.make 2 "Delhi" "india" 172 "https://www.iqair.com/us/india/delhi/delhi"].
Proof.
  apply (top_cities_records_well_formed (Examples.serve Examples.lahoreDelhi []) 10).
  reflexivity.
Defined.

(** X13. A page response that is not ok is reported with the module's
    message and the status: "IQAir HTML fetch failed:" for the ranking page
    and "IQAir city HTML fetch failed:" for the page of a resolved city;
    nothing is parsed in either case. *)
Theorem page_failures_reported (w : World) (response : Response) :
  ok response = false ->
  (forall limit,
     fetch w rankingUrl = Ok response ->
     fetchIQAirTopCities w limit
     = Throw ("IQAir HTML fetch failed: " ++ showNat (status response) ++ " "
              ++ statusText response))
  /\ (forall cityName baseInfo,
        fetchIQAirCityByName w cityName = Ok (Some baseInfo) ->
        fetch w (Ranking.url baseInfo) = Ok response ->
        fetchIQAirCityDetailsByName w cityName
        = Throw ("IQAir city HTML fetch failed: " ++ showNat (status response) ++ " "
                 ++ statusText response)).
Proof.
  intro Hok. split.
  - intros limit Hf. unfold fetchIQAirTopCities. rewrite Hf. cbn [bind]. now rewrite Hok.
  - intros cityName baseInfo Hb Hf. unfold fetchIQAirCityDetailsByName.
    rewrite Hb. cbn [bind]. rewrite Hf. cbn [bind]. now rewrite Hok.
Qed.

Lemma page_failures_reported_witness :
  fetchIQAirTopCities (More.failing 404 "Not Found") 10
  = Throw "IQAir HTML fetch failed: 404 Not Found".
Proof.
  apply (proj1 (page_failures_reported (More.failing 404 "Not Found")
                  {| ok := false; status := 404; statusText := "Not Found";
                     body := EmptyString |} Logic.eq_refl) 10%Z).
  reflexivity.
Defined.

(** ** The main pollutant and the units *)

Lemma orStr_nonempty (a b : string) : b <> EmptyString -> orStr a b <> EmptyString.
Proof. intro H. destruct a; simpl; [exact H | discriminate]. Qed.

Lemma ugm3_nonempty : ugm3 <> EmptyString.
Proof. discriminate. Qed.

Lemma mainStrategy1_unit (aqiCard : Cheerio) (v : MainVars) :
  mainUnit v <> EmptyString -> mainUnit (mainStrategy1 aqiCard v) <> EmptyString.
Proof.
  intro H. unfold mainStrategy1.
  repeat match goal with
         | |- context [if ?c then _ else _] => destruct c
         | |- context [match matchRe ?a ?b ?c with _ => _ end] => destruct (matchRe a b c)
         end;
    cbn [mainUnit]; auto using orStr_nonempty, ugm3_nonempty.
Qed.

Lemma mainStrategy2_unit (aqiCard : Cheerio) (v : MainVars) :
  mainUnit v <> EmptyString -> mainUnit (mainStrategy2 aqiCard v) <> EmptyString.
Proof.
  intro H. unfold mainStrategy2.
  repeat match goal with
         | |- context [if ?c then _ else _] => destruct c
         | |- context [match matchRe ?a ?b ?c with _ => _ end] => destruct (matchRe a b c)
         end;
    cbn [mainUnit]; auto using orStr_nonempty, ugm3_nonempty.
Qed.

Lemma readPollutantRow_unit (tr : Located) (p : Pollutant.t) :
  readPollutantRow tr = Some p -> Pollutant.unit p <> EmptyString.
Proof.
  unfold readPollutantRow. cbv zeta. intro H.
  match type of H with
  | (if ?c then _ else _) = _ => destruct c; [discriminate H|]
  end.
  match type of H with
  | (if ?c then _ else _) = _ => destruct c; [discriminate H|]
  end.
  match type of H with
  | (let '(value, unit) := ?x in _) = _ => destruct x as [value unit] eqn:Ex
  end.
  apply (f_equal (option_map Pollutant.unit)) in H.
  cbn [option_map Pollutant.unit] in H. injection H as <-.
  match type of Ex with
  | (if ?c then _ else _) = _ => destruct c
  end.
  - injection Ex as _ <-. apply orStr_nonempty, ugm3_nonempty.
  - match type of Ex with
    | match ?m with _ => _ end = _ => destruct m
    end.
    + injection Ex as _ <-. apply orStr_nonempty, ugm3_nonempty.
    + match type of Ex with
      | match ?m with _ => _ end = _ => destruct m
      end.
      * injection Ex as _ <-. apply orStr_nonempty, ugm3_nonempty.
      * injection Ex as _ <-. apply ugm3_nonempty.
Qed.

Lemma extractPollutants_entries (doc : Node) (p : Pollutant.t) :
  In p (extractPollutants doc) ->
  exists tr, In tr (pollutantRows doc) /\ pollutantOfRow tr = Some p.
Proof.
  unfold extractPollutants. rewrite Facts.eachPollutantRow_flat_map. cbn [app].
  intro H. apply in_flat_map in H as (tr & Htr & Hp).
  destruct (pollutantOfRow tr) as [p'|] eqn:E; [|contradiction].
  destruct Hp as [<-|[]]. exists tr. auto.
Qed.

Lemma mainFallback_sound (pollutants : list Pollutant.t) (v : MainVars) :
  mainUnit v <> EmptyString ->
  (forall p, In p pollutants ->
             Pollutant.name p <> EmptyString /\ falsyNum (Pollutant.value p) = false) ->
  mainName (mainFallback pollutants v) <> EmptyString
  /\ mainValue (mainFallback pollutants v) <> NaN
  /\ mainUnit (mainFallback pollutants v) = mainUnit v.
Proof.
  intros Hu Hp. unfold mainFallback.
  assert (Hunit : forall b, orStr (mainUnit v) b = mainUnit v).
  { intro b. destruct (mainUnit v); [congruence | reflexivity]. }
  destruct (isEmpty (mainName v) || falsyNum (mainValue v)) eqn:E.
  - destruct pollutants as [|p ps]; cbn [mainName mainValue mainUnit].
    + repeat split.
      * apply orStr_nonempty. discriminate.
      * unfold orNum. destruct (falsyNum (mainValue v)) eqn:F; [discriminate|].
        intro H. rewrite H in F. discriminate.
      * apply Hunit.
    + destruct (Hp p (or_introl Logic.eq_refl)) as [Hn Hv]. repeat split.
      * now apply orStr_nonempty.
      * unfold orNum. destruct (falsyNum (mainValue v)) eqn:F.
        -- intro H. rewrite H in Hv. discriminate.
        -- intro H. rewrite H in F. discriminate.
      * apply Hunit.
  - apply orb_false_iff in E as [En Ev]. repeat split.
    + intro H. rewrite H in En. discriminate.
    + intro H. rewrite H in Ev. discriminate.
Qed.

Lemma pollutant_entry_sound (doc : Node) (p : Pollutant.t) :
  In p (extractPollutants doc) ->
  Pollutant.name p <> EmptyString /\ falsyNum (Pollutant.value p) = false
  /\ Pollutant.unit p <> EmptyString.
Proof.
  intro H. apply extractPollutants_entries in H as (tr & _ & H).
  apply Facts.pollutantOfRow_kept in H as (Hr & Hn & Hv & Hz).
  repeat split; auto.
  - unfold falsyNum. rewrite Hz. destruct (Pollutant.value p); try reflexivity. congruence.
  - exact (readPollutantRow_unit tr p Hr).
Qed.

(** X14. The main pollutant of every returned city record is usable: its
    name is never empty (the first table entry or "PM2.5" stands in), its
    value is never [NaN] (an unparsable value is replaced by the first
    entry's value or by 0), and its unit is never empty. *)
Theorem main_pollutant_always_usable (doc : Node) (baseInfo : Ranking.t) (d : Details.t) :
  extractDetails doc baseInfo = Ok d ->
  MainPollutant.name (Details.mainPollutant d) <> EmptyString
  /\ MainPollutant.value (Details.mainPollutant d) <> NaN
  /\ MainPollutant.unit (Details.mainPollutant d) <> EmptyString.
Proof.
  unfold extractDetails. destruct (List.length (aqiCardOf doc) =? 0); [discriminate|].
  intro H. injection H as <-.
  cbn [Details.mainPollutant MainPollutant.name MainPollutant.value MainPollutant.unit].
  set (v0 := {| mainName := EmptyString; mainValue := Num 0; mainUnit := ugm3 |}).
  set (v2 := mainStrategy2 (aqiCardOf doc) (mainStrategy1 (aqiCardOf doc) v0)).
  assert (Hu : mainUnit v2 <> EmptyString).
  { apply mainStrategy2_unit, mainStrategy1_unit. exact ugm3_nonempty. }
  destruct (mainFallback_sound (extractPollutants doc) v2 Hu) as (Hn & Hv & Hunit).
  - intros p Hp. destruct (pollutant_entry_sound doc p Hp) as (? & ? & _). auto.
  - repeat split; auto. now rewrite Hunit.
Qed.

Lemma main_pollutant_always_usable_witness :
  exists d,
    extractDetails Examples.plainCard Examples.baseline = Ok d
    /\ MainPollutant.name (Details.mainPollutant d) = "PM2.5"
    /\ MainPollutant.value (Details.mainPollutant d) <> NaN.
Proof.
  eexists. split; [reflexivity|]. split; [reflexivity|].
  apply (main_pollutant_always_usable Examples.plainCard Examples.baseline).
  reflexivity.
Defined.

(** X15. Every entry of the returned pollutant list carries a non-empty
    unit: where the page gives none, the default unit stands in. *)
Theorem pollutant_units_nonempty (doc : Node) (baseInfo : Ranking.t) (d : Details.t) :
  extractDetails doc baseInfo = Ok d ->
  Forall (fun p => Pollutant.unit p <> EmptyString) (Details.pollutants d).
Proof.
  unfold extractDetails. destruct (List.length (aqiCardOf doc) =? 0); [discriminate|].
  intro H. injection H as <-. cbn [Details.pollutants].
  apply Forall_forall. intros p Hp. now apply pollutant_entry_sound in Hp.
Qed.

Lemma pollutant_units_nonempty_witness :
  Forall (fun p => Pollutant.unit p <> EmptyString)
    [Pollutant.make "PM2.5" "Fine particles" (Num 29.5) ugm3].
Proof.
  apply (pollutant_units_nonempty Examples.cityPage Examples.baseline
           (Details.make 0 "Tashkent" "uzbekistan" 87
              "https://www.iqair.com/us/uzbekistan/tashkent/tashkent" "Moderate"
              (MainPollutant.make "PM2.5" (Num 29.5) ugm3)
              [Pollutant.make "PM2.5" "Fine particles" (Num 29.5) ugm3])).
  reflexivity.
Defined.

Lemma mainStrategy1_no_row (aqiCard : Cheerio) (v : MainVars) :
  (forall el, In el (find [tagClass "div" "font-body-m-medium"] aqiCard) ->
              includes (text [el]) "Main pollutant" = false) ->
  mainStrategy1 aqiCard v = v.
Proof.
  intro H. unfold mainStrategy1. now rewrite (Facts.filter_all_false _ _ H).
Qed.

(** X16. When the card has no "Main pollutant" row and its text does not
    mention "Main pollutant", the main pollutant is taken from the pollutant
    list: the name and value of its first entry, or "PM2.5" and 0 when the
    list is empty.  The unit is the default unit in both cases: the unit of
    the first entry is never taken over. *)
Theorem main_pollutant_falls_back_to_first_entry
    (doc : Node) (baseInfo : Ranking.t) (d : Details.t) :
  extractDetails doc baseInfo = Ok d ->
  (forall el, In el (find [tagClass "div" "font-body-m-medium"] (aqiCardOf doc)) ->
              includes (text [el]) "Main pollutant" = false) ->
  includes (text (aqiCardOf doc)) "Main pollutant" = false ->
  Details.mainPollutant d =
  match Details.pollutants d with
  | p :: _ => MainPollutant.make (Pollutant.name p) (Pollutant.value p) ugm3
  | [] => MainPollutant.make "PM2.5" (Num 0) ugm3
  end.
Proof.
  unfold extractDetails. destruct (List.length (aqiCardOf doc) =? 0); [discriminate|].
  intros H Hrow Htext. injection H as <-.
  cbn [Details.mainPollutant Details.pollutants].
  rewrite (mainStrategy1_no_row _ _ Hrow).
  unfold mainStrategy2. cbn [mainName mainValue isEmpty orb]. rewrite Htext.
  unfold mainFallback. cbn [mainName mainValue mainUnit isEmpty orb].
  destruct (extractPollutants doc) as [|p ps]; reflexivity.
Qed.

Lemma main_pollutant_falls_back_to_first_entry_witness :
  exists d,
    extractDetails More.ppmPage Examples.baseline = Ok d
    /\ Details.pollutants d = [Pollutant.make "CO" "Carbon monoxide" (Num 3.5) "ppm"]
    /\ Details.mainPollutant d = MainPollutant.make "CO" (Num 3.5) ugm3.
Proof.
  eexists. split; [reflexivity|]. split; [reflexivity|].
  rewrite (main_pollutant_falls_back_to_first_entry More.ppmPage Examples.baseline _
             Logic.eq_refl).
  - reflexivity.
  - intros el [].
  - reflexivity.
Defined.

(** ** The matcher: what reaches the continuation *)

Lemma rep_unfold (ic g : bool) (mn : nat) (mx : option nat) (p : ascii -> bool)
    (pos : nat) (s : string) (cs : Captures)
    (k : nat -> string -> Captures -> option MatchState) :
  rmatch ic (Rep g mn mx p) pos s cs k =
  let more :=
    match mx, s with
    | Some 0, _ => None
    | _, String x s' =>
        if cmatch ic p x
        then rmatch ic (Rep g (Nat.pred mn) (option_map Nat.pred mx) p) (S pos) s' cs k
        else None
    | _, EmptyString => None
    end in
  match mn with
  | S _ => more
  | 0 => if g then orElse more (fun _ => k pos s cs)
         else orElse (k pos s cs) (fun _ => more)
  end.
Proof. destruct s; reflexivity. Qed.

(** A successful repetition consumed a prefix [d] of the input, of a length
    within the bounds, whose characters all match, and then called the
    continuation. *)
Lemma rep_post (ic g : bool) (p : ascii -> bool) (cs : Captures)
    (k : nat -> string -> Captures -> option MatchState) (res : MatchState) :
  forall (s : string) (mn : nat) (mx : option nat) (pos : nat),
    rmatch ic (Rep g mn mx p) pos s cs k = Some res ->
    exists d s',
      s = d ++ s'
      /\ k (pos + String.length d) s' cs = Some res
      /\ mn <= String.length d
      /\ (forall m, mx = Some m -> String.length d <= m)
      /\ Forall (fun c => cmatch ic p c = true) (list_ascii_of_string d).
Proof.
  assert (Hstop : forall s mx pos,
            k pos s cs = Some res ->
            exists d s',
              s = d ++ s'
              /\ k (pos + String.length d) s' cs = Some res
              /\ 0 <= String.length d
              /\ (forall m, mx = Some m -> String.length d <= m)
              /\ Forall (fun c => cmatch ic p c = true) (list_ascii_of_string d)).
  { intros s mx pos H. exists EmptyString, s. simpl. rewrite Nat.add_0_r.
    repeat split; auto. intros; lia. }
  induction s as [|x s IH]; intros mn mx pos H; rewrite rep_unfold in H; cbv zeta in H.
  - assert (Hmore : match mx with Some 0 => @None MatchState | _ => None end = None)
      by (destruct mx as [[|?]|]; reflexivity).
    destruct mn as [|mn].
    + destruct g; rewrite Hmore in H; unfold orElse in H.
      * now apply Hstop.
      * destruct (k pos EmptyString cs) eqn:E; [|discriminate].
        injection H as <-. now apply Hstop.
    + rewrite Hmore in H. discriminate.
  - assert (Hmore : forall r,
              match mx with
              | Some 0 => None
              | _ => if cmatch ic p x
                     then rmatch ic (Rep g (Nat.pred mn) (option_map Nat.pred mx) p)
                            (S pos) s cs k
                     else None
              end = Some r ->
              r = res ->
              exists d s',
                String x s = d ++ s'
                /\ k (pos + String.length d) s' cs = Some res
                /\ mn <= String.length d
                /\ (forall m, mx = Some m -> String.length d <= m)
                /\ Forall (fun c => cmatch ic p c = true) (list_ascii_of_string d)).
    { intros r Hr ->.
      assert (Hmx : mx <> Some 0) by (intro E; rewrite E in Hr; discriminate).
      assert (Hr' : (if cmatch ic p x
                     then rmatch ic (Rep g (Nat.pred mn) (option_map Nat.pred mx) p)
                            (S pos) s cs k
                     else None) = Some res)
        by (destruct mx as [[|?]|]; [congruence | exact Hr | exact Hr]).
      destruct (cmatch ic p x) eqn:Ex; [|discriminate].
      destruct (IH _ _ _ Hr') as (d & s' & Hs & Hk & Hmn & Hm & Hall).
      exists (String x d), s'. simpl. repeat split.
      - now rewrite Hs.
      - now rewrite Nat.add_succ_r.
      - lia.
      - intros m Em. subst mx. destruct m as [|m]; [congruence|].
        specialize (Hm m Logic.eq_refl). lia.
      - constructor; assumption. }
    destruct mn as [|mn].
    + destruct g; unfold orElse in H.
      * match type of H with
        | match ?m with _ => _ end = _ => destruct m as [r|] eqn:Em
        end.
        -- injection H as Hres. exact (Hmore r Logic.eq_refl Hres).
        -- now apply Hstop.
      * destruct (k pos (String x s) cs) eqn:E.
        -- injection H as <-. now apply Hstop.
        -- exact (Hmore res H Logic.eq_refl).
    + exact (Hmore res H Logic.eq_refl).
Qed.

(** Whatever a successful match returns was returned by its continuation. *)
Lemma rmatch_post (ic : bool) (P : MatchState -> Prop) (r : regex) :
  forall k,
    (forall pos s cs res, k pos s cs = Some res -> P res) ->
    forall pos s cs res, rmatch ic r pos s cs k = Some res -> P res.
Proof.
  induction r as [p | | r1 IH1 r2 IH2 | r1 IH1 r2 IH2 | g mn mx p | i r1 IH1 | |];
    intros k Hk pos s cs res H.
  - cbn [rmatch] in H. destruct s as [|x s]; [discriminate|].
    destruct (cmatch ic p x); [|discriminate]. eauto.
  - cbn [rmatch] in H. eauto.
  - cbn [rmatch] in H. refine (IH1 _ _ _ _ _ _ H).
    intros pos' s' cs' res' H'. exact (IH2 k Hk _ _ _ _ H').
  - cbn [rmatch] in H. unfold orElse in H.
    destruct (rmatch ic r1 pos s cs k) eqn:E.
    + injection H as <-. exact (IH1 k Hk _ _ _ _ E).
    + exact (IH2 k Hk _ _ _ _ H).
  - destruct (rep_post ic g p cs k res s mn mx pos H) as (d & s' & _ & Hd & _).
    exact (Hk _ _ _ _ Hd).
  - cbn [rmatch] in H. refine (IH1 _ _ _ _ _ _ H).
    intros pos' s' cs' res' H'. exact (Hk _ _ _ _ H').
  - cbn [rmatch] in H. destruct (pos =? 0); [|discriminate]. eauto.
  - cbn [rmatch] in H. destruct (isEmpty s); [|discriminate]. eauto.
Qed.

Lemma seq_post (ic : bool) (P : MatchState -> Prop) (r1 r2 : regex)
    (k : nat -> string -> Captures -> option MatchState) :
  (forall pos s cs res, rmatch ic r2 pos s cs k = Some res -> P res) ->
  forall pos s cs res, rmatch ic (Seq r1 r2) pos s cs k = Some res -> P res.
Proof.
  intros H pos s cs res Hm.
  change (rmatch ic r1 pos s cs (fun pos' s' cs' => rmatch ic r2 pos' s' cs' k)
          = Some res) in Hm.
  exact (rmatch_post ic P r1 _ H _ _ _ _ Hm).
Qed.

Lemma take_app (d s : string) : take (String.length d) (d ++ s) = d.
Proof.
  unfold take. induction d as [|c d IH]; simpl.
  - destruct s; reflexivity.
  - now rewrite IH.
Qed.

(** A match of an expression that ends with a group around a repetition
    leaves in that group a string of matching characters whose length is
    within the bounds of the repetition. *)
Lemma final_group_post (ic g : bool) (i mn m : nat) (p : ascii -> bool)
    (pos : nat) (s : string) (cs : Captures) (res : MatchState) :
  rmatch ic (Grp i (Rep g mn (Some m) p)) pos s cs
    (fun e rest cs' => Some (e, rest, cs')) = Some res ->
  mn <= String.length (group i (snd res)) <= m
  /\ Forall (fun c => cmatch ic p c = true)
            (list_ascii_of_string (group i (snd res))).
Proof.
  intro H.
  change (rmatch ic (Rep g mn (Some m) p) pos s cs
            (fun pos' s' cs' => Some (pos', s', (i, take (pos' - pos) s) :: cs'))
          = Some res) in H.
  apply rep_post in H as (d & s' & Hs & Hk & Hmn & Hm & Hall).
  injection Hk as <-. cbn [snd group]. rewrite Nat.eqb_refl.
  replace (pos + String.length d - pos) with (String.length d) by lia.
  rewrite Hs, take_app. specialize (Hm m Logic.eq_refl). auto.
Qed.

Lemma execFrom_post (ic : bool) (r : regex) (P : MatchState -> Prop) :
  (forall pos s res, matchAt ic r pos s = Some res -> P res) ->
  forall s pos start res, execFrom ic r pos s = Some (start, res) -> P res.
Proof.
  intro H. induction s as [|c s IH]; intros pos start res He; cbn [execFrom] in He.
  - destruct (matchAt ic r pos EmptyString) eqn:E; [|discriminate].
    injection He as _ <-. eauto.
  - destruct (matchAt ic r pos (String c s)) eqn:E.
    + injection He as _ <-. eauto.
    + eauto.
Qed.

(** ** The AQI value: its range *)

Lemma digit_plain (ic : bool) (c : ascii) : cmatch ic cls_d c = isDigit c.
Proof.
  destruct ic; destruct c as [[] [] [] [] [] [] [] []]; reflexivity.
Qed.

Lemma digit_not_space_or_sign (c : ascii) :
  isDigit c = true ->
  isWhiteSpace c = false /\ c <> "-"%char /\ c <> "+"%char
  /\ (N.of_nat (code c - 48) <= 9)%N.
Proof.
  destruct c as [[] [] [] [] [] [] [] []]; intro H;
    try discriminate H; repeat split; try discriminate; vm_compute; discriminate.
Qed.

Lemma takeDigits_all (d : string) :
  Forall (fun c => isDigit c = true) (list_ascii_of_string d) ->
  takeDigits d = (d, EmptyString).
Proof.
  induction d as [|c d IH]; simpl; intro H; [reflexivity|].
  inversion H as [|? ? Hc Hd]; subst. rewrite Hc, (IH Hd). reflexivity.
Qed.

Lemma digitsValue_bound (d : string) :
  Forall (fun c => isDigit c = true) (list_ascii_of_string d) ->
  forall acc, (digitsValue acc d < (acc + 1) * 10 ^ N.of_nat (String.length d))%N.
Proof.
  induction d as [|c d IH]; intros H acc.
  - simpl. lia.
  - inversion H as [|? ? Hc Hd]; subst. cbn [digitsValue String.length].
    destruct (digit_not_space_or_sign c Hc) as (_ & _ & _ & H9).
    specialize (IH Hd (acc * 10 + N.of_nat (code c - 48))%N).
    rewrite Nat2N.inj_succ, N.pow_succ_r'.
    eapply N.lt_le_trans; [exact IH|].
    rewrite N.mul_assoc. apply N.mul_le_mono_r. lia.
Qed.

(** [parseInt] on one to three decimal digits. *)
Lemma parseInt_digits (d : string) :
  1 <= String.length d <= 3 ->
  Forall (fun c => isDigit c = true) (list_ascii_of_string d) ->
  exists v, parseInt d = Some v /\ (0 <= v < 1000)%Z.
Proof.
  intros Hlen Hall.
  destruct d as [|c d]; [simpl in Hlen; lia|].
  pose proof Hall as Hall'. inversion Hall' as [|? ? Hc Hd]; subst.
  destruct (digit_not_space_or_sign c Hc) as (Hws & Hminus & Hplus & _).
  pose proof (digitsValue_bound (String c d) Hall 0%N) as Hb.
  assert (Hpow : (10 ^ N.of_nat (String.length (String c d)) <= 1000)%N).
  { change 1000%N with (10 ^ 3)%N. apply N.pow_le_mono_r; lia. }
  exists (Z.of_N (digitsValue 0 (String c d))). split; [|lia].
  unfold parseInt. cbn [trimStart]. rewrite Hws.
  assert (Hsign : takeSign (String c d) = (false, String c d)).
  { destruct c as [[] [] [] [] [] [] [] []]; try reflexivity; congruence. }
  rewrite Hsign, (takeDigits_all _ Hall). reflexivity.
Qed.

Lemma aqiStrategy3_range (aqiCard : Cheerio) (v : Z) :
  aqiStrategy3 aqiCard = Some v -> (0 <= v < 1000)%Z.
Proof.
  unfold aqiStrategy3, matchRe, exec.
  destruct (execFrom true reAqi 0 (text aqiCard)) as [[start [[e rest] caps]]|] eqn:E;
    [|discriminate].
  intro Hp.
  assert (Hg : 1 <= String.length (group 1 caps) <= 3
               /\ Forall (fun c => cmatch true cls_d c = true)
                         (list_ascii_of_string (group 1 caps))).
  { pose (P := fun res : MatchState =>
                 1 <= String.length (group 1 (snd res)) <= 3
                 /\ Forall (fun c => cmatch true cls_d c = true)
                           (list_ascii_of_string (group 1 (snd res)))).
    apply (execFrom_post true reAqi P) in E; [exact E|].
    intros pos s res. unfold matchAt.
    change reAqi with
      (Seq (Alt (Str "AQI") (Str "US AQI"))
           (Seq (Star (orCls cls_s (isChar ":")))
                (Grp 1 (Rep true 1 (Some 3) cls_d)))).
    apply (seq_post true P). intros pos1 s1 cs1 res1.
    apply (seq_post true P). intros pos2 s2 cs2 res2.
    apply final_group_post. }
  destruct Hg as [Hlen Hall].
  assert (Hall' : Forall (fun c => isDigit c = true) (list_ascii_of_string (group 1 caps))).
  { eapply Forall_impl; [|exact Hall]. intros c Hc. cbv beta in Hc |- *.
    rewrite <- (digit_plain true c). exact Hc. }
  destruct (parseInt_digits _ Hlen Hall') as (v' & Hv' & Hr). congruence.
Qed.

Lemma maxList_le (bound : Z) (xs : list Z) (x : Z) :
  (x <= bound)%Z -> Forall (fun y => (y <= bound)%Z) xs -> (maxList x xs <= bound)%Z.
Proof.
  unfold maxList. revert x. induction xs as [|y xs IH]; intros x Hx H; simpl; [exact Hx|].
  inversion H; subst. apply IH; [lia | assumption].
Qed.

Lemma aqiStrategy2_range (aqiCard : Cheerio) (v : Z) :
  aqiStrategy2 aqiCard = Some v -> (0 < v <= 500)%Z.
Proof.
  intro H. split; [exact (Facts.aqiStrategy2_positive aqiCard v H)|].
  unfold aqiStrategy2 in H.
  set (f := fun el => match plausibleAqi el with Some n => [n] | None => [] end) in H.
  assert (Hall : Forall (fun y => (y <= 500)%Z) (flat_map f (find [tag "p"] aqiCard))).
  { apply Forall_forall. intros y Hy. apply in_flat_map in Hy as (el & _ & Hy).
    unfold f in Hy. destruct (plausibleAqi el) as [n|] eqn:En; [|contradiction].
    destruct Hy as [<-|[]]. apply Facts.plausibleAqi_range in En. lia. }
  destruct (flat_map f (find [tag "p"] aqiCard)) as [|n rest]; [discriminate|].
  injection H as <-. inversion Hall; subst. now apply maxList_le.
Qed.

Lemma detail_aqi_in_range_core (doc : Node) (baseInfo : Ranking.t) (d : Details.t) :
  extractDetails doc baseInfo = Ok d ->
  (0 <= Ranking.aqi baseInfo)%Q -> (Ranking.aqi baseInfo < 1000)%Q ->
  (0 <= Details.aqi d)%Q /\ (Details.aqi d < 1000)%Q.
Proof.
  unfold extractDetails. destruct (List.length (aqiCardOf doc) =? 0); [discriminate|].
  intros H H0 H1.
  apply (f_equal (fun o => match o with Ok x => Details.aqi x | Throw _ => 0%Q end)) in H.
  cbn [Details.aqi] in H. rewrite <- H, Facts.extractAqi_cascade.
  assert (Hz : forall v : Z, (0 <= v < 1000)%Z ->
                             (0 <= inject_Z v)%Q /\ (inject_Z v < 1000)%Q).
  { intros v Hv. unfold Qle, Qlt. simpl. lia. }
  destruct (aqiStrategy1 (aqiCardOf doc)) as [v|] eqn:E1.
  - apply Facts.aqiStrategy1_range in E1. apply Hz. lia.
  - destruct (falsyQ (Ranking.aqi baseInfo)); [|auto].
    destruct (aqiStrategy2 (aqiCardOf doc)) as [v|] eqn:E2.
    + apply aqiStrategy2_range in E2. apply Hz. lia.
    + destruct (aqiStrategy3 (aqiCardOf doc)) as [v|] eqn:E3.
      * apply aqiStrategy3_range in E3. now apply Hz.
      * split; [apply Qle_refl | reflexivity].
Qed.

(** X17. The AQI of a city record stays in range: when the baseline AQI is
    at least 0 and below 1000, so is the returned [aqi], whichever strategy
    produced it.  It is never negative and never [NaN]. *)
Theorem detail_aqi_in_range (doc : Node) (baseInfo : Ranking.t) (d : Details.t) :
  extractDetails doc baseInfo = Ok d ->
  (0 <= Ranking.aqi baseInfo)%Q -> (Ranking.aqi baseInfo < 1000)%Q ->
  (0 <= Details.aqi d)%Q /\ (Details.aqi d < 1000)%Q.
Proof. exact (detail_aqi_in_range_core doc baseInfo d). Qed.

Lemma detail_aqi_in_range_witness :
  exists d,
    extractDetails Examples.cityPage Examples.baseline = Ok d
    /\ (0 <= Details.aqi d)%Q /\ (Details.aqi d < 1000)%Q.
Proof.
  eexists. split; [reflexivity|].
  apply (detail_aqi_in_range Examples.cityPage Examples.baseline).
  - reflexivity.
  - discriminate.
  - reflexivity.
Defined.

(** ** The detail lookup from end to end *)

Lemma extractDetails_frame (doc : Node) (baseInfo : Ranking.t) (d : Details.t) :
  extractDetails doc baseInfo = Ok d ->
  Details.rank d = Ranking.rank baseInfo
  /\ Details.city d = Ranking.city baseInfo
  /\ Details.countrySlug d = Ranking.countrySlug baseInfo
  /\ Details.url d = Ranking.url baseInfo.
Proof.
  intro H. destruct (List.length (aqiCardOf doc) =? 0) eqn:E.
  - unfold extractDetails in H. rewrite E in H. discriminate.
  - destruct (Facts.extractDetails_Ok doc baseInfo) as (d' & Hd' & H1 & H2 & H3 & H4 & _).
    + intro Hnil. rewrite Hnil in E. discriminate.
    + assert (d' = d) by congruence. subst d'. auto.
Qed.

Lemma fetchIQAirCityDetailsByName_Some (w : World) (cityName : string) (d : Details.t) :
  fetchIQAirCityDetailsByName w cityName = Ok (Some d) ->
  exists baseInfo response,
    fetchIQAirCityByName w cityName = Ok (Some baseInfo)
    /\ fetch w (Ranking.url baseInfo) = Ok response
    /\ ok response = true
    /\ extractDetails (cheerio_load w (body response)) baseInfo = Ok d.
Proof.
  unfold fetchIQAirCityDetailsByName.
  destruct (fetchIQAirCityByName w cityName) as [[baseInfo|]|e]; cbn [bind];
    try discriminate.
  destruct (fetch w (Ranking.url baseInfo)) as [response|e] eqn:Hf; cbn [bind];
    [|discriminate].
  destruct (ok response) eqn:Hok; cbn [negb]; cbv iota; [|discriminate].
  destruct (extractDetails (cheerio_load w (body response)) baseInfo) as [d'|e] eqn:Hd;
    cbn [bind]; [|discriminate].
  intro H. injection H as <-. exists baseInfo, response. auto.
Qed.

(** X18. From the search payload to the city record: whenever
    [fetchIQAirCityDetailsByName] returns a record for a search whose payload
    is [data], the record's URL is "https://www.iqair.com/us" followed by an
    anchor of [data], its [city] is not empty, its [rank] is 0, and its [aqi]
    is at least 0 and below 1000. *)
Theorem city_record_end_to_end (w : World) (cityName : string)
    (response : Response) (data : list JsValue) (d : Details.t) :
  fetch w (searchUrl w (Js.trim cityName)) = Ok response ->
  ok response = true ->
  JSON_parse w (body response) = Ok data ->
  fetchIQAirCityDetailsByName w cityName = Ok (Some d) ->
  (exists u, In (JStr u) data /\ More.isAnchor u = true
             /\ Details.url d = More.cityOrigin ++ u)
  /\ Details.city d <> EmptyString
  /\ Details.rank d = 0%Z
  /\ (0 <= Details.aqi d)%Q /\ (Details.aqi d < 1000)%Q.
Proof.
  intros Hf Hok Hj Hd.
  apply fetchIQAirCityDetailsByName_Some in Hd as (baseInfo & page & Hb & _ & _ & Hd).
  destruct (resolver_record_from_payload_core w cityName response data baseInfo
              Hf Hok Hj Hb) as (Hu & Hc & Hr & Ha0 & Ha1).
  destruct (extractDetails_frame _ _ _ Hd) as (Fr & Fc & _ & Fu).
  rewrite Fr, Fc, Fu. repeat split; auto.
  - apply (detail_aqi_in_range_core _ baseInfo d Hd Ha0). lra.
  - apply (detail_aqi_in_range_core _ baseInfo d Hd Ha0). lra.
Qed.

Lemma city_record_end_to_end_witness :
  exists d,
    fetchIQAirCityDetailsByName (Examples.serve Examples.cityPage More.repeatedData)
      "tashkent" = Ok (Some d)
    /\ Details.url d = "https://www.iqair.com/us/uzbekistan/tashkent/tashkent"
    /\ Details.rank d = 0%Z
    /\ (Details.aqi d < 1000)%Q.
Proof.
  eexists. split; [reflexivity|]. split; [reflexivity|]. split; [reflexivity|].
  apply (city_record_end_to_end (Examples.serve Examples.cityPage More.repeatedData)
           "tashkent" Examples.okResponse More.repeatedData); reflexivity.
Defined.

(** ** The commands *)

Lemma append_assoc (a b c : string) : (a ++ b) ++ c = a ++ (b ++ c).
Proof. induction a as [|x a IH]; simpl; [reflexivity | now rewrite IH]. Qed.

Lemma prefix_iff (t s : string) :
  String.prefix t s = true <-> exists q, s = t ++ q.
Proof.
  revert s. induction t as [|c t IH]; intro s.
  - split; [intros _; exists s; reflexivity | intros _; destruct s; reflexivity].
  - destruct s as [|x s]; simpl.
    + split; [discriminate | intros (q & Hq); discriminate].
    + destruct (ascii_dec c x) as [->|Hne].
      * rewrite IH. split; intros (q & Hq); exists q; [now rewrite Hq | congruence].
      * split; [discriminate | intros (q & Hq); congruence].
Qed.

Lemma includes_iff (s t : string) :
  includes s t = true <-> exists p q, s = p ++ t ++ q.
Proof.
  induction s as [|x s IH]; cbn [includes]; rewrite orb_true_iff, prefix_iff.
  - split.
    + intros [(q & Hq)|H]; [|discriminate]. exists EmptyString, q. exact Hq.
    + intros (p & q & H). left. destruct p; [|discriminate]. exists q. exact H.
  - rewrite IH. split.
    + intros [(q & Hq)|(p & q & H)].
      * exists EmptyString, q. exact Hq.
      * exists (String x p), q. simpl. now rewrite H.
    + intros (p & q & H). destruct p as [|y p].
      * left. exists q. exact H.
      * right. simpl in H. injection H as _ H. exists p, q. exact H.
Qed.

(** A string that contains [a ++ b] contains [b]. *)
Lemma includes_tail (s a b : string) :
  includes s (a ++ b) = true -> includes s b = true.
Proof.
  rewrite !includes_iff. intros (p & q & H).
  exists (p ++ a), q. now rewrite H, !append_assoc.
Qed.

(** X19. [getAQILevelColor] gives purple only to a level that mentions
    "hazardous": a level that mentions "very unhealthy" is caught by the
    earlier test for "unhealthy" (or by a still earlier one) and is never
    purple nor left without a colour. *)
Theorem very_unhealthy_is_never_purple (level : string) :
  (App.getAQILevelColor level = App.Purple ->
   includes (toLowerCase level) "hazardous" = true
   /\ includes (toLowerCase level) "unhealthy" = false)
  /\ (includes (toLowerCase level) "very unhealthy" = true ->
      App.getAQILevelColor level <> App.Purple
      /\ App.getAQILevelColor level <> App.SecondaryText).
Proof.
  unfold App.getAQILevelColor. cbv zeta.
  set (l := toLowerCase level). split.
  - destruct (includes l "good" || includes l "excellent"); [discriminate|].
    destruct (includes l "moderate" || includes l "fair"); [discriminate|].
    destruct (includes l "unhealthy for sensitive" || includes l "sensitive");
      [discriminate|].
    destruct (includes l "unhealthy") eqn:Eu; [discriminate|].
    destruct (includes l "very unhealthy") eqn:Ev.
    + apply (includes_tail l "very " "unhealthy") in Ev. congruence.
    + cbn [orb]. destruct (includes l "hazardous"); [auto | discriminate].
  - intro Hv. apply (includes_tail l "very " "unhealthy") in Hv. rewrite Hv.
    destruct (includes l "good" || includes l "excellent"); [split; discriminate|].
    destruct (includes l "moderate" || includes l "fair"); [split; discriminate|].
    destruct (includes l "unhealthy for sensitive" || includes l "sensitive");
      split; discriminate.
Qed.

Lemma very_unhealthy_is_never_purple_witness :
  App.getAQILevelColor "Very Unhealthy" = App.Red
  /\ App.getAQILevelColor "Very Unhealthy" <> App.Purple.
Proof.
  split; [reflexivity|].
  apply (proj2 (very_unhealthy_is_never_purple "Very Unhealthy")). reflexivity.
Defined.

Lemma givenCity_blank (c : string) :
  Claimed.blank c = true -> App.givenCity (Some c) = None.
Proof.
  intro H. apply Facts.trim_empty in H. unfold App.givenCity. rewrite H.
  cbn [truthy isEmpty negb]. now rewrite andb_false_r.
Qed.

Lemma givenCity_Some (city : option string) (c : string) :
  App.givenCity city = Some c -> city = Some c /\ Claimed.blank c = false.
Proof.
  unfold App.givenCity. destruct city as [x|]; [|discriminate].
  destruct (truthy x && truthy (Js.trim x)) eqn:E; [|discriminate].
  intro H. injection H as <-. split; [reflexivity|].
  apply andb_true_iff in E as [_ E]. unfold truthy in E. apply negb_true_iff in E.
  destruct (Claimed.blank x) eqn:B; [|reflexivity].
  apply Facts.trim_empty in B. rewrite B in E. discriminate.
Qed.

(** X20. Without a usable city (absent, empty or blank), the "Check Air
    Quality" loader asks for the ranking with limit 1 and looks up the city
    of the single record it gets back; the error "IQAir top list is empty" is
    never raised after a successful ranking call.  A lookup without result
    becomes the error that names that city. *)
Theorem default_city_is_the_top_city (w : World) (city : option string)
    (top : list Ranking.t) :
  App.givenCity city = None ->
  fetchIQAirTopCities w 1 = Ok top ->
  exists first,
    top = [first]
    /\ Claimed.blank (Ranking.city first) = false
    /\ App.fetchIQAirCityDetails w city =
       match fetchIQAirCityDetailsByName w (Ranking.city first) with
       | Ok (Some d) => Ok d
       | Ok None => Throw (App.notInDatabase (Ranking.city first))
       | Throw e => Throw e
       end.
Proof.
  intros Hg Htop.
  pose proof Htop as Hshape.
  apply fetchIQAirTopCities_Ok in Hshape as (response & _ & _ & Hp).
  apply parseRankingDocument_Ok in Hp as (_ & Hne & Heq).
  assert (Hlen : List.length top <= 1).
  { rewrite Heq. change (Z.to_nat 1) with 1. apply firstn_le_length. }
  destruct top as [|first [|second rest]]; [congruence | | simpl in Hlen; lia].
  exists first. split; [reflexivity|]. split.
  - assert (Hin : In first (firstn (Z.to_nat 1)
                              (Claimed.parsedRows w 0
                                 (rankingRows (cheerio_load w (body response))))))
      by (rewrite <- Heq; now left).
    apply Facts.in_firstn in Hin.
    destruct (Facts.parsedRows_origin w _ first 0 Hin) as (i & row & _ & Hrow).
    now apply parseRow_shape in Hrow.
  - unfold App.fetchIQAirCityDetails. rewrite Hg, Htop. cbn [bind].
    destruct (fetchIQAirCityDetailsByName w (Ranking.city first)) as [[d|]|e];
      reflexivity.
Qed.

Lemma default_city_is_the_top_city_witness :
  exists first,
    [Ranking.make 1 "Lahore" "pakistan" 187
       "https://www.iqair.com/us/pakistan/punjab/lahore"] = [first]
    /\ Claimed.blank (Ranking.city first) = false
    /\ App.fetchIQAirCityDetails (Examples.serve Examples.lahoreDelhi []) (Some "  ") =
       match fetchIQAirCityDetailsByName (Examples.serve Examples.lahoreDelhi [])
               (Ranking.city first) with
       | Ok (Some d) => Ok d
       | Ok None => Throw (App.notInDatabase (Ranking.city first))
       | Throw e => Throw e
       end.
Proof.
  apply (default_city_is_the_top_city (Examples.serve Examples.lahoreDelhi [])
           (Some "  ")); reflexivity.
Defined.

(** X21. A city that the search does not know is reported, not returned as
    an absent value: for a usable city name for which the resolver answers
    [null], the "Check Air Quality" loader throws the "not found in IQAir
    database" message and the city view of the top list throws the "not
    found in IQAir ranking" message, each quoting the name as it was
    given. *)
Theorem unknown_city_is_an_error (w : World) (city : option string) (c : string) :
  App.givenCity city = Some c ->
  fetchIQAirCityByName w c = Ok None ->
  App.fetchIQAirCityDetails w city = Throw (App.notInDatabase c)
  /\ App.loadCityView w c = Throw (App.notInRanking c).
Proof.
  intros Hg Hn.
  assert (Hd : fetchIQAirCityDetailsByName w c = Ok None).
  { unfold fetchIQAirCityDetailsByName. now rewrite Hn. }
  split.
  - unfold App.fetchIQAirCityDetails. rewrite Hg. cbn [bind]. now rewrite Hd.
  - unfold App.loadCityView. now rewrite Hd.
Qed.

Lemma unknown_city_is_an_error_witness :
  App.fetchIQAirCityDetails (Examples.serve Examples.emptyPage []) (Some "atlantis")
  = Throw (App.notInDatabase "atlantis")
  /\ App.loadCityView (Examples.serve Examples.emptyPage []) "atlantis"
     = Throw (App.notInRanking "atlantis").
Proof.
  apply (unknown_city_is_an_error (Examples.serve Examples.emptyPage [])
           (Some "atlantis") "atlantis"); reflexivity.
Defined.

(** X22. Which city the command looks up: a usable argument always wins
    over the preference; without one, the preference is used unless it is
    absent or empty; and a preference that is only white space ends, like no
    city at all, in the lookup of the top-ranked city. *)
Theorem command_city_precedence (w : World) (city defaultCity : option string) :
  (forall c, App.givenCity city = Some c ->
             App.checkAirQuality w city defaultCity
             = App.fetchIQAirCityDetails w (Some c))
  /\ (App.givenCity city = None ->
      forall d, defaultCity = Some d -> Claimed.blank d = false ->
                App.checkAirQuality w city defaultCity
                = App.fetchIQAirCityDetails w (Some d))
  /\ (App.givenCity city = None ->
      (defaultCity = None \/ exists d, defaultCity = Some d /\ Claimed.blank d = true) ->
      App.checkAirQuality w city defaultCity = App.fetchIQAirCityDetails w None).
Proof.
  unfold App.checkAirQuality, App.targetCity. split; [|split].
  - intros c Hc. now rewrite Hc.
  - intros Hn d -> Hb. rewrite Hn.
    assert (Ht : truthy d = true).
    { destruct d; [discriminate Hb | reflexivity]. }
    now rewrite Ht.
  - intros Hn [->|(d & -> & Hb)]; rewrite Hn; [reflexivity|].
    destruct (truthy d); [|reflexivity].
    unfold App.fetchIQAirCityDetails. now rewrite (givenCity_blank d Hb).
Qed.

Lemma command_city_precedence_witness :
  App.checkAirQuality (Examples.serve Examples.emptyPage []) (Some "Tashkent") (Some "Delhi")
  = App.fetchIQAirCityDetails (Examples.serve Examples.emptyPage []) (Some "Tashkent")
  /\ App.checkAirQuality (Examples.serve Examples.emptyPage []) (Some " ") (Some "Delhi")
     = App.fetchIQAirCityDetails (Examples.serve Examples.emptyPage []) (Some "Delhi")
  /\ App.checkAirQuality (Examples.serve Examples.emptyPage []) None (Some "  ")
     = App.fetchIQAirCityDetails (Examples.serve Examples.emptyPage []) None.
Proof.
  split; [|split].
  - apply (proj1 (command_city_precedence (Examples.serve Examples.emptyPage [])
                    (Some "Tashkent") (Some "Delhi"))). reflexivity.
  - apply (proj1 (proj2 (command_city_precedence (Examples.serve Examples.emptyPage [])
                           (Some " ") (Some "Delhi")))); reflexivity.
  - apply (proj2 (proj2 (command_city_precedence (Examples.serve Examples.emptyPage [])
                           None (Some "  ")))); [reflexivity|].
    right. exists "  ". split; reflexivity.
Defined.

Lemma toUpperChar_idempotent (c : ascii) : toUpperChar (toUpperChar c) = toUpperChar c.
Proof. destruct c as [[] [] [] [] [] [] [] []]; vm_compute; reflexivity. Qed.

Lemma toUpperChar_not_sharp_s (c : ascii) :
  (code c =? 223) = false -> (code (toUpperChar c) =? 223) = false.
Proof. destruct c as [[] [] [] [] [] [] [] []]; vm_compute; congruence. Qed.

Lemma capitalize_idempotent (w : string) : capitalize (capitalize w) = capitalize w.
Proof.
  destruct w as [|c rest]; [reflexivity|].
  rewrite (capitalize_cons c rest). unfold upperUnits.
  destruct (code c =? 223) eqn:E.
  - reflexivity.
  - change (String (toUpperChar c) EmptyString ++ rest)
      with (String (toUpperChar c) rest).
    rewrite capitalize_cons. unfold upperUnits.
    now rewrite (toUpperChar_not_sharp_s c E), toUpperChar_idempotent.
Qed.

(** X23. The country label of the city view changes the first character of
    the slug only: the label is the upper-case form of the first character
    (two code units, "SS", for a leading sharp s, one code unit otherwise)
    followed by the rest of the slug as it is, so a hyphen and the words
    after it are left alone; the empty slug stays empty, and labelling twice
    is labelling once. *)
Theorem country_label_touches_first_character_only (countrySlug : string) :
  (forall c rest, countrySlug = String c rest ->
     exists u, App.countryLabel countrySlug = u ++ rest
               /\ u = toUpperCase (String c EmptyString)
               /\ String.length u = if code c =? 223 then 2 else 1)
  /\ (App.countryLabel countrySlug = EmptyString <-> countrySlug = EmptyString)
  /\ App.countryLabel (App.countryLabel countrySlug) = App.countryLabel countrySlug.
Proof.
  assert (Hl : App.countryLabel countrySlug = capitalize countrySlug).
  { unfold App.countryLabel. destruct countrySlug; reflexivity. }
  split; [|split].
  - intros c rest ->. exists (upperUnits c). rewrite Hl, capitalize_cons.
    split; [reflexivity|]. split.
    + cbn [toUpperCase]. now rewrite Facts.append_empty_r.
    + apply upperUnits_length.
  - rewrite Hl. destruct countrySlug as [|c rest].
    + split; reflexivity.
    + split; [intro H; now apply capitalize_nonempty in H | discriminate].
  - rewrite Hl. unfold App.countryLabel.
    destruct (truthy (capitalize countrySlug)
              && (0 <? String.length (capitalize countrySlug)));
      [apply capitalize_idempotent | reflexivity].
Qed.

Lemma country_label_touches_first_character_only_witness :
  App.countryLabel "south-korea" = "South-korea"
  /\ App.countryLabel (String "223" "land") = "SSland"
  /\ exists u, App.countryLabel (String "223" "land") = u ++ "land"
               /\ u = toUpperCase (String "223" EmptyString)
               /\ String.length u = 2.
Proof.
  split; [reflexivity|]. split; [reflexivity|].
  exact (proj1 (country_label_touches_first_character_only (String "223" "land"))
           "223"%char "land" eq_refl).
Defined.

(** X24. The city named in the command's error view is never the empty
    string: it is the command's target city (the usable argument, else the
    non-empty preference) when there is one, and the words "default city"
    otherwise. *)
Theorem error_view_names_a_city (city defaultCity : option string) :
  App.errorCityName (App.targetCity city defaultCity) <> EmptyString
  /\ (forall c, App.targetCity city defaultCity = Some c ->
                App.errorCityName (App.targetCity city defaultCity) = c)
  /\ (App.targetCity city defaultCity = None ->
      App.errorCityName (App.targetCity city defaultCity) = "default city").
Proof.
  assert (Ht : forall c, App.targetCity city defaultCity = Some c -> truthy c = true).
  { unfold App.targetCity. intros c H.
    destruct (App.givenCity city) as [x|] eqn:Hg.
    - injection H as <-. unfold App.givenCity in Hg.
      destruct city as [y|]; [|discriminate].
      destruct (truthy y) eqn:Hy; cbn [andb] in Hg; [|discriminate].
      destruct (truthy (Js.trim y)); [|discriminate]. now injection Hg as <-.
    - destruct defaultCity as [d|]; [|discriminate].
      destruct (truthy d) eqn:Hd; [|discriminate]. now injection H as <-. }
  destruct (App.targetCity city defaultCity) as [c|].
  - specialize (Ht c eq_refl). destruct c as [|a c]; [discriminate Ht|].
    split; [discriminate|]. split; [intros c' H; now injection H as <- | discriminate].
  - split; [discriminate|]. split; [discriminate | reflexivity].
Qed.

Lemma error_view_names_a_city_witness :
  App.errorCityName (App.targetCity (Some " ") (Some "Delhi")) = "Delhi"
  /\ App.errorCityName (App.targetCity (Some EmptyString) None) = "default city".
Proof.
  split.
  - apply (proj1 (proj2 (error_view_names_a_city (Some " ") (Some "Delhi")))).
    reflexivity.
  - apply (proj2 (proj2 (error_view_names_a_city (Some EmptyString) None))). reflexivity.
Defined.

End MoreFacts.
